(** * bio-quiz: adaptive weighted selection, answer evaluation, persistence
      and the bank merge utility

    A shallow embedding of [biology_quiz.py] and [combi.py].

    - Question weights are Python floats, i.e. IEEE-754 binary64 values.  They
      are modelled by the executable specification of binary floating point
      of the standard library ([spec_float] at precision 53), with
      round-to-nearest-even arithmetic, signed zeros, infinities and NaN.
    - A Python [dict] is an insertion-ordered association list.
    - Exceptions are an explicit [result] type.
    - The random number generator, the keyboard and the file holding the
      bank are explicit arguments. *)

From Stdlib Require Import ZArith Bool Lia SpecFloat.
From stdpp Require Import base option list gmap strings sorting pretty.

Open Scope Z_scope.

(** ** Binary64 arithmetic *)

Module Float64.

Definition prec : Z := 53.
Definition emax : Z := 1024.

Definition float : Type := spec_float.

(** Conversion of a Python [int] that takes part in float arithmetic. *)
Definition of_int (z : Z) : float := binary_normalize prec emax z 0 false.

Definition add : float -> float -> float := SFadd prec emax.
Definition sub : float -> float -> float := SFsub prec emax.
Definition div : float -> float -> float := SFdiv prec emax.

(** [x < y], [x <= y] and [x == y]; all three are false on NaN. *)
Definition ltb : float -> float -> bool := SFltb.
Definition leb : float -> float -> bool := SFleb.
Definition eqb : float -> float -> bool := SFeqb.

(** The float denoted by the decimal literal [num/den]: the correctly
    rounded quotient of two exactly representable integers. *)
Definition literal (num den : Z) : float := div (of_int num) (of_int den).

Definition zero : float := of_int 0.

(** The literals that occur in the program. *)
Definition f0_1 : float := Eval vm_compute in literal 1 10.
Definition f0_3 : float := Eval vm_compute in literal 3 10.
Definition f0_5 : float := Eval vm_compute in literal 5 10.
Definition f1_0 : float := Eval vm_compute in literal 10 10.

Definition is_nan (x : float) : bool :=
  match x with S754_nan => true | _ => false end.

End Float64.

Import Float64.

(** ** Python runtime: exceptions, builtins, dictionaries *)

Inductive exn : Type :=
  | KeyError
  | IndexError
  | EOFError
  | FileNotFoundError
  | JSONDecodeError
  | UnicodeDecodeError.

Inductive result (A : Type) : Type :=
  | Return (a : A)
  | Raise (e : exn).
Arguments Return {A} a.
Arguments Raise {A} e.

#[global] Instance result_ret : MRet result := @Return.
#[global] Instance result_bind : MBind result :=
  fun A B f m => match m with Return a => f a | Raise e => Raise e end.

(** [max(a, b)] for two positional arguments: the first argument is kept
    unless the second compares strictly greater. *)
Definition py_max (a b : float) : float := if ltb a b then b else a.

(** Insertion-ordered dictionary with string keys. *)
Abbreviation dict V := (list (string * V)).

Fixpoint dict_get {V} (d : dict V) (k : string) : option V :=
  match d with
  | [] => None
  | (k', v) :: d' => if decide (k' = k) then Some v else dict_get d' k
  end.

(** [d[k] = v]: replaces the value of an existing key in place, appends a
    new key at the end. *)
Fixpoint dict_set {V} (d : dict V) (k : string) (v : V) : dict V :=
  match d with
  | [] => [(k, v)]
  | (k', v') :: d' =>
      if decide (k' = k) then (k', v) :: d' else (k', v') :: dict_set d' k v
  end.

Definition keys {V} (d : dict V) : list string := d.*1.

(** ** The quiz program *)

Module BiologyQuiz.

(** A question object.  The key ["weight"] may be absent in a stored
    document that predates weighting. *)
Record Question : Type := mkQuestion {
  question : string;
  options : list string;
  correct_option : string;
  weight : option float
}.

Definition set_weight (q : Question) (w : float) : Question :=
  {| question := question q; options := options q;
     correct_option := correct_option q; weight := Some w |}.

(** [q["weight"]] *)
Definition get_weight (q : Question) : result float :=
  match weight q with
  | Some w => Return w
  | None => Raise KeyError
  end.

(** One entry of [user_stats]. *)
Record Stats : Type := mkStats { correct : Z; incorrect : Z }.

Definition new_stats : Stats := {| correct := 0; incorrect := 0 |}.

Record State : Type := mkState {
  quiz_data : dict (list Question);
  disabled_chapters : gset string;
  user_stats : gmap string Stats
}.

(** The module [random]: [uniform a b] is the value returned by
    [random.uniform(a, b)], [randbelow n] the index drawn by
    [random.choice] on a sequence of length [n]. *)
Record Random : Type := mkRandom {
  uniform : float -> float -> float;
  randbelow : nat -> nat
}.

(** [random.choice(seq)] *)
Definition choice {A} (rng : Random) (seq : list A) : result A :=
  match seq !! randbelow rng (length seq) with
  | Some x => Return x
  | None => Raise IndexError
  end.

(** [sum(q["weight"] for q in questions)], continued from the partial
    sum [acc]: the items are added to the start value from left to right,
    each addition rounded to binary64.  (CPython from 3.12 on compensates
    the rounding errors of a float sum; the total may then differ in its
    last places from the last cumulative weight of the selection loop.) *)
Fixpoint sum_weights (acc : float) (questions : list Question) : result float :=
  match questions with
  | [] => Return acc
  | q :: rest => w ← get_weight q; sum_weights (add acc w) rest
  end.

(** The selection loop, entered with the running [cumulative_weight]. *)
Fixpoint select_loop (r cumulative_weight : float) (questions : list Question)
  : result (option Question) :=
  match questions with
  | [] => Return None
  | q :: rest =>
      w ← get_weight q;
      let cumulative_weight := add cumulative_weight w in
      if leb r cumulative_weight then Return (Some q)
      else select_loop r cumulative_weight rest
  end.

Definition select_question (rng : Random) (self : State) (chapter : string)
  : result (option Question) :=
  if decide (chapter ∈ disabled_chapters self) then Return None
  else
    match dict_get (quiz_data self) chapter with
    | None => Raise KeyError
    | Some questions =>
        match questions with
        | [] => Return None
        | _ :: _ =>
            total_weight ← sum_weights zero questions;
            if eqb total_weight zero then
              q ← choice rng questions; Return (Some q)
            else
              let r := uniform rng zero total_weight in
              found ← select_loop r zero questions;
              match found with
              | Some q => Return (Some q)
              | None => Return (last questions)
              end
        end
    end.

(** *** Answer evaluation *)

(** One line typed at the prompt, as [int(input(...))] sees it:
    [NotANumber] makes [int] raise [ValueError]. *)
Inductive line : Type :=
  | NotANumber
  | Number (n : Z).

(** [self.user_stats[key]] of the [defaultdict]. *)
Definition stats_entry (stats : gmap string Stats) (key : string) : Stats :=
  default new_stats (stats !! key).

(** [self.user_stats[key]["correct"] += 1] *)
Definition count_correct (stats : gmap string Stats) (key : string)
  : gmap string Stats :=
  let s := stats_entry stats key in
  <[key := {| correct := correct s + 1; incorrect := incorrect s |}]> stats.

(** [self.user_stats[key]["incorrect"] += 1] *)
Definition count_incorrect (stats : gmap string Stats) (key : string)
  : gmap string Stats :=
  let s := stats_entry stats key in
  <[key := {| correct := correct s; incorrect := incorrect s + 1 |}]> stats.

(** The body of [ask_question] once [selected_option] is known.  It
    touches the question object and [self.user_stats] only; the question
    is updated in place, so the updated object is returned next to the
    verdict. *)
Definition evaluate (stats : gmap string Stats) (q : Question)
    (selected_option : string)
  : result (bool * Question * gmap string Stats) :=
  let is_correct := bool_decide (selected_option = correct_option q) in
  if is_correct then
    w ← get_weight q;
    let q := set_weight q (py_max f0_1 (sub w f0_3)) in
    Return (is_correct, q, count_correct stats (question q))
  else
    w ← get_weight q;
    let q := set_weight q (add w f0_5) in
    Return (is_correct, q, count_incorrect stats (question q)).

(** The prompt loop: lines are read until one is a number between 1 and
    the number of options.  Running out of input is [EOFError].  The
    lines left unread are returned with the outcome. *)
Fixpoint ask_question (stats : gmap string Stats) (q : Question)
    (inputs : list line)
  : result (bool * Question * gmap string Stats * list line) :=
  match inputs with
  | [] => Raise EOFError
  | NotANumber :: inputs => ask_question stats q inputs
  | Number choice :: inputs =>
      if (1 <=? choice) && (choice <=? Z.of_nat (length (options q))) then
        match options q !! Z.to_nat (choice - 1) with
        | None => Raise IndexError
        | Some selected_option =>
            r ← evaluate stats q selected_option; Return (r, inputs)
        end
      else ask_question stats q inputs
  end.

(** *** Persistence *)

(** The file named [quiz_file] as [open] and the [json] module see it.
    The path is one that the process may read and write wherever its
    directory exists, and it names no directory, so that [open] fails only
    where something is missing.
    - [NoDirectory]: the directory of the path does not exist; [open]
      raises [FileNotFoundError] in both modes.
    - [NoFile]: the directory exists and the file does not.
    - [NotText]: the bytes of the file are no text in the encoding that
      [open] uses; reading them in [json.load] raises
      [UnicodeDecodeError].
    - [NotJSON]: the file is text, and the text is no JSON document;
      [json.load] raises [json.JSONDecodeError].
    - [Document data]: the file is text, the JSON document that
      [json.load] turns into [data] and that [json.dump] writes for
      [data]. *)
Inductive Store : Type :=
  | NoDirectory
  | NoFile
  | NotJSON
  | Document (data : dict (list Question))
  | NotText.

(** [with open(quiz_file, 'r') as file: json.load(file)] *)
Definition json_load (store : Store) : result (dict (list Question)) :=
  match store with
  | NoDirectory => Raise FileNotFoundError
  | NoFile => Raise FileNotFoundError
  | NotText => Raise UnicodeDecodeError
  | NotJSON => Raise JSONDecodeError
  | Document data => Return data
  end.

(** [with open(quiz_file, 'w') as file: json.dump(data, file, indent=2)]:
    opening for writing creates the file or empties it, whatever it
    held. *)
Definition json_dump (data : dict (list Question)) (store : Store) : result Store :=
  match store with
  | NoDirectory => Raise FileNotFoundError
  | NoFile | NotText | NotJSON | Document _ => Return (Document data)
  end.

Definition set_quiz_data (self : State) (data : dict (list Question)) : State :=
  {| quiz_data := data;
     disabled_chapters := disabled_chapters self;
     user_stats := user_stats self |}.

Definition save_quiz_data (self : State) (store : Store) : result (State * Store) :=
  store ← json_dump (quiz_data self) store;
  Return (self, store).

Definition sample_data : dict (list Question) :=
  [ ("Sample Chapter 1",
     [ {| question := "What is the powerhouse of the cell?";
          options := ["Nucleus"; "Mitochondria"; "Golgi apparatus";
                      "Endoplasmic reticulum"];
          correct_option := "Mitochondria";
          weight := Some f1_0 |} ]);
    ("Sample Chapter 2",
     [ {| question := "What is the process by which plants make their food?";
          options := ["Respiration"; "Photosynthesis"; "Transpiration";
                      "Digestion"];
          correct_option := "Photosynthesis";
          weight := Some f1_0 |} ]) ].

Definition create_sample_data (self : State) (store : Store)
  : result (State * Store) :=
  save_quiz_data (set_quiz_data self sample_data) store.

(** The inner loop of [load_quiz_data]. *)
Fixpoint add_weight_questions (questions : list Question) : list Question :=
  match questions with
  | [] => []
  | q :: rest =>
      (match weight q with
       | None => set_weight q f1_0
       | Some _ => q
       end) :: add_weight_questions rest
  end.

(** The outer loop of [load_quiz_data]. *)
Fixpoint add_weight (data : dict (list Question)) : dict (list Question) :=
  match data with
  | [] => []
  | (chapter, questions) :: rest =>
      (chapter, add_weight_questions questions) :: add_weight rest
  end.

Definition load_quiz_data (self : State) (store : Store)
  : result (State * Store) :=
  match json_load store with
  | Return data => Return (set_quiz_data self (add_weight data), store)
  | Raise FileNotFoundError => create_sample_data self store
  | Raise JSONDecodeError => create_sample_data self store
  | Raise e => Raise e
  end.

(** [BiologyQuiz(quiz_file)] *)
Definition init (store : Store) : result (State * Store) :=
  load_quiz_data
    {| quiz_data := []; disabled_chapters := ∅; user_stats := ∅ |} store.

(** *** Vocabulary of the properties *)

(** Every question of the list carries a weight, as after loading. *)
Definition weighted (questions : list Question) : Prop :=
  Forall (fun q => is_Some (weight q)) questions.

(** The index drawn by [random.choice] lies within the sequence. *)
Definition choice_in_range (rng : Random) : Prop :=
  forall n : nat, (0 < n)%nat -> (randbelow rng n < n)%nat.

(** The generator whose next [random.choice] draws index [k]. *)
Definition drawing (rng : Random) (k : nat) : Random :=
  {| uniform := uniform rng; randbelow := fun _ => k |}.

(** The cumulative weight of the questions at positions [0..i]. *)
Definition cumulative (questions : list Question) (i : nat) : result float :=
  sum_weights zero (take (S i) questions).

(** Position [i] is the first whose cumulative weight is at least [r]. *)
Definition first_reaching (r : float) (questions : list Question) (i : nat)
  : Prop :=
  (exists c, cumulative questions i = Return c /\ leb r c = true) /\
  forall j c, (j < i)%nat -> cumulative questions j = Return c -> leb r c = false.

(** No cumulative weight of the list is at least [r]. *)
Definition never_reaching (r : float) (questions : list Question) : Prop :=
  forall j c, (j < length questions)%nat ->
    cumulative questions j = Return c -> leb r c = false.

(** Every question of the bank carries a weight. *)
Definition bank_weighted (data : dict (list Question)) : Prop :=
  Forall (fun item => weighted item.2) data.

(** A line after which [ask_question] prompts again. *)
Definition rejected (q : Question) (l : line) : Prop :=
  match l with
  | NotANumber => True
  | Number n => ~ (1 <= n <= Z.of_nat (length (options q)))
  end.

(** A run of evaluations of one question, one per selected option. *)
Fixpoint evaluations (stats : gmap string Stats) (q : Question)
    (answers : list string) : result (Question * gmap string Stats) :=
  match answers with
  | [] => Return (q, stats)
  | selected_option :: answers =>
      r ← evaluate stats q selected_option;
      evaluations r.2 r.1.2 answers
  end.

(** The question with the default weight 1.0 where it has none. *)
Definition with_default_weight (q : Question) : Question :=
  {| question := question q; options := options q;
     correct_option := correct_option q;
     weight := Some (default f1_0 (weight q)) |}.

(** *** Sample inputs *)

Definition example_question (w : option float) : Question :=
  {| question := "What is the powerhouse of the cell?";
     options := ["Nucleus"; "Mitochondria"; "Golgi apparatus";
                 "Endoplasmic reticulum"];
     correct_option := "Mitochondria";
     weight := w |}.

Definition example_cells : list Question :=
  [example_question (Some f1_0); example_question (Some f0_5)].

Definition example_zeros : list Question :=
  [example_question (Some zero); example_question (Some zero)].

Definition example_state : State :=
  {| quiz_data := [("Cells", example_cells); ("Empty", []);
                   ("Zero", example_zeros)];
     disabled_chapters := {["Plants"]};
     user_stats := ∅ |}.

(** A generator whose [uniform] returns its upper bound and whose
    [choice] draws the first item. *)
Definition example_rng : Random :=
  {| uniform := fun _ b => b; randbelow := fun _ => 0%nat |}.

Definition example_stored : dict (list Question) :=
  [("Cells", [example_question None; example_question (Some f0_5)])].

(** *** Chapter bookkeeping *)

Definition set_disabled_chapters (self : State) (disabled : gset string) : State :=
  {| quiz_data := quiz_data self;
     disabled_chapters := disabled;
     user_stats := user_stats self |}.

(** The line that [list_chapters] prints for the chapter numbered [i]. *)
Definition chapter_line (self : State) (i : nat) (chapter : string) : string :=
  let status :=
    if decide (chapter ∈ disabled_chapters self) then "Disabled" else "Enabled" in
  pretty i +:+ ". " +:+ chapter +:+ " [" +:+ status +:+ "]".

(** [list_chapters]: what it prints, one string per call of [print];
    [enumerate] numbers the chapters from 1. *)
Definition list_chapters (self : State) : list string :=
  String (Ascii.ascii_of_nat 10) "Available Chapters:"
  :: imap (fun i chapter => chapter_line self (S i) chapter)
          (keys (quiz_data self)).

(** [toggle_chapter]: the new state and the message printed. *)
Definition toggle_chapter (self : State) (chapter_idx : Z)
  : result (State * string) :=
  let chapters := keys (quiz_data self) in
  if (1 <=? chapter_idx) && (chapter_idx <=? Z.of_nat (length chapters)) then
    match chapters !! Z.to_nat (chapter_idx - 1) with
    | None => Raise IndexError
    | Some chapter =>
        if decide (chapter ∈ disabled_chapters self) then
          Return (set_disabled_chapters self (disabled_chapters self ∖ {[chapter]}),
                  "Enabled: " +:+ chapter)
        else
          Return (set_disabled_chapters self (disabled_chapters self ∪ {[chapter]}),
                  "Disabled: " +:+ chapter)
    end
  else Return (self, "Invalid chapter number!").

(** *** Sessions *)

(** The question objects of a bank are distinct objects, one per position
    of a chapter's list ([json.load] and the sample data build them so), and
    [ask_question] updates the object it is given in place.  A session
    therefore tracks the position of the question that was selected and
    writes the evaluated question back there. *)

(** The selection loop, returning the position instead of the object;
    [i] is the position of the head of [questions]. *)
Fixpoint select_loop_index (r cumulative_weight : float)
    (questions : list Question) (i : nat) : result (option nat) :=
  match questions with
  | [] => Return None
  | q :: rest =>
      w ← get_weight q;
      let cumulative_weight := add cumulative_weight w in
      if leb r cumulative_weight then Return (Some i)
      else select_loop_index r cumulative_weight rest (S i)
  end.

(** [select_question], returning the position of the object it returns. *)
Definition select_index (rng : Random) (self : State) (chapter : string)
  : result (option nat) :=
  if decide (chapter ∈ disabled_chapters self) then Return None
  else
    match dict_get (quiz_data self) chapter with
    | None => Raise KeyError
    | Some questions =>
        match questions with
        | [] => Return None
        | _ :: _ =>
            total_weight ← sum_weights zero questions;
            if eqb total_weight zero then
              let k := randbelow rng (length questions) in
              match questions !! k with
              | Some _ => Return (Some k)
              | None => Raise IndexError
              end
            else
              let r := uniform rng zero total_weight in
              found ← select_loop_index r zero questions 0;
              match found with
              | Some i => Return (Some i)
              | None => Return (Some (length questions - 1)%nat)
              end
        end
    end.

(** The question object at a position of the bank. *)
Definition question_at (data : dict (list Question)) (chapter : string) (i : nat)
  : option Question :=
  questions ← dict_get data chapter; questions !! i.

(** The bank after the question object at a position has been updated. *)
Definition put_question (data : dict (list Question)) (chapter : string)
    (i : nat) (q : Question) : dict (list Question) :=
  match dict_get data chapter with
  | Some questions => dict_set data chapter (<[i := q]> questions)
  | None => data
  end.

(** One line typed at the keyboard, by what the sessions can tell of it:
    the number [int] reads in it, or else whether it is ["y"] once
    lowercased. *)
Inductive typed : Type :=
  | TypedNumber (n : Z)
  | TypedYes
  | TypedOther.

(** The line as [int(input(...))] sees it. *)
Definition as_line (t : typed) : line :=
  match t with
  | TypedNumber n => Number n
  | TypedYes | TypedOther => NotANumber
  end.

(** [input(...).lower() == 'y'] *)
Definition says_yes (t : typed) : bool :=
  match t with
  | TypedYes => true
  | TypedNumber _ | TypedOther => false
  end.

(** [self.ask_question(question)] for the question object at a position:
    the verdict, the state in which the object and the statistics are
    updated, and the lines left on the keyboard. *)
Definition ask_at (self : State) (chapter : string) (i : nat)
    (stdin : list typed) : result (bool * State * list typed) :=
  match question_at (quiz_data self) chapter i with
  | None => Raise IndexError
  | Some q =>
      r ← ask_question (user_stats self) q (as_line <$> stdin);
      let '(verdict, q, stats, rest) := r in
      Return (verdict,
              {| quiz_data := put_question (quiz_data self) chapter i q;
                 disabled_chapters := disabled_chapters self;
                 user_stats := stats |},
              drop (length stdin - length rest) stdin)
  end.

(** The counters of a session. *)
Record Score : Type := mkScore { question_count : Z; correct_count : Z }.

Definition count_answer (score : Score) (verdict : bool) : Score :=
  {| question_count := question_count score + 1;
     correct_count :=
       if verdict then correct_count score + 1 else correct_count score |}.

(** The loop of [study_chapter].  [rng n] is the [random] module as the
    [n]-th selection from now finds it.  Every round reads at least one
    line, so [fuel] above the number of lines typed is never used up. *)
Fixpoint study_loop (fuel : nat) (rng : nat -> Random) (self : State)
    (chapter : string) (stdin : list typed) (score : Score)
  : result (State * Score * list typed) :=
  match fuel with
  | O => Raise EOFError
  | S fuel =>
      selected ← select_index (rng 0%nat) self chapter;
      match selected with
      | None => Return (self, score, stdin)
      | Some i =>
          r ← ask_at self chapter i stdin;
          let '(verdict, self, stdin) := r in
          let score := count_answer score verdict in
          match stdin with
          | [] => Raise EOFError
          | choice :: stdin =>
              if says_yes choice then
                study_loop fuel (fun n => rng (S n)) self chapter stdin score
              else Return (self, score, stdin)
          end
      end
  end.

Definition study_chapter (rng : nat -> Random) (self : State) (store : Store)
    (chapter : string) (stdin : list typed)
  : result (State * Store * Score * list typed) :=
  let score := {| question_count := 0; correct_count := 0 |} in
  r ← study_loop (S (length stdin)) rng self chapter stdin score;
  let '(self, score, stdin) := r in
  saved ← save_quiz_data self store;
  Return (saved.1, saved.2, score, stdin).

(** [enabled_chapters] of [test_all_chapters]. *)
Definition enabled_chapters (self : State) : list string :=
  filter (fun ch => ch ∉ disabled_chapters self) (keys (quiz_data self)).

(** The positions of the question objects of a chapter. *)
Definition chapter_positions (self : State) (chapter : string)
  : result (list (string * nat)) :=
  match dict_get (quiz_data self) chapter with
  | None => Raise KeyError
  | Some questions => Return ((fun i => (chapter, i)) <$> seq 0 (length questions))
  end.

(** [all_questions] of [test_all_chapters], before the shuffle. *)
Fixpoint all_questions (self : State) (chapters : list string)
  : result (list (string * nat)) :=
  match chapters with
  | [] => Return []
  | chapter :: chapters =>
      here ← chapter_positions self chapter;
      rest ← all_questions self chapters;
      Return (here ++ rest)
  end.

(** The loop of [test_all_chapters] over the shuffled questions. *)
Fixpoint test_loop (items : list (string * nat)) (self : State)
    (stdin : list typed) (score : Score)
  : result (State * Score * list typed) :=
  match items with
  | [] => Return (self, score, stdin)
  | (chapter, i) :: items =>
      r ← ask_at self chapter i stdin;
      let '(verdict, self, stdin) := r in
      let score := count_answer score verdict in
      if question_count score mod 5 =? 0 then
        match stdin with
        | [] => Raise EOFError
        | choice :: stdin =>
            if says_yes choice then test_loop items self stdin score
            else Return (self, score, stdin)
        end
      else test_loop items self stdin score
  end.

(** [test_all_chapters]; [shuffle] is the order [random.shuffle] leaves the
    list in. *)
Definition test_all_chapters
    (shuffle : list (string * nat) -> list (string * nat))
    (self : State) (store : Store) (stdin : list typed)
  : result (State * Store * Score * list typed) :=
  let score := {| question_count := 0; correct_count := 0 |} in
  match enabled_chapters self with
  | [] => Return (self, store, score, stdin)
  | enabled =>
      questions ← all_questions self enabled;
      r ← test_loop (shuffle questions) self stdin score;
      let '(self, score, stdin) := r in
      saved ← save_quiz_data self store;
      Return (saved.1, saved.2, score, stdin)
  end.

(** *** The menu *)

(** The keyboard of [run] holds the lines as text.  [int] is Python's
    [int] on a string: the number it reads, or [None] where it raises
    [ValueError].  A line is ["y"] once lowercased when it is ["y"] or
    ["Y"], and [int] reads no number in these. *)
Definition read (int : string -> option Z) (text : string) : typed :=
  if decide (text = "y" \/ text = "Y") then TypedYes
  else
    match int text with
    | Some n => TypedNumber n
    | None => TypedOther
    end.

(** The lines of [stdin] that a session which left [rest] has not read. *)
Definition unread {A} (stdin : list string) (rest : list A) : list string :=
  drop (length stdin - length rest) stdin.

(** [except ValueError] catches [json.JSONDecodeError] and
    [UnicodeDecodeError], subclasses of [ValueError], and none of the
    other exceptions. *)
Definition is_ValueError (e : exn) : bool :=
  match e with
  | JSONDecodeError | UnicodeDecodeError => true
  | KeyError | IndexError | EOFError | FileNotFoundError => false
  end.

(** One round of the loop of [run]: whether the loop ends, the state,
    the store and the lines left.  What is printed is left out; choices
    1 and 5 only print.  The handlers of [ValueError] resume the loop with
    the state as it was; no call under them raises a [ValueError]. *)
Definition menu (int : string -> option Z) (rng : nat -> Random)
    (shuffle : list (string * nat) -> list (string * nat))
    (self : State) (store : Store) (stdin : list string)
  : result (bool * State * Store * list string) :=
  match stdin with
  | [] => Raise EOFError
  | choice :: stdin =>
      if decide (choice = "1") then Return (false, self, store, stdin)
      else if decide (choice = "2") then
        match stdin with
        | [] => Raise EOFError
        | text :: stdin =>
            match int text with
            | None => Return (false, self, store, stdin)
            | Some chapter_idx =>
                let chapters := keys (quiz_data self) in
                if (1 <=? chapter_idx)
                   && (chapter_idx <=? Z.of_nat (length chapters)) then
                  match chapters !! Z.to_nat (chapter_idx - 1) with
                  | None => Raise IndexError
                  | Some chapter =>
                      if decide (chapter ∈ disabled_chapters self) then
                        Return (false, self, store, stdin)
                      else
                        match study_chapter rng self store chapter
                                (read int <$> stdin) with
                        | Return (self', store', _, rest) =>
                            Return (false, self', store', unread stdin rest)
                        | Raise e =>
                            if is_ValueError e then
                              Return (false, self, store, stdin)
                            else Raise e
                        end
                  end
                else Return (false, self, store, stdin)
            end
        end
      else if decide (choice = "3") then
        r ← test_all_chapters shuffle self store (read int <$> stdin);
        let '(self', store', _, rest) := r in
        Return (false, self', store', unread stdin rest)
      else if decide (choice = "4") then
        match stdin with
        | [] => Raise EOFError
        | text :: stdin =>
            match int text with
            | None => Return (false, self, store, stdin)
            | Some chapter_idx =>
                match toggle_chapter self chapter_idx with
                | Return (self', _) => Return (false, self', store, stdin)
                | Raise e =>
                    if is_ValueError e then Return (false, self, store, stdin)
                    else Raise e
                end
            end
        end
      else if decide (choice = "5") then Return (false, self, store, stdin)
      else if decide (choice = "6") then Return (true, self, store, stdin)
      else Return (false, self, store, stdin)
  end.

(** The loop of [run].  [rng t] and [shuffle t] are the [random] module
    as the [t]-th round from now finds it.  Every round reads at least one
    line, so [fuel] above the number of lines typed is never used up. *)
Fixpoint run_loop (fuel : nat) (int : string -> option Z)
    (rng : nat -> nat -> Random)
    (shuffle : nat -> list (string * nat) -> list (string * nat))
    (self : State) (store : Store) (stdin : list string)
  : result (State * Store * list string) :=
  match fuel with
  | O => Raise EOFError
  | S fuel =>
      r ← menu int (rng 0%nat) (shuffle 0%nat) self store stdin;
      let '(exit, self, store, stdin) := r in
      if exit : bool then Return (self, store, stdin)
      else
        run_loop fuel int (fun t => rng (S t)) (fun t => shuffle (S t))
          self store stdin
  end.

Definition run (int : string -> option Z) (rng : nat -> nat -> Random)
    (shuffle : nat -> list (string * nat) -> list (string * nat))
    (self : State) (store : Store) (stdin : list string)
  : result (State * Store * list string) :=
  run_loop (S (length stdin)) int rng shuffle self store stdin.

(** *** Vocabulary of the further properties *)

(** Every entry of the statistics records at least one answer, and no
    counter is negative. *)
Definition stats_answered (stats : gmap string Stats) : Prop :=
  forall key s, stats !! key = Some s ->
    0 <= correct s /\ 0 <= incorrect s /\ 0 < correct s + incorrect s.

(** The question carries a weight of at least 0.1. *)
Definition at_floor (q : Question) : Prop :=
  exists w, weight q = Some w /\ leb f0_1 w = true.

(** Every question of the bank carries a weight of at least 0.1. *)
Definition bank_at_floor (data : dict (list Question)) : Prop :=
  Forall (fun item => Forall at_floor item.2) data.

(** The question without its weight. *)
Definition strip_weight (q : Question) : Question :=
  {| question := question q; options := options q;
     correct_option := correct_option q; weight := None |}.

(** The bank without its weights: chapters, their order, and the text,
    options and answer of every question. *)
Definition skeleton (data : dict (list Question)) : dict (list Question) :=
  prod_map id (fmap (M:=list) strip_weight) <$> data.

(** [q'] is [q] after one evaluation. *)
Definition one_answer (q q' : Question) : Prop :=
  exists w, weight q = Some w /\
    (q' = set_weight q (py_max f0_1 (sub w f0_3)) \/
     q' = set_weight q (add w f0_5)).

(** [self'] is [self] after answers to questions of the chapters
    [touched]: only weights of those chapters and the statistics may
    differ, and what held of the weights and the statistics before holds
    after. *)
Definition after_answers (touched : string -> Prop) (self self' : State) : Prop :=
  skeleton (quiz_data self') = skeleton (quiz_data self) /\
  disabled_chapters self' = disabled_chapters self /\
  (forall chapter, ~ touched chapter ->
     dict_get (quiz_data self') chapter = dict_get (quiz_data self) chapter) /\
  (bank_weighted (quiz_data self) -> bank_weighted (quiz_data self')) /\
  (bank_at_floor (quiz_data self) -> bank_at_floor (quiz_data self')) /\
  (stats_answered (user_stats self) -> stats_answered (user_stats self')).

(** The counters [score'] continue the counters [score]. *)
Definition score_grows (score score' : Score) : Prop :=
  0 <= correct_count score' - correct_count score
    <= question_count score' - question_count score.

(** [self'] is [self] after some rounds of the menu: the bank has the
    same chapters and questions, and what held of the weights and the
    statistics still holds. *)
Definition after_rounds (self self' : State) : Prop :=
  skeleton (quiz_data self') = skeleton (quiz_data self) /\
  (bank_weighted (quiz_data self) -> bank_weighted (quiz_data self')) /\
  (bank_at_floor (quiz_data self) -> bank_at_floor (quiz_data self')) /\
  (stats_answered (user_stats self) -> stats_answered (user_stats self')).

(** The store is in step with the memory: it holds the bank of [self'], or
    the bank has not changed since [self] and the store is still [store]. *)
Definition in_step (self : State) (store : Store) (self' : State)
    (store' : Store) : Prop :=
  store' = Document (quiz_data self') \/
  (store' = store /\ quiz_data self' = quiz_data self).

(** *** Sample sessions *)

(** The same generator at every selection. *)
Definition example_rngs (n : nat) : Random := example_rng.

(** A line that is no number, a number out of range, the answer 2, a line
    other than ["y"], and a line that is left unread. *)
Definition example_keyboard : list typed :=
  [TypedOther; TypedNumber 7; TypedNumber 2; TypedOther; TypedNumber 1].

(** Four answers, one for each question of the enabled chapters of
    [example_state]. *)
Definition example_answers : list typed :=
  [TypedNumber 2; TypedNumber 1; TypedNumber 2; TypedNumber 3].

(** A question whose [correct_option] is misspelt. *)
Definition example_misprint : Question :=
  {| question := "What is the powerhouse of the cell?";
     options := ["Nucleus"; "Mitochondria"];
     correct_option := "Mitochondrion";
     weight := Some f1_0 |}.

(** [int] on the lines of the sample menu session: a single digit is
    read as its number, the other lines hold no number. *)
Definition example_int (text : string) : option Z :=
  match text with
  | String c EmptyString =>
      let n := Z.of_nat (Ascii.nat_of_ascii c) in
      if (48 <=? n) && (n <=? 57) then Some (n - 48) else None
  | _ => None
  end.

(** Listing the chapters, disabling chapter 2, a line that is no choice,
    studying chapter 1 for one question, leaving, and a line left unread. *)
Definition example_menu : list string :=
  ["1"; "4"; "2"; "help"; "2"; "1"; "2"; "n"; "6"; "1"].

(** A bank whose only chapter is disabled. *)
Definition example_resting : State :=
  {| quiz_data := [("Plants", example_cells)];
     disabled_chapters := {["Plants"]};
     user_stats := ∅ |}.

End BiologyQuiz.

(** ** The merge utility *)

Module Combi.

(** List objects live in a heap and are referred to by address, so that
    two dictionaries can share one list.  A dictionary object holds
    references to its list objects. *)
Abbreviation loc := nat.
Abbreviation heap Q := (gmap loc (list Q)).
Abbreviation pydict := (dict loc).

Section WithItems.

(** The utility never looks inside a question: the items of the lists
    are arbitrary. *)
Context {Q : Type}.

(** The contents of the list at address [l]. *)
Definition deref (h : heap Q) (l : loc) : list Q := default [] (h !! l).

(** The document a dictionary denotes in a heap; this is what
    [json.dump] writes. *)
Definition contents (h : heap Q) (d : pydict) : dict (list Q) :=
  prod_map id (deref h) <$> d.

(** [load_json(file_path)]: [json.load] builds a new list object for
    each chapter of the document. *)
Fixpoint load_json (document : dict (list Q)) (h : heap Q) : pydict * heap Q :=
  match document with
  | [] => ([], h)
  | (key, value) :: rest =>
      let l := fresh (dom h) in
      let '(d, h) := load_json rest (<[l := value]> h) in
      ((key, l) :: d, h)
  end.

(** [target.extend(source)] on two list objects. *)
Definition extend (target source : loc) (h : heap Q) : heap Q :=
  <[target := deref h target ++ deref h source]> h.

(** The loop of [merge_json] over [dict2.items()]. *)
Fixpoint merge_loop (items : list (string * loc)) (merged_dict : pydict)
    (h : heap Q) : pydict * heap Q :=
  match items with
  | [] => (merged_dict, h)
  | (key, value) :: items =>
      match dict_get merged_dict key with
      | Some l => merge_loop items merged_dict (extend l value h)
      | None => merge_loop items (dict_set merged_dict key value) h
      end
  end.

(** [dict1.copy()] is a new dictionary object holding the same
    references as [dict1]. *)
Definition merge_json (dict1 dict2 : pydict) (h : heap Q) : pydict * heap Q :=
  let merged_dict := dict1 in
  merge_loop dict2 merged_dict h.

(** The order of [(key, value)] tuples that [sorted] uses.  The keys of
    a dictionary are pairwise distinct, so the order of two items is
    decided by their keys.  Python compares strings lexicographically by
    code point, which is the lexicographic order of their UTF-8 bytes, the
    characters of a [string] here. *)
Definition item_le (a b : string * loc) : Prop := String.le a.1 b.1.

#[export] Instance item_le_dec : RelDecision item_le.
Proof. intros a b. unfold item_le. apply _. Defined.

(** [sorted(d.items())] *)
Definition sorted (items : list (string * loc)) : list (string * loc) :=
  merge_sort item_le items.

(** [dict(items)] *)
Definition dict_of_items (items : list (string * loc)) : pydict :=
  foldl (fun d kv => dict_set d kv.1 kv.2) [] items.

(** The variables of the script when it ends. *)
Record Globals : Type := mkGlobals {
  quiz_data_1 : pydict;
  quiz_data_2 : pydict;
  combined_data : pydict;
  sorted_combined_data : pydict;
  memory : heap Q
}.

(** The script, run on the documents held by the two input files. *)
Definition run (file1 file2 : dict (list Q)) : Globals :=
  let '(quiz_data_1, h) := load_json file1 ∅ in
  let '(quiz_data_2, h) := load_json file2 h in
  let '(combined_data, h) := merge_json quiz_data_1 quiz_data_2 h in
  let sorted_combined_data := dict_of_items (sorted combined_data) in
  {| quiz_data_1 := quiz_data_1;
     quiz_data_2 := quiz_data_2;
     combined_data := combined_data;
     sorted_combined_data := sorted_combined_data;
     memory := h |}.

(** The document written to the output file. *)
Definition output (file1 file2 : dict (list Q)) : dict (list Q) :=
  let g := run file1 file2 in
  contents (memory g) (sorted_combined_data g).

(** *** Vocabulary of the properties *)

(** The list the merge is meant to hold for a chapter whose lists in
    the two banks are [a] and [b]: the concatenation when the chapter is
    in both, the one list when it is in one bank only. *)
Definition merged_list (a b : option (list Q)) : option (list Q) :=
  match a, b with
  | Some a, Some b => Some (a ++ b)
  | Some a, None => Some a
  | None, Some b => Some b
  | None, None => None
  end.

(** What the first bank's own list object holds after the merge. *)
Definition own_list (a b : option (list Q)) : option (list Q) :=
  match a, b with
  | Some a, Some b => Some (a ++ b)
  | Some a, None => Some a
  | None, _ => None
  end.

(** The number of questions a document holds, all chapters together. *)
Definition question_total (document : dict (list Q)) : nat :=
  sum_list_with (fun item => length item.2) document.

End WithItems.

(** *** Sample inputs *)

Definition example_file1 : dict (list string) := [("Ch1", ["q1"])].

Definition example_file2 : dict (list string) :=
  [("Ch1", ["q2"]); ("Ch2", ["q3"])].

(** The second bank with its chapters the other way round. *)
Definition example_file2_reordered : dict (list string) :=
  [("Ch2", ["q3"]); ("Ch1", ["q2"])].

End Combi.

(** * Properties *)

(** ** Binary64 rounding *)

Section Rounding.

Lemma digits2_pos_size (p : positive) : digits2_pos p = Pos.size p.
Proof. induction p; simpl; congruence. Qed.

Lemma Zdigits2_log2 (p : positive) :
  Zdigits2 (Zpos p) = Z.log2 (Zpos p) + 1.
Proof.
  unfold Zdigits2. rewrite digits2_pos_size.
  destruct p; simpl; lia.
Qed.

Lemma Zdigits2_pos (m : Z) : 0 < m -> 0 < Zdigits2 m.
Proof. destruct m; simpl; lia. Qed.

Lemma Zdigits2_mono (a b : Z) : 0 < a -> a <= b -> Zdigits2 a <= Zdigits2 b.
Proof.
  intros Ha Hab.
  destruct a as [|a|a]; try lia. destruct b as [|b|b]; try lia.
  rewrite !Zdigits2_log2.
  pose proof (Z.log2_le_mono (Zpos a) (Zpos b) Hab). lia.
Qed.

(** Shifting left by [d] bits adds [d] digits. *)
Lemma digits2_shl (m d : positive) :
  Zpos (digits2_pos (Pos.iter xO m d)) = Zpos (digits2_pos m) + Zpos d.
Proof.
  induction d as [|d IH] using Pos.peano_ind.
  - simpl. lia.
  - rewrite Pos.iter_succ. simpl digits2_pos. lia.
Qed.

(** One step of right shift drops one digit and keeps the sign. *)
Lemma shr_1_digits (mrs : shr_record) :
  0 <= shr_m mrs ->
  0 <= shr_m (shr_1 mrs) /\
  Zdigits2 (shr_m (shr_1 mrs)) = Z.max 0 (Zdigits2 (shr_m mrs) - 1).
Proof.
  destruct mrs as [m r s]. simpl. intros Hm.
  destruct m as [|[p|p|]|p]; simpl; try lia.
Qed.

Lemma iter_shr_1_digits (p : positive) (mrs : shr_record) :
  0 <= shr_m mrs ->
  0 <= shr_m (SpecFloat.iter_pos shr_1 p mrs) /\
  Zdigits2 (shr_m (SpecFloat.iter_pos shr_1 p mrs))
    = Z.max 0 (Zdigits2 (shr_m mrs) - Zpos p).
Proof.
  revert mrs. induction p as [p IH|p IH|]; intros mrs Hm; simpl SpecFloat.iter_pos.
  - destruct (shr_1_digits mrs Hm) as [H1 E1].
    destruct (IH _ H1) as [H2 E2]. destruct (IH _ H2) as [H3 E3].
    split; [done|]. rewrite E3, E2, E1. lia.
  - destruct (IH _ Hm) as [H2 E2]. destruct (IH _ H2) as [H3 E3].
    split; [done|]. rewrite E3, E2. lia.
  - apply shr_1_digits, Hm.
Qed.

(** A right shift by fewer bits than the mantissa has digits leaves a
    positive mantissa. *)
Lemma shr_positive (m : Z) (r s : bool) (e n : Z) :
  0 < m -> n < Zdigits2 m ->
  0 < shr_m (shr (Build_shr_record m r s) e n).1 /\
  (shr (Build_shr_record m r s) e n).2 = e + Z.max 0 n.
Proof.
  intros Hm Hn. unfold shr. destruct n as [|p|p]; simpl; try lia.
  destruct (iter_shr_1_digits p (Build_shr_record m r s)) as [H0 Hd];
    [simpl; lia|].
  simpl in Hd. split; [|lia].
  assert (0 < Zdigits2 (shr_m (SpecFloat.iter_pos shr_1 p (Build_shr_record m r s))))
    as Hpos by lia.
  destruct (shr_m (SpecFloat.iter_pos shr_1 p (Build_shr_record m r s)));
    simpl in *; lia.
Qed.

Lemma shr_fexp_positive (m e : Z) (l : location) :
  0 < m -> emin prec emax < Zdigits2 m + e ->
  0 < shr_m (shr_fexp prec emax m e l).1 /\
  fexp prec emax (Zdigits2 m + e) <= (shr_fexp prec emax m e l).2 /\
  e <= (shr_fexp prec emax m e l).2.
Proof.
  intros Hm He. unfold shr_fexp.
  assert (fexp prec emax (Zdigits2 m + e) - e < Zdigits2 m) as Hn.
  { unfold fexp, emin, prec, emax in *. lia. }
  destruct l as [|[]]; simpl shr_record_of_loc;
    match goal with |- context [shr (Build_shr_record m ?r ?s) e ?n] =>
      destruct (shr_positive m r s e n Hm Hn) as [H1 H2]; rewrite H2
    end; (split; [done|lia]).
Qed.

Lemma round_nearest_even_ge (m : Z) (l : location) :
  m <= round_nearest_even m l.
Proof.
  unfold round_nearest_even.
  destruct l as [|[]]; try lia. destruct (Z.even m); lia.
Qed.

(** Rounding a positive number that does not underflow gives a positive
    float or overflows to plus infinity, and the exponent of the float is
    at least the one its magnitude calls for. *)
Lemma binary_round_aux_positive (m : positive) (e : Z) (l : location) :
  emin prec emax < Zdigits2 (Zpos m) + e ->
  binary_round_aux prec emax false (Zpos m) e l = S754_infinity false \/
  exists m' e',
    binary_round_aux prec emax false (Zpos m) e l = S754_finite false m' e' /\
    fexp prec emax (Zdigits2 (Zpos m) + e) <= e'.
Proof.
  intros He. unfold binary_round_aux.
  destruct (shr_fexp_positive (Zpos m) e l) as (H1 & E1 & _); [lia|done|].
  destruct (shr_fexp prec emax (Zpos m) e l) as [mrs1 e1]. simpl in H1, E1.
  set (m1 := round_nearest_even (shr_m mrs1) (loc_of_shr_record mrs1)).
  assert (0 < m1) as Hm1.
  { pose proof (round_nearest_even_ge (shr_m mrs1) (loc_of_shr_record mrs1)).
    unfold m1. lia. }
  assert (emin prec emax <= e1) as He1.
  { unfold fexp in E1. lia. }
  destruct (shr_fexp_positive m1 e1 loc_Exact Hm1) as (H2 & _ & He2).
  { pose proof (Zdigits2_pos m1 Hm1). lia. }
  destruct (shr_fexp prec emax m1 e1 loc_Exact) as [mrs2 e2]. simpl in H2, He2.
  destruct (shr_m mrs2) as [|m2|m2]; try lia.
  destruct (e2 <=? emax - prec); [right|left; done].
  exists m2, e2. split; [done|]. simpl Zdigits2. lia.
Qed.

Lemma binary_round_positive (m : positive) (e : Z) :
  emin prec emax < Zpos (digits2_pos m) + e ->
  binary_round prec emax false m e = S754_infinity false \/
  exists m' e',
    binary_round prec emax false m e = S754_finite false m' e' /\
    fexp prec emax (Zpos (digits2_pos m) + e) <= e'.
Proof.
  intros He. unfold binary_round, shl_align.
  destruct (fexp prec emax (Zpos (digits2_pos m) + e) - e) as [|d|d] eqn:Hd.
  - apply (binary_round_aux_positive m e loc_Exact He).
  - apply (binary_round_aux_positive m e loc_Exact He).
  - assert (Zdigits2 (Zpos (Pos.iter xO m d))
            + fexp prec emax (Zpos (digits2_pos m) + e)
            = Zpos (digits2_pos m) + e) as Hsame.
    { simpl Zdigits2. rewrite digits2_shl. lia. }
    destruct (binary_round_aux_positive (Pos.iter xO m d)
                (fexp prec emax (Zpos (digits2_pos m) + e)) loc_Exact)
      as [->|(m' & e' & -> & Hle)].
    + rewrite Hsame. done.
    + by left.
    + right. exists m', e'. split; [done|]. rewrite Hsame in Hle. done.
Qed.

End Rounding.

(** ** Weights under the update rule *)

Section WeightFacts.

Lemma ltb_leb (x y : float) : ltb x y = true -> leb x y = true.
Proof.
  unfold ltb, leb, SFltb, SFleb. by destruct (SFcompare x y) as [[]|].
Qed.

(** Whatever is at least the floor is non-negative. *)
Lemma floor_nonneg (w : float) : leb f0_1 w = true -> leb zero w = true.
Proof. destruct w as [[]|[]| |[] m e]; done. Qed.

(** [max(0.1, x)] is never below the floor, also when [x] is NaN. *)
Lemma py_max_floor (x : float) : leb f0_1 (py_max f0_1 x) = true.
Proof.
  unfold py_max. destruct (ltb f0_1 x) eqn:Hlt.
  - by apply ltb_leb.
  - done.
Qed.

(** [max(0.1, x)] is one of its arguments, and [x] only when it is the
    greater one. *)
Lemma py_max_cases (x : float) :
  (py_max f0_1 x = x /\ ltb f0_1 x = true) \/
  (py_max f0_1 x = f0_1 /\ ltb f0_1 x = false).
Proof. unfold py_max. destruct (ltb f0_1 x); auto. Qed.

(** A number that is not above the floor is at most the floor. *)
Lemma not_above_floor (x : float) :
  is_nan x = false -> ltb f0_1 x = false -> leb x f0_1 = true.
Proof.
  destruct x as [[]|[]| |[] m e]; try (intros; reflexivity); try discriminate.
  intros _. unfold ltb, leb, SFltb, SFleb, f0_1, SFcompare.
  rewrite (Z.compare_antisym (-56) e).
  destruct (-56 ?= e); cbn [CompOpp]; try discriminate; try reflexivity.
  change (Pos.compare_cont Eq m 7205759403792794)
    with (Pos.compare_cont (CompOpp Eq) m 7205759403792794).
  rewrite <- (Pos.compare_cont_antisym 7205759403792794 m Eq).
  destruct (Pos.compare_cont Eq 7205759403792794 m); cbn [CompOpp];
    try discriminate; reflexivity.
Qed.

(** On numbers, [max(0.1, x)] is the greater of the two: it is one of
    them and neither is above it. *)
Lemma py_max_greatest (x : float) :
  is_nan x = false ->
  (py_max f0_1 x = x \/ py_max f0_1 x = f0_1) /\
  leb f0_1 (py_max f0_1 x) = true /\
  leb x (py_max f0_1 x) = true.
Proof.
  intros Hx. split; [|split].
  - destruct (py_max_cases x) as [[-> _]|[-> _]]; auto.
  - apply py_max_floor.
  - destruct (py_max_cases x) as [[-> Hlt]|[-> Hlt]].
    + destruct x as [[]|[]| |[] m e]; try reflexivity; try discriminate.
      unfold leb, SFleb, SFcompare. rewrite Z.compare_refl.
      assert (Pos.compare_cont Eq m m = Eq) as -> by apply Pos.compare_refl.
      reflexivity.
    + by apply not_above_floor.
Qed.

(** Adding 0.5 to a non-negative weight lands at or above the floor: the
    sum is at least 0.5 before rounding, and rounding to nearest cannot
    take it below the exponent of 0.5. *)
Lemma add_half_floor (w : float) :
  leb zero w = true -> leb f0_1 (add w f0_5) = true.
Proof.
  destruct w as [[]|[]| |[] m e]; try done.
  intros _. unfold add, f0_5, SFadd.
  set (ez := Z.min e (-53)).
  set (a := (shl_align m e ez).1).
  set (b := (shl_align 4503599627370496 (-53) ez).1).
  change (cond_Zopp false (Zpos a) + cond_Zopp false (Zpos b)) with (Zpos (a + b)).
  change (binary_normalize prec emax (Zpos (a + b)) ez false)
    with (binary_round prec emax false (a + b) ez).
  assert (Zpos (digits2_pos b) + ez = 0) as Hb.
  { unfold b, shl_align. destruct (ez - -53) as [|d|d] eqn:Hd; try lia.
    - simpl. lia.
    - simpl fst. rewrite digits2_shl. simpl digits2_pos. lia. }
  assert (0 <= Zpos (digits2_pos (a + b)) + ez) as Hab.
  { pose proof (Zdigits2_mono (Zpos b) (Zpos (a + b))) as Hmono.
    simpl Zdigits2 in Hmono. lia. }
  destruct (binary_round_positive (a + b) ez) as [->|(m' & e' & -> & Hle)].
  - unfold emin, prec, emax. lia.
  - done.
  - unfold leb, SFleb, f0_1, SFcompare.
    assert (-56 < e') as He'.
    { unfold fexp, emin, prec, emax in Hle. lia. }
    apply Z.compare_lt_iff in He'. by rewrite He'.
Qed.

(** The update rule on the weights of the data sheet: 1.0 becomes 0.7
    after a correct answer and 1.5 after an incorrect one, and 0.2 is
    clamped to the floor. *)
Example correct_from_default : py_max f0_1 (sub f1_0 f0_3) = literal 7 10.
Proof. vm_compute. reflexivity. Qed.

Example correct_clamps : py_max f0_1 (sub (literal 2 10) f0_3) = f0_1.
Proof. vm_compute. reflexivity. Qed.

Example incorrect_from_default : add f1_0 f0_5 = literal 15 10.
Proof. vm_compute. reflexivity. Qed.

(** Three correct answers take the weight from 1.0 to the floor. *)
Example three_correct_answers :
  py_max f0_1 (sub (py_max f0_1 (sub (py_max f0_1 (sub f1_0 f0_3)) f0_3)) f0_3)
  = f0_1.
Proof. vm_compute. reflexivity. Qed.

End WeightFacts.

(** ** Weighted selection *)

Section Selection.

Import BiologyQuiz.

Lemma sum_weights_cons (acc : float) (q : Question) (rest : list Question)
    (total : float) :
  sum_weights acc (q :: rest) = Return total ->
  exists w, weight q = Some w /\ sum_weights (add acc w) rest = Return total.
Proof.
  simpl. unfold get_weight. destruct (weight q) as [w|]; [|done].
  intros H. by exists w.
Qed.

(** The loop returns the question at the first position whose cumulative
    weight reaches [r], and nothing when no position does. *)
Lemma select_loop_spec (r : float) (questions : list Question) :
  forall acc total,
    sum_weights acc questions = Return total ->
    (exists i q,
        select_loop r acc questions = Return (Some q) /\
        questions !! i = Some q /\
        (exists c, sum_weights acc (take (S i) questions) = Return c /\
                   leb r c = true) /\
        forall j c, (j < i)%nat ->
          sum_weights acc (take (S j) questions) = Return c ->
          leb r c = false) \/
    (select_loop r acc questions = Return None /\
     forall j c, (j < length questions)%nat ->
       sum_weights acc (take (S j) questions) = Return c ->
       leb r c = false).
Proof.
  induction questions as [|q rest IH]; intros acc total Hsum.
  - right. split; [done|]. simpl. lia.
  - destruct (sum_weights_cons _ _ _ _ Hsum) as (w & Hw & Hrest).
    simpl select_loop. unfold get_weight. rewrite Hw. simpl.
    destruct (leb r (add acc w)) eqn:Hr.
    + left. exists 0%nat, q. split; [done|]. split; [done|]. split.
      * exists (add acc w). simpl. unfold get_weight. by rewrite Hw.
      * lia.
    + assert (forall j c,
               sum_weights acc (take (S (S j)) (q :: rest)) = Return c ->
               sum_weights (add acc w) (take (S j) rest) = Return c) as Hshift.
      { intros j c. simpl. unfold get_weight. by rewrite Hw. }
      assert (forall c,
               sum_weights acc (take 1 (q :: rest)) = Return c ->
               leb r c = false) as Hfirst.
      { intros c. simpl. unfold get_weight. rewrite Hw. simpl.
        by intros [= <-]. }
      destruct (IH _ _ Hrest) as [(i & q' & Hsel & Hi & (c & Hc & Hrc) & Hbefore)
                                 |[Hsel Hnone]].
      * left. exists (S i), q'. split; [done|]. split; [done|]. split.
        -- exists c. split; [|done]. simpl. unfold get_weight. by rewrite Hw.
        -- intros [|j] c' Hj Hc'; [by apply Hfirst|].
           apply (Hbefore j); [lia|]. by apply Hshift.
      * right. split; [done|]. intros [|j] c' Hj Hc'; [by apply Hfirst|].
        apply (Hnone j); [simpl in Hj; lia|]. by apply Hshift.
Qed.

Lemma positive_not_zero (x : float) : ltb zero x = true -> eqb x zero = false.
Proof. by destruct x as [[]|[]| |[] m e]. Qed.

Lemma last_is_Some {A} (l : list A) : l <> [] -> exists x, last l = Some x /\ x ∈ l.
Proof.
  intros Hl. destruct (last l) as [x|] eqn:Hlast.
  - exists x. split; [done|]. apply last_Some in Hlast as [l' ->].
    set_solver.
  - by apply last_None in Hlast.
Qed.

Lemma select_question_enabled (rng : Random) (self : State) (chapter : string)
    (q0 : Question) (rest : list Question) (total : float) :
  chapter ∉ disabled_chapters self ->
  dict_get (quiz_data self) chapter = Some (q0 :: rest) ->
  sum_weights zero (q0 :: rest) = Return total ->
  select_question rng self chapter =
    if eqb total zero then q ← choice rng (q0 :: rest); Return (Some q)
    else
      found ← select_loop (uniform rng zero total) zero (q0 :: rest);
      match found with
      | Some q => Return (Some q)
      | None => Return (last (q0 :: rest))
      end.
Proof.
  intros Hen Hget Hsum. unfold select_question.
  destruct (decide (chapter ∈ disabled_chapters self)); [done|].
  rewrite Hget, Hsum. done.
Qed.

(** C1.  In an enabled chapter of the bank whose question list is not
    empty and whose questions all carry a weight, selection returns a
    question of the list, never [None].  When the total weight is positive,
    with [r] the value drawn by [random.uniform(0, total)], the question
    returned is the first one whose cumulative weight is at least [r], and
    it is the last question of the list when no cumulative weight is at
    least [r]. *)
Theorem select_question_weighted_pick (rng : Random) (self : State)
    (chapter : string) (questions : list Question) (total : float) :
  choice_in_range rng ->
  chapter ∉ disabled_chapters self ->
  dict_get (quiz_data self) chapter = Some questions ->
  questions <> [] ->
  sum_weights zero questions = Return total ->
  exists q,
    select_question rng self chapter = Return (Some q) /\
    q ∈ questions /\
    (ltb zero total = true ->
     let r := uniform rng zero total in
     (exists i, questions !! i = Some q /\ first_reaching r questions i) \/
     (last questions = Some q /\ never_reaching r questions)).
Proof.
  intros Hrng Hen Hget Hne Hsum.
  destruct questions as [|q0 rest]; [done|].
  rewrite (select_question_enabled rng self chapter q0 rest total Hen Hget Hsum).
  destruct (eqb total zero) eqn:Hzero.
  - unfold choice.
    destruct (lookup_lt_is_Some_2 (q0 :: rest)
                (randbelow rng (length (q0 :: rest)))) as [q Hq].
    { apply Hrng. simpl. lia. }
    rewrite Hq. exists q. split; [done|]. split.
    + apply list_elem_of_lookup. eauto.
    + intros Hpos. apply positive_not_zero in Hpos. congruence.
  - destruct (select_loop_spec (uniform rng zero total) (q0 :: rest) zero total Hsum)
      as [(i & q & -> & Hi & Hreach & Hbefore)|[-> Hnone]].
    + exists q. split; [done|]. split.
      * apply list_elem_of_lookup. eauto.
      * intros _. left. exists i. split; [done|]. split; done.
    + destruct (last_is_Some (q0 :: rest) Hne) as (q & Hlast & Hin).
      exists q. simpl. split; [by rewrite <- Hlast|]. split; [done|].
      intros _. right. split; done.
Qed.

Lemma example_cells_enabled : "Cells" ∉ disabled_chapters example_state.
Proof. intros Hin. simpl in Hin. apply elem_of_singleton in Hin. discriminate Hin. Qed.

Lemma select_question_weighted_pick_witness :
  choice_in_range example_rng /\
  sum_weights zero example_cells = Return (add (add zero f1_0) f0_5) /\
  exists q,
    select_question example_rng example_state "Cells" = Return (Some q) /\
    q ∈ example_cells.
Proof.
  assert (choice_in_range example_rng) as Hrng by (intros n Hn; exact Hn).
  split; [exact Hrng|]. split; [reflexivity|].
  destruct (select_question_weighted_pick example_rng example_state "Cells"
              example_cells (add (add zero f1_0) f0_5))
    as (q & Hq & Hin & _).
  - exact Hrng.
  - exact example_cells_enabled.
  - reflexivity.
  - discriminate.
  - reflexivity.
  - exists q. split; [exact Hq|exact Hin].
Defined.

(** C4.  Selection in a disabled chapter returns [None] whatever the bank
    holds for it, and selection in an enabled chapter of the bank whose
    question list is empty returns [None]. *)
Theorem select_question_none (rng : Random) (self : State) (chapter : string) :
  (chapter ∈ disabled_chapters self ->
   select_question rng self chapter = Return None) /\
  (chapter ∉ disabled_chapters self ->
   dict_get (quiz_data self) chapter = Some [] ->
   select_question rng self chapter = Return None).
Proof.
  unfold select_question. split.
  - intros Hdis. by destruct (decide (chapter ∈ disabled_chapters self)).
  - intros Hen Hget.
    destruct (decide (chapter ∈ disabled_chapters self)); [done|].
    by rewrite Hget.
Qed.

Lemma select_question_none_witness :
  select_question example_rng example_state "Plants" = Return None /\
  select_question example_rng example_state "Empty" = Return None.
Proof.
  split.
  - apply (proj1 (select_question_none example_rng example_state "Plants")).
    simpl. apply elem_of_singleton. reflexivity.
  - apply (proj2 (select_question_none example_rng example_state "Empty")).
    + intros Hin. simpl in Hin. apply elem_of_singleton in Hin. discriminate Hin.
    + reflexivity.
Defined.

Lemma fmap_seq_lookup {A B} (f : nat -> B) (g : A -> B) (l : list A) :
  (forall i x, l !! i = Some x -> f i = g x) ->
  f <$> seq 0 (length l) = g <$> l.
Proof.
  intros Hfg. apply list_eq. intros i. rewrite !list_lookup_fmap.
  destruct (l !! i) as [x|] eqn:Hi.
  - rewrite lookup_seq_lt by (by eapply lookup_lt_Some).
    simpl. f_equal. by apply Hfg.
  - rewrite lookup_seq_ge by (by apply lookup_ge_None). done.
Qed.

(** C5.  In an enabled chapter whose question list is not empty and whose
    weights sum to zero, selection is [random.choice] over the full list:
    the draw of index [k] returns the question at position [k], so the
    [n] equally likely draws return the [n] questions of the list, each
    by exactly one draw, and selection does not fail. *)
Theorem select_question_zero_total (rng : Random) (self : State)
    (chapter : string) (questions : list Question) (total : float) :
  chapter ∉ disabled_chapters self ->
  dict_get (quiz_data self) chapter = Some questions ->
  questions <> [] ->
  sum_weights zero questions = Return total ->
  eqb total zero = true ->
  (forall k q, questions !! k = Some q ->
     select_question (drawing rng k) self chapter = Return (Some q)) /\
  (fun k => select_question (drawing rng k) self chapter)
    <$> seq 0 (length questions)
  = (fun q => Return (Some q)) <$> questions /\
  (choice_in_range rng ->
   exists q, select_question rng self chapter = Return (Some q) /\
             questions !! randbelow rng (length questions) = Some q).
Proof.
  intros Hen Hget Hne Hsum Hzero.
  destruct questions as [|q0 rest]; [done|].
  assert (forall k q, (q0 :: rest) !! k = Some q ->
            select_question (drawing rng k) self chapter = Return (Some q))
    as Hdraw.
  { intros k q Hk.
    rewrite (select_question_enabled _ self chapter q0 rest total Hen Hget Hsum).
    rewrite Hzero. unfold choice, drawing. simpl randbelow. by rewrite Hk. }
  split; [done|]. split.
  - by apply fmap_seq_lookup.
  - intros Hrng.
    rewrite (select_question_enabled rng self chapter q0 rest total Hen Hget Hsum).
    rewrite Hzero. unfold choice.
    destruct (lookup_lt_is_Some_2 (q0 :: rest)
                (randbelow rng (length (q0 :: rest)))) as [q Hq].
    { apply Hrng. simpl. lia. }
    rewrite Hq. by exists q.
Qed.

Lemma select_question_zero_total_witness :
  sum_weights zero example_zeros = Return zero /\
  (fun k => select_question (drawing example_rng k) example_state "Zero")
    <$> seq 0 (length example_zeros)
  = (fun q => Return (Some q)) <$> example_zeros.
Proof.
  split; [reflexivity|].
  apply (select_question_zero_total example_rng example_state "Zero"
           example_zeros zero).
  - intros Hin. simpl in Hin. apply elem_of_singleton in Hin. discriminate Hin.
  - reflexivity.
  - discriminate.
  - reflexivity.
  - reflexivity.
Defined.

End Selection.

(** ** Answer evaluation *)

Section Evaluation.

Import BiologyQuiz.

Lemma evaluate_weighted (stats : gmap string Stats) (q : Question) (w : float)
    (selected : string) :
  weight q = Some w ->
  evaluate stats q selected =
    if bool_decide (selected = correct_option q) then
      Return (true, set_weight q (py_max f0_1 (sub w f0_3)),
              count_correct stats (question q))
    else
      Return (false, set_weight q (add w f0_5),
              count_incorrect stats (question q)).
Proof.
  intros Hw. unfold evaluate, get_weight. rewrite Hw.
  by destruct (bool_decide (selected = correct_option q)).
Qed.

(** Lines that are not a number in range are skipped by the prompt loop. *)
Lemma ask_question_skips (stats : gmap string Stats) (q : Question)
    (skipped inputs : list line) :
  Forall (rejected q) skipped ->
  ask_question stats q (skipped ++ inputs) = ask_question stats q inputs.
Proof.
  induction 1 as [|l skipped Hl _ IH]; [done|].
  destruct l as [|n]; simpl; [done|].
  simpl in Hl.
  destruct ((1 <=? n) && (n <=? Z.of_nat (length (options q)))) eqn:Hrange;
    [|done].
  apply andb_true_iff in Hrange as [?%Z.leb_le ?%Z.leb_le]. lia.
Qed.

Lemma ask_question_accepts (stats : gmap string Stats) (q : Question)
    (choice : Z) (selected : string) (rest : list line) :
  1 <= choice ->
  options q !! Z.to_nat (choice - 1) = Some selected ->
  ask_question stats q (Number choice :: rest) =
    r ← evaluate stats q selected; Return (r, rest).
Proof.
  intros Hlo Hsel. simpl.
  assert (choice <= Z.of_nat (length (options q))) as Hhi.
  { apply lookup_lt_Some in Hsel. lia. }
  apply Z.leb_le in Hlo, Hhi. by rewrite Hlo, Hhi, Hsel.
Qed.

Lemma stats_entry_insert (stats : gmap string Stats) (key : string) (s : Stats) :
  stats_entry (<[key := s]> stats) key = s.
Proof. unfold stats_entry. by rewrite lookup_insert_eq. Qed.

(** C2.  Once the prompt has been answered with the number of an option,
    evaluation returns true exactly when that option equals the question's
    [correct_option].  When it is correct the weight becomes
    [max(0.1, weight - 0.3)] and the correct count kept for the question's
    text grows by one; when it is not, the weight becomes [weight + 0.5]
    and the incorrect count grows by one.  Nothing else changes. *)
Theorem ask_question_evaluates (stats : gmap string Stats) (q : Question)
    (w : float) (skipped : list line) (choice : Z) (selected : string)
    (rest : list line) :
  weight q = Some w ->
  Forall (rejected q) skipped ->
  1 <= choice ->
  options q !! Z.to_nat (choice - 1) = Some selected ->
  exists (verdict : bool) (q' : Question) (stats' : gmap string Stats),
    ask_question stats q (skipped ++ Number choice :: rest)
      = Return (verdict, q', stats', rest) /\
    (verdict = true <-> selected = correct_option q) /\
    question q' = question q /\ options q' = options q /\
    correct_option q' = correct_option q /\
    (forall key, key <> question q -> stats' !! key = stats !! key) /\
    (verdict = true ->
       weight q' = Some (py_max f0_1 (sub w f0_3)) /\
       correct (stats_entry stats' (question q))
         = correct (stats_entry stats (question q)) + 1 /\
       incorrect (stats_entry stats' (question q))
         = incorrect (stats_entry stats (question q))) /\
    (verdict = false ->
       weight q' = Some (add w f0_5) /\
       incorrect (stats_entry stats' (question q))
         = incorrect (stats_entry stats (question q)) + 1 /\
       correct (stats_entry stats' (question q))
         = correct (stats_entry stats (question q))).
Proof.
  intros Hw Hskip Hlo Hsel.
  rewrite (ask_question_skips stats q skipped _ Hskip).
  rewrite (ask_question_accepts stats q choice selected rest Hlo Hsel).
  rewrite (evaluate_weighted stats q w selected Hw).
  destruct (bool_decide (selected = correct_option q)) eqn:Hdec.
  - apply bool_decide_eq_true in Hdec.
    eexists true, _, _. split; [reflexivity|].
    repeat split; try done.
    + intros key Hkey. unfold count_correct. by rewrite lookup_insert_ne.
    + unfold count_correct. by rewrite stats_entry_insert.
    + unfold count_correct. by rewrite stats_entry_insert.
  - apply bool_decide_eq_false in Hdec.
    eexists false, _, _. split; [reflexivity|].
    repeat split; try done.
    + intros key Hkey. unfold count_incorrect. by rewrite lookup_insert_ne.
    + unfold count_incorrect. by rewrite stats_entry_insert.
    + unfold count_incorrect. by rewrite stats_entry_insert.
Qed.

Lemma ask_question_evaluates_witness :
  Forall (rejected (example_question (Some f1_0))) [NotANumber; Number 9] /\
  exists (verdict : bool) (q' : Question) (stats' : gmap string Stats),
    ask_question ∅ (example_question (Some f1_0))
      ([NotANumber; Number 9] ++ Number 2 :: [Number 1])
      = Return (verdict, q', stats', [Number 1]) /\
    (verdict = true <-> "Mitochondria" = "Mitochondria") /\
    (verdict = true -> weight q' = Some (py_max f0_1 (sub f1_0 f0_3))).
Proof.
  assert (Forall (rejected (example_question (Some f1_0)))
            [NotANumber; Number 9]) as Hskip.
  { repeat constructor. simpl. lia. }
  split; [exact Hskip|].
  destruct (ask_question_evaluates ∅ (example_question (Some f1_0)) f1_0
              [NotANumber; Number 9] 2 "Mitochondria" [Number 1])
    as (verdict & q' & stats' & Hask & Hiff & _ & _ & _ & _ & Hcorrect & _).
  - reflexivity.
  - exact Hskip.
  - lia.
  - reflexivity.
  - exists verdict, q', stats'. split; [exact Hask|]. split; [exact Hiff|].
    intros Hv. exact (proj1 (Hcorrect Hv)).
Defined.

(** One evaluation of a question whose weight is non-negative. *)
Lemma evaluate_step (stats : gmap string Stats) (q : Question) (w : float)
    (selected : string) :
  weight q = Some w ->
  leb zero w = true ->
  exists (verdict : bool) (q' : Question) (stats' : gmap string Stats) (w' : float),
    evaluate stats q selected = Return (verdict, q', stats') /\
    weight q' = Some w' /\
    leb zero w' = true /\
    (verdict = true -> leb f0_1 w' = true) /\
    (verdict = false -> leb f0_1 w' = true).
Proof.
  intros Hw Hnonneg. rewrite (evaluate_weighted stats q w selected Hw).
  destruct (bool_decide (selected = correct_option q)).
  - eexists true, _, _, _. split; [reflexivity|]. split; [reflexivity|].
    pose proof (py_max_floor (sub w f0_3)) as Hfloor.
    split; [by apply floor_nonneg|]. done.
  - eexists false, _, _, _. split; [reflexivity|]. split; [reflexivity|].
    pose proof (add_half_floor w Hnonneg) as Hfloor.
    split; [by apply floor_nonneg|]. done.
Qed.

Lemma evaluations_floor (answers : list string) :
  forall (stats : gmap string Stats) (q : Question) (w : float),
    weight q = Some w ->
    leb f0_1 w = true ->
    exists (q' : Question) (stats' : gmap string Stats) (w' : float),
      evaluations stats q answers = Return (q', stats') /\
      weight q' = Some w' /\
      leb f0_1 w' = true.
Proof.
  induction answers as [|selected answers IH]; intros stats q w Hw Hfloor.
  - by exists q, stats, w.
  - destruct (evaluate_step stats q w selected Hw (floor_nonneg w Hfloor))
      as (verdict & q1 & stats1 & w1 & Heval & Hw1 & _ & Htrue & Hfalse).
    simpl. rewrite Heval. simpl.
    apply (IH stats1 q1 w1 Hw1).
    destruct verdict; auto.
Qed.

(** C3.  One evaluation of a question whose weight is non-negative leaves
    the weight non-negative.  The answer is counted correct exactly when
    the selected option is the correct one; the weight is then
    [max(0.1, w - 0.3)], which is at least 0.1, and otherwise it is
    [w + 0.5].  A question that starts at the default weight 1.0 has a
    weight of at least 0.1 after every sequence of evaluations, and a
    question that starts at any non-negative weight has one after every
    sequence of at least one evaluation. *)
Theorem weight_floor_invariant :
  (forall (stats : gmap string Stats) (q : Question) (w : float)
          (selected : string),
      weight q = Some w ->
      leb zero w = true ->
      exists (q' : Question) (stats' : gmap string Stats) (w' : float),
        evaluate stats q selected
          = Return (bool_decide (selected = correct_option q), q', stats') /\
        weight q' = Some w' /\
        leb zero w' = true /\
        (selected = correct_option q ->
         w' = py_max f0_1 (sub w f0_3) /\ leb f0_1 w' = true) /\
        (selected <> correct_option q -> w' = add w f0_5)) /\
  (forall (stats : gmap string Stats) (q : Question) (answers : list string),
      weight q = Some f1_0 ->
      exists (q' : Question) (stats' : gmap string Stats) (w' : float),
        evaluations stats q answers = Return (q', stats') /\
        weight q' = Some w' /\
        leb f0_1 w' = true) /\
  (forall (stats : gmap string Stats) (q : Question) (w : float)
          (selected : string) (answers : list string),
      weight q = Some w ->
      leb zero w = true ->
      exists (q' : Question) (stats' : gmap string Stats) (w' : float),
        evaluations stats q (selected :: answers) = Return (q', stats') /\
        weight q' = Some w' /\
        leb f0_1 w' = true).
Proof.
  split; [|split].
  - intros stats q w selected Hw Hnonneg.
    rewrite (evaluate_weighted stats q w selected Hw).
    destruct (bool_decide_reflect (selected = correct_option q)) as [Heq|Hne].
    + eexists _, _, _. split; [reflexivity|]. split; [reflexivity|].
      pose proof (py_max_floor (sub w f0_3)) as Hfloor.
      split; [by apply floor_nonneg|]. split; [done|]. by intros Hne.
    + eexists _, _, _. split; [reflexivity|]. split; [reflexivity|].
      split; [by apply floor_nonneg, add_half_floor|]. split; [by intros Heq|done].
  - intros stats q answers Hw.
    by apply (evaluations_floor answers stats q f1_0 Hw).
  - intros stats q w selected answers Hw Hnonneg.
    destruct (evaluate_step stats q w selected Hw Hnonneg)
      as (verdict & q1 & stats1 & w1 & Heval & Hw1 & _ & Htrue & Hfalse).
    simpl. rewrite Heval. simpl.
    apply (evaluations_floor answers stats1 q1 w1 Hw1).
    destruct verdict; auto.
Qed.

Lemma weight_floor_invariant_witness :
  (exists (q' : Question) (stats' : gmap string Stats),
      evaluate ∅ (example_question (Some zero)) "Mitochondria"
        = Return (true, q', stats') /\
      weight q' = Some f0_1) /\
  (exists (q' : Question) (stats' : gmap string Stats),
      evaluate ∅ (example_question (Some zero)) "Nucleus"
        = Return (false, q', stats') /\
      weight q' = Some f0_5) /\
  (exists (q' : Question) (stats' : gmap string Stats) (w' : float),
      evaluations ∅ (example_question (Some f1_0))
        ["Mitochondria"; "Mitochondria"; "Mitochondria"; "Mitochondria";
         "Nucleus"; "Mitochondria"]
        = Return (q', stats') /\
      weight q' = Some w' /\
      leb f0_1 w' = true) /\
  (exists (q' : Question) (stats' : gmap string Stats) (w' : float),
      evaluations ∅ (example_question (Some zero)) ["Mitochondria"; "Nucleus"]
        = Return (q', stats') /\
      weight q' = Some w' /\
      leb f0_1 w' = true).
Proof.
  split; [|split; [|split]].
  - destruct (proj1 weight_floor_invariant ∅ (example_question (Some zero)) zero
                "Mitochondria" eq_refl eq_refl)
      as (q' & stats' & w' & Heval & Hw' & _ & Hcorrect & _).
    exists q', stats'. split; [exact Heval|].
    rewrite Hw'. f_equal. exact (proj1 (Hcorrect eq_refl)).
  - destruct (proj1 weight_floor_invariant ∅ (example_question (Some zero)) zero
                "Nucleus" eq_refl eq_refl)
      as (q' & stats' & w' & Heval & Hw' & _ & _ & Hincorrect).
    exists q', stats'. split; [exact Heval|].
    rewrite Hw'. f_equal. apply Hincorrect. discriminate.
  - apply (proj1 (proj2 weight_floor_invariant) ∅ (example_question (Some f1_0))).
    reflexivity.
  - apply (proj2 (proj2 weight_floor_invariant) ∅ (example_question (Some zero))
             zero "Mitochondria" ["Nucleus"]); reflexivity.
Defined.

End Evaluation.

(** ** Persistence *)

Section Persistence.

Import BiologyQuiz.

Lemma with_default_weight_present (q : Question) (w : float) :
  weight q = Some w -> with_default_weight q = q.
Proof. destruct q as [t o c wq]. simpl. by intros ->. Qed.

Lemma with_default_weight_absent (q : Question) :
  weight q = None -> with_default_weight q = set_weight q f1_0.
Proof. destruct q as [t o c wq]. simpl. by intros ->. Qed.

Lemma add_weight_questions_fmap (questions : list Question) :
  add_weight_questions questions = with_default_weight <$> questions.
Proof.
  induction questions as [|q rest IH]; [done|].
  simpl. rewrite IH. f_equal.
  destruct (weight q) as [w|] eqn:Hw.
  - symmetry. by eapply with_default_weight_present.
  - symmetry. by apply with_default_weight_absent.
Qed.

Lemma add_weight_fmap (data : dict (list Question)) :
  add_weight data = prod_map id (fmap (M:=list) with_default_weight) <$> data.
Proof.
  induction data as [|[chapter questions] rest IH]; [done|].
  simpl. by rewrite IH, add_weight_questions_fmap.
Qed.

Lemma dict_get_fmap {V W} (f : V -> W) (d : dict V) (k : string) :
  dict_get (prod_map id f <$> d) k = f <$> dict_get d k.
Proof.
  induction d as [|[k' v] d IH]; [done|].
  simpl. by destruct (decide (k' = k)).
Qed.

Lemma keys_fmap {V W} (f : V -> W) (d : dict V) :
  keys (prod_map id f <$> d) = keys d.
Proof.
  unfold keys. induction d as [|[k v] d IH]; [done|].
  simpl. by f_equal.
Qed.

(** Loading leaves a bank that carries its weights unchanged. *)
Lemma add_weight_weighted (data : dict (list Question)) :
  bank_weighted data -> add_weight data = data.
Proof.
  induction 1 as [|[chapter questions] rest Hq _ IH]; [done|].
  simpl in *. rewrite IH. do 2 f_equal.
  induction Hq as [|q qs [w Hw] _ IHq]; [done|].
  simpl. by rewrite Hw, IHq.
Qed.

(** C6.  When the store holds a bank, loading succeeds, leaves the store
    as it is, and the bank in memory is the stored mapping, chapter by
    chapter and question by question in the stored order, in which each
    question without a weight has received the weight 1.0 and each
    question with a weight is unchanged. *)
Theorem load_defaults_missing_weights (self : State) (store : Store)
    (data : dict (list Question)) :
  json_load store = Return data ->
  exists self',
    load_quiz_data self store = Return (self', store) /\
    disabled_chapters self' = disabled_chapters self /\
    user_stats self' = user_stats self /\
    quiz_data self' = prod_map id (fmap (M:=list) with_default_weight) <$> data /\
    keys (quiz_data self') = keys data /\
    (forall chapter,
       dict_get (quiz_data self') chapter
         = fmap (M:=list) with_default_weight <$> dict_get data chapter) /\
    (forall q w, weight q = Some w -> with_default_weight q = q) /\
    (forall q, weight q = None ->
       weight (with_default_weight q) = Some f1_0 /\
       question (with_default_weight q) = question q /\
       options (with_default_weight q) = options q /\
       correct_option (with_default_weight q) = correct_option q).
Proof.
  intros Hload. unfold load_quiz_data. rewrite Hload.
  eexists. split; [reflexivity|]. simpl.
  rewrite add_weight_fmap.
  split; [done|]. split; [done|]. split; [done|].
  split; [apply keys_fmap|]. split; [intros; apply dict_get_fmap|].
  split; [apply with_default_weight_present|].
  intros q Hq. simpl. by rewrite Hq.
Qed.

Lemma load_defaults_missing_weights_witness :
  json_load (Document example_stored) = Return example_stored /\
  exists self',
    load_quiz_data example_state (Document example_stored)
      = Return (self', Document example_stored) /\
    quiz_data self'
      = [("Cells", [example_question (Some f1_0); example_question (Some f0_5)])].
Proof.
  split; [reflexivity|].
  destruct (load_defaults_missing_weights example_state
              (Document example_stored) example_stored eq_refl)
    as (self' & Hload & _ & _ & Hdata & _).
  exists self'. split; [exact Hload|]. rewrite Hdata. reflexivity.
Defined.

(** C7, as the code has it.  Loading catches two failures of the read
    and no other.  When reading the store raises [FileNotFoundError] (the
    file does not exist) or [json.JSONDecodeError] (the file is text that
    is no JSON document), and the sample bank can be written to the store,
    loading puts the fixed sample bank in memory and in the store and
    completes normally; the sample bank has a chapter with a question of
    weight 1.0.  Any other exception of the read leaves loading, and so
    does, after a caught one, the exception of the write of the sample. *)
Theorem load_substitutes_sample (self : State) (store : Store) :
  (json_load store = Raise FileNotFoundError \/
   json_load store = Raise JSONDecodeError ->
   (exists written, json_dump sample_data store = Return written) ->
   load_quiz_data self store
     = Return (set_quiz_data self sample_data, Document sample_data) /\
   sample_data <> [] /\
   exists chapter q rest,
     dict_get sample_data chapter = Some (q :: rest) /\ weight q = Some f1_0) /\
  (forall e,
     json_load store = Raise e ->
     e <> FileNotFoundError -> e <> JSONDecodeError ->
     load_quiz_data self store = Raise e) /\
  (json_load store = Raise FileNotFoundError \/
   json_load store = Raise JSONDecodeError ->
   forall e,
     json_dump sample_data store = Raise e ->
     load_quiz_data self store = Raise e).
Proof.
  split; [|split].
  - intros Hload [written Hdump]. split; [|split].
    + unfold load_quiz_data, create_sample_data, save_quiz_data.
      destruct store; simpl in *; try done; destruct Hload; done.
    + done.
    + by eexists "Sample Chapter 1", _, _.
  - intros e Hload Hfile Hjson. unfold load_quiz_data. rewrite Hload.
    by destruct e.
  - intros Hload e Hdump.
    unfold load_quiz_data, create_sample_data, save_quiz_data.
    destruct store; simpl in *; try done; try (destruct Hload; done).
    by injection Hdump as <-.
Qed.

Lemma load_substitutes_sample_witness :
  json_load NoFile = Raise FileNotFoundError /\
  json_dump sample_data NoFile = Return (Document sample_data) /\
  load_quiz_data example_state NoFile
    = Return (set_quiz_data example_state sample_data, Document sample_data) /\
  load_quiz_data example_state NotJSON
    = Return (set_quiz_data example_state sample_data, Document sample_data) /\
  load_quiz_data example_state NotText = Raise UnicodeDecodeError /\
  load_quiz_data example_state NoDirectory = Raise FileNotFoundError.
Proof.
  split; [reflexivity|]. split; [reflexivity|]. split; [|split; [|split]].
  - apply (proj1 (load_substitutes_sample example_state NoFile)).
    + left. reflexivity.
    + exists (Document sample_data). reflexivity.
  - apply (proj1 (load_substitutes_sample example_state NotJSON)).
    + right. reflexivity.
    + exists (Document sample_data). reflexivity.
  - apply (proj1 (proj2 (load_substitutes_sample example_state NotText))).
    + reflexivity.
    + discriminate.
    + discriminate.
  - apply (proj2 (proj2 (load_substitutes_sample example_state NoDirectory))).
    + left. reflexivity.
    + reflexivity.
Defined.

(** C7, as stated, fails in two ways.  A store path whose directory is
    missing counts as a file that does not exist: the sample bank cannot
    be written there, and the error of the write leaves [load_quiz_data].
    A file whose bytes are no text cannot be parsed, the sample bank could
    be written over it, and yet [UnicodeDecodeError], which no handler
    names, leaves [load_quiz_data]. *)
Lemma load_missing_directory_raises :
  json_load NoDirectory = Raise FileNotFoundError /\
  init NoDirectory = Raise FileNotFoundError /\
  json_load NotText = Raise UnicodeDecodeError /\
  json_dump sample_data NotText = Return (Document sample_data) /\
  init NotText = Raise UnicodeDecodeError /\
  ~ (forall (self : State) (store : Store),
       json_load store = Raise FileNotFoundError \/
       json_load store = Raise JSONDecodeError ->
       exists self' store',
         load_quiz_data self store = Return (self', store') /\
         quiz_data self' = sample_data) /\
  ~ (forall (self : State) (store : Store),
       (exists e, json_load store = Raise e) ->
       (exists written, json_dump sample_data store = Return written) ->
       exists self' store',
         load_quiz_data self store = Return (self', store') /\
         quiz_data self' = sample_data).
Proof.
  split; [done|]. split; [done|]. split; [done|]. split; [done|].
  split; [done|]. split.
  - intros Hclaim.
    destruct (Hclaim {| quiz_data := []; disabled_chapters := ∅; user_stats := ∅ |}
                NoDirectory) as (self' & store' & Hload & _); [by left|].
    discriminate Hload.
  - intros Hclaim.
    destruct (Hclaim {| quiz_data := []; disabled_chapters := ∅; user_stats := ∅ |}
                NotText) as (self' & store' & Hload & _).
    + by exists UnicodeDecodeError.
    + by exists (Document sample_data).
    + discriminate Hload.
Qed.

(** C8.  Saving a bank whose questions carry their weights and loading
    the store again gives the same bank: the same chapters in the same
    order, the same questions in the same order, the same weights. *)
Theorem save_load_round_trip (self : State) (store : Store) :
  bank_weighted (quiz_data self) ->
  store <> NoDirectory ->
  exists store',
    save_quiz_data self store = Return (self, store') /\
    forall other : State,
      load_quiz_data other store'
        = Return (set_quiz_data other (quiz_data self), store').
Proof.
  intros Hweighted Hstore. exists (Document (quiz_data self)). split.
  - unfold save_quiz_data. by destruct store.
  - intros other. unfold load_quiz_data. simpl.
    by rewrite add_weight_weighted.
Qed.

Lemma example_state_weighted : bank_weighted (quiz_data example_state).
Proof. repeat constructor; by eexists. Qed.

Lemma save_load_round_trip_witness :
  exists store',
    save_quiz_data example_state NotJSON = Return (example_state, store') /\
    load_quiz_data example_state store' = Return (example_state, store').
Proof.
  destruct (save_load_round_trip example_state NotJSON example_state_weighted)
    as (store' & Hsave & Hload).
  - discriminate.
  - exists store'. split; [exact Hsave|]. exact (Hload example_state).
Defined.

(** Every bank that loading puts in memory carries its weights. *)
Lemma load_quiz_data_weighted (self self' : State) (store store' : Store) :
  load_quiz_data self store = Return (self', store') ->
  bank_weighted (quiz_data self').
Proof.
  assert (bank_weighted sample_data) as Hsample.
  { repeat constructor; by eexists. }
  unfold load_quiz_data, create_sample_data, save_quiz_data.
  destruct store as [| | |data|]; simpl; try done.
  - by intros [= <- _].
  - by intros [= <- _].
  - intros [= <- _]. simpl. rewrite add_weight_fmap.
    unfold bank_weighted. apply Forall_fmap, Forall_forall.
    intros [chapter questions] _. simpl.
    apply Forall_fmap, Forall_forall. intros q _. simpl. by eexists.
Qed.

End Persistence.

(** ** Dictionaries *)

Section DictFacts.

Context {V : Type}.
Implicit Types (d : dict V) (k : string) (v : V).

Lemma dict_get_Some_elem d k v : dict_get d k = Some v -> (k, v) ∈ d.
Proof.
  induction d as [|[k' v'] d IH]; [done|]. simpl.
  destruct (decide (k' = k)) as [->|].
  - intros [= ->]. apply list_elem_of_here.
  - intros H. apply list_elem_of_further. auto.
Qed.

Lemma dict_get_None d k : dict_get d k = None <-> k ∉ keys d.
Proof.
  unfold keys. induction d as [|[k' v'] d IH]; simpl.
  - split; [|done]. intros _. apply not_elem_of_nil.
  - rewrite not_elem_of_cons. destruct (decide (k' = k)) as [->|Hne].
    + split; [done|]. by intros [? _].
    + rewrite IH. split; [intros ?; split; [congruence|done]|by intros [_ ?]].
Qed.

Lemma dict_get_is_Some d k : is_Some (dict_get d k) <-> k ∈ keys d.
Proof.
  destruct (dict_get d k) as [v|] eqn:Hget.
  - split; [|by eauto]. intros _.
    apply dict_get_Some_elem in Hget. unfold keys.
    apply list_elem_of_fmap. by exists (k, v).
  - split; [by intros [? ?]|]. intros Hin. by apply dict_get_None in Hget.
Qed.

Lemma dict_get_NoDup d k v :
  NoDup (keys d) -> (k, v) ∈ d -> dict_get d k = Some v.
Proof.
  unfold keys. induction d as [|[k' v'] d IH]; simpl.
  - intros _ Hin. by apply elem_of_nil in Hin.
  - intros [Hk' Hnd]%NoDup_cons [[= -> ->]|Hin]%elem_of_cons.
    + by destruct (decide (k' = k')).
    + destruct (decide (k' = k)) as [->|]; [|by auto].
      exfalso. apply Hk'. apply list_elem_of_fmap. by exists (k, v).
Qed.

Lemma dict_get_perm d d' k :
  NoDup (keys d) -> d ≡ₚ d' -> dict_get d k = dict_get d' k.
Proof.
  intros Hnd Hperm.
  assert (NoDup (keys d')) as Hnd'.
  { unfold keys in *. by rewrite <- Hperm. }
  destruct (dict_get d k) as [v|] eqn:Hget.
  - symmetry. apply dict_get_NoDup; [done|].
    rewrite <- Hperm. by apply dict_get_Some_elem.
  - symmetry. apply dict_get_None. apply dict_get_None in Hget.
    unfold keys in *. by rewrite <- Hperm.
Qed.

Lemma dict_set_new d k v :
  dict_get d k = None -> dict_set d k v = d ++ [(k, v)].
Proof.
  induction d as [|[k' v'] d IH]; [done|]. simpl.
  destruct (decide (k' = k)); [done|]. intros H. by rewrite IH.
Qed.

Lemma dict_get_snoc d k v k' :
  dict_get (d ++ [(k, v)]) k' =
    match dict_get d k' with
    | Some x => Some x
    | None => if decide (k = k') then Some v else None
    end.
Proof.
  induction d as [|[k0 v0] d IH]; simpl; [done|].
  by destruct (decide (k0 = k')).
Qed.

Lemma foldl_dict_set (items acc : dict V) :
  NoDup (keys (acc ++ items)) ->
  foldl (fun d kv => dict_set d kv.1 kv.2) acc items = acc ++ items.
Proof.
  revert acc. induction items as [|[k v] items IH]; intros acc Hnd; simpl.
  - by rewrite app_nil_r.
  - rewrite dict_set_new.
    + rewrite IH; rewrite <- app_assoc; done.
    + apply dict_get_None. unfold keys in *. rewrite fmap_app in Hnd.
      apply NoDup_app in Hnd as (_ & Hdisj & _).
      intros Hin. apply (Hdisj k Hin). simpl. apply list_elem_of_here.
Qed.

End DictFacts.

(** ** The merge utility *)

Section Merge.

Import Combi.
Context {Q : Type}.
Implicit Types (h : heap Q) (d : pydict) (k : string) (l : loc).

Lemma dict_get_contents h d k :
  dict_get (contents h d) k = deref h <$> dict_get d k.
Proof. apply dict_get_fmap. Qed.

Lemma keys_contents h d : keys (contents h d) = keys d.
Proof. apply keys_fmap. Qed.

Lemma contents_agree h h' d :
  (forall l, l ∈ d.*2 -> h' !! l = h !! l) -> contents h' d = contents h d.
Proof.
  intros Hagree. unfold contents. apply list_fmap_ext.
  intros i [k l] Hi. unfold prod_map. simpl. f_equal.
  unfold deref. rewrite Hagree; [done|].
  apply list_elem_of_fmap. exists (k, l). split; [done|].
  apply list_elem_of_lookup. eauto.
Qed.

(** Loading a document builds new list objects that hold the document
    and leaves the objects already in the heap alone. *)
Lemma load_json_spec (document : dict (list Q)) :
  forall h d h',
    load_json document h = (d, h') ->
    keys d = keys document /\
    contents h' d = document /\
    NoDup (d.*2) /\
    (forall l, l ∈ d.*2 -> (l ∉ dom h) /\ l ∈ dom h') /\
    (forall l, l ∈ dom h -> h' !! l = h !! l).
Proof.
  induction document as [|[key value] rest IH]; intros h d h'; simpl.
  - intros [= <- <-]. split; [done|]. split; [done|].
    split; [apply NoDup_nil_2|]. split; [|done].
    intros l Hl. by apply elem_of_nil in Hl.
  - set (l0 := fresh (dom h)).
    destruct (load_json rest (<[l0:=value]> h)) as [d0 h0] eqn:Hrest.
    intros [= <- <-].
    destruct (IH _ _ _ Hrest) as (Hkeys & Hcont & Hnd & Hfresh & Hkeep).
    assert (l0 ∉ dom h) as Hl0 by apply is_fresh.
    assert (l0 ∈ dom (<[l0:=value]> h)) as Hl0'.
    { apply elem_of_dom. rewrite lookup_insert_eq. eauto. }
    assert (forall l, l ∈ dom h -> l ∈ dom (<[l0:=value]> h)) as Hmono.
    { intros l Hl. rewrite dom_insert. apply elem_of_union. by right. }
    assert (h0 !! l0 = Some value) as Hh0.
    { rewrite Hkeep by done. apply lookup_insert_eq. }
    split; [|split; [|split; [|split]]].
    + unfold keys in *. simpl. by f_equal.
    + unfold contents. rewrite fmap_cons. f_equal; [|exact Hcont].
      unfold prod_map, deref. simpl. by rewrite Hh0.
    + simpl. apply NoDup_cons. split; [|done].
      intros Hin. apply Hfresh in Hin as [Hin _]. done.
    + intros l [->|Hin]%elem_of_cons.
      * split; [done|]. apply elem_of_dom. eauto.
      * apply Hfresh in Hin as [Hin1 Hin2]. split; [|done].
        intros Hl. apply Hin1. by apply Hmono.
    + intros l Hl. rewrite Hkeep by (by apply Hmono).
      apply lookup_insert_ne. intros ->. done.
Qed.

Lemma deref_extend_target l v h :
  deref (extend l v h) l = deref h l ++ deref h v.
Proof. unfold extend, deref at 1. by rewrite lookup_insert_eq. Qed.

Lemma deref_extend_other l v h l' :
  l' <> l -> deref (extend l v h) l' = deref h l'.
Proof. intros Hne. unfold extend, deref at 1 3. by rewrite lookup_insert_ne. Qed.

(** Distinct keys of a dictionary without aliasing hold distinct
    references. *)
Lemma dict_get_no_alias d k k' l :
  NoDup (d.*2) -> dict_get d k = Some l -> dict_get d k' = Some l -> k = k'.
Proof.
  induction d as [|[k0 l0] d IH]; simpl; [done|].
  intros [Hl0 Hnd]%NoDup_cons.
  destruct (decide (k0 = k)) as [->|], (decide (k = k')) as [->|];
    try done.
  - destruct (decide (k = k')); [done|].
    intros [= ->] Hget. exfalso. apply Hl0.
    apply dict_get_Some_elem in Hget.
    apply list_elem_of_fmap. by exists (k', l).
  - destruct (decide (k0 = k')) as [->|]; [|by auto].
    intros Hget [= ->]. exfalso. apply Hl0.
    apply dict_get_Some_elem in Hget.
    apply list_elem_of_fmap. by exists (k, l).
Qed.

Lemma dict_get_value_elem d k l : dict_get d k = Some l -> l ∈ d.*2.
Proof.
  intros Hget%dict_get_Some_elem. apply list_elem_of_fmap. by exists (k, l).
Qed.

(** The loop of [merge_json], run on dictionaries that share no list
    object: chapter by chapter, what the merged dictionary and what the
    first dictionary denote when the loop ends. *)
Lemma merge_loop_spec (items : list (string * loc)) :
  forall (merged : pydict) h merged' h',
    NoDup (keys items) ->
    NoDup (merged.*2 ++ items.*2) ->
    NoDup (keys merged) ->
    merge_loop items merged h = (merged', h') ->
    NoDup (keys merged') /\
    (forall k,
       deref h' <$> dict_get merged' k
         = merged_list (deref h <$> dict_get merged k)
                       (deref h <$> dict_get items k)) /\
    (forall k,
       deref h' <$> dict_get merged k
         = own_list (deref h <$> dict_get merged k)
                    (deref h <$> dict_get items k)) /\
    (forall k l, dict_get merged k = Some l -> dict_get merged' k = Some l).
Proof.
  induction items as [|[key value] rest IH];
    intros merged h merged' h' Hkeys Hlocs Hmerged; simpl.
  - intros [= <- <-]. split; [done|].
    split; [|split]; [| |done]; intros k; by destruct (dict_get merged k).
  - unfold keys in Hkeys. rewrite fmap_cons in Hkeys.
    apply NoDup_cons in Hkeys as [Hkey Hkeys].
    rewrite fmap_cons in Hlocs.
    assert (dict_get rest key = None) as Hrest_key by by apply dict_get_None.
    destruct (dict_get merged key) as [l|] eqn:Hget.
    + (* the chapter is in both: the list object of [merged] is extended *)
      intros Hloop.
      assert (NoDup (merged.*2 ++ rest.*2)) as Hlocs'.
      { apply NoDup_app in Hlocs as (Hl1 & Hl2 & [_ Hl3]%NoDup_cons).
        apply NoDup_app. split; [done|]. split; [|done].
        intros x Hx Hx'. apply (Hl2 x Hx). by apply list_elem_of_further. }
      destruct (IH merged (extend l value h) merged' h' Hkeys Hlocs' Hmerged Hloop)
        as (Hnd & Hall & Hown & Hsame).
      assert (l ∈ merged.*2) as Hl by by eapply dict_get_value_elem.
      assert (forall k l', dict_get rest k = Some l' ->
                deref (extend l value h) l' = deref h l') as Hrest.
      { intros k l' Hk. apply deref_extend_other. intros ->.
        apply NoDup_app in Hlocs' as (_ & Hdisj & _).
        apply (Hdisj l Hl). by eapply dict_get_value_elem. }
      assert (forall k l', k <> key -> dict_get merged k = Some l' ->
                deref (extend l value h) l' = deref h l') as Hother.
      { intros k l' Hk Hk'. apply deref_extend_other. intros ->.
        apply Hk. apply NoDup_app in Hlocs' as (Hnd' & _ & _).
        by apply (dict_get_no_alias merged k key l Hnd'). }
      assert (forall k, deref (extend l value h) <$> dict_get rest k
                        = deref h <$> dict_get rest k) as Hrest'.
      { intros k. destruct (dict_get rest k) as [l'|] eqn:Hk; [|done].
        simpl. f_equal. by eapply Hrest. }
      assert (forall k, k <> key ->
                deref (extend l value h) <$> dict_get merged k
                = deref h <$> dict_get merged k) as Hother'.
      { intros k Hk. destruct (dict_get merged k) as [l'|] eqn:Hk'; [|done].
        simpl. f_equal. by eapply Hother. }
      split; [done|]. split; [|split]; [| |done]; intros k.
      * rewrite Hall, Hrest'. destruct (decide (key = k)) as [<-|Hne].
        -- rewrite Hget, Hrest_key. simpl. by rewrite deref_extend_target.
        -- by rewrite Hother'.
      * rewrite Hown, Hrest'. destruct (decide (key = k)) as [<-|Hne].
        -- rewrite Hget, Hrest_key. simpl. by rewrite deref_extend_target.
        -- by rewrite Hother'.
    + (* the chapter is new: [merged] receives the reference of [dict2] *)
      rewrite (dict_set_new merged key value Hget). intros Hloop.
      assert (NoDup ((merged ++ [(key, value)]).*2 ++ rest.*2)) as Hlocs'.
      { rewrite fmap_app, <- app_assoc. exact Hlocs. }
      assert (NoDup (keys (merged ++ [(key, value)]))) as Hmerged'.
      { unfold keys in *. rewrite fmap_app. simpl.
        apply NoDup_app. split; [done|]. split; [|apply NoDup_singleton].
        intros k Hk ->%list_elem_of_singleton.
        by apply dict_get_None in Hget. }
      destruct (IH (merged ++ [(key, value)]) h merged' h' Hkeys Hlocs' Hmerged' Hloop)
        as (Hnd & Hall & Hown & Hsame).
      split; [done|]. split; [|split]; intros k.
      * rewrite Hall, dict_get_snoc.
        destruct (decide (key = k)) as [<-|Hne].
        -- by rewrite Hget, Hrest_key.
        -- by destruct (dict_get merged k), (dict_get rest k).
      * specialize (Hown k). rewrite dict_get_snoc in Hown.
        destruct (decide (key = k)) as [<-|Hne].
        -- by rewrite Hget.
        -- destruct (dict_get merged k); [|done].
           by destruct (dict_get rest k).
      * intros l Hk. apply Hsame. rewrite dict_get_snoc. by rewrite Hk.
Qed.

(** *** Sorting the items *)

#[local] Instance item_le_trans : Transitive (item_le : relation (string * loc)).
Proof. intros a b c. unfold item_le. apply transitivity. Qed.

#[local] Instance item_le_total : Total (item_le : relation (string * loc)).
Proof. intros a b. unfold item_le. apply total, _. Qed.

Lemma sorted_perm (items : list (string * loc)) : sorted items ≡ₚ items.
Proof. apply merge_sort_Permutation. Qed.

Lemma string_le_ne_ltb (a b : string) :
  String.le a b -> a <> b -> String.ltb a b = true.
Proof.
  unfold String.le, String.leb, String.ltb. intros Hle Hne.
  destruct (String.compare a b) eqn:Hcmp; [|done|done].
  by apply String.compare_eq_iff in Hcmp.
Qed.

(** The keys of the sorted items of a dictionary increase strictly. *)
Lemma sorted_keys_increasing (items : list (string * loc)) :
  NoDup (keys items) ->
  StronglySorted (fun a b => String.ltb a b = true) (keys (sorted items)).
Proof.
  intros Hnd.
  assert (NoDup (keys (sorted items))) as Hnd'.
  { unfold keys. by rewrite sorted_perm. }
  pose proof (StronglySorted_merge_sort item_le items) as Hsorted.
  fold (sorted items) in Hsorted. unfold keys in *.
  induction Hsorted as [|[k l] rest Hrest IH Hall]; [constructor|].
  rewrite fmap_cons in *. apply NoDup_cons in Hnd' as [Hk Hnd'].
  constructor; [by apply IH|].
  apply Forall_fmap, Forall_forall. intros [k' l'] Hin.
  rewrite Forall_forall in Hall. specialize (Hall _ Hin).
  apply string_le_ne_ltb; [exact Hall|].
  simpl. intros <-. apply Hk. apply list_elem_of_fmap. by exists (k, l').
Qed.

(** *** The script *)

(** What the script leaves behind: the sorted dictionary holds the
    items of the combined one in key order, the output has the lists
    of both banks merged, and the dictionary loaded from the first file
    denotes its own lists extended by the second bank's. *)
Lemma run_spec (file1 file2 : dict (list Q)) :
  NoDup (keys file1) ->
  NoDup (keys file2) ->
  let g := run file1 file2 in
  sorted_combined_data g = sorted (combined_data g) /\
  NoDup (keys (combined_data g)) /\
  (forall k, dict_get (output file1 file2) k
             = merged_list (dict_get file1 k) (dict_get file2 k)) /\
  (forall k, dict_get (contents (memory g) (quiz_data_1 g)) k
             = own_list (dict_get file1 k) (dict_get file2 k)) /\
  (forall k, is_Some (dict_get file1 k) ->
             dict_get (combined_data g) k = dict_get (quiz_data_1 g) k).
Proof.
  intros Hnd1 Hnd2. unfold output, run.
  destruct (load_json file1 ∅) as [d1 h1] eqn:Hload1.
  destruct (load_json file2 h1) as [d2 h2] eqn:Hload2.
  destruct (merge_json d1 d2 h2) as [c h3] eqn:Hmerge.
  simpl.
  destruct (load_json_spec _ _ _ _ Hload1) as (Hk1 & Hc1 & Hl1 & Hf1 & _).
  destruct (load_json_spec _ _ _ _ Hload2) as (Hk2 & Hc2 & Hl2 & Hf2 & Hkeep).
  assert (contents h2 d1 = file1) as Hc1'.
  { rewrite <- Hc1. apply contents_agree. intros l Hl.
    apply Hkeep. by apply Hf1. }
  assert (NoDup (d1.*2 ++ d2.*2)) as Hlocs.
  { apply NoDup_app. split; [done|]. split; [|done].
    intros l Hin1 Hin2. apply Hf2 in Hin2 as [Hfresh _].
    apply Hfresh. by apply Hf1. }
  unfold merge_json in Hmerge.
  destruct (merge_loop_spec d2 d1 h2 c h3) as (Hndc & Hall & Hown & Hsame);
    [by rewrite Hk2|done|by rewrite Hk1|done|].
  assert (dict_of_items (sorted c) = sorted c) as Hdict.
  { unfold dict_of_items. rewrite foldl_dict_set; [done|].
    simpl. unfold keys. by rewrite sorted_perm. }
  rewrite Hdict. split; [done|]. split; [done|]. split; [|split]; intros k.
  - rewrite dict_get_contents.
    rewrite (dict_get_perm (sorted c) c k).
    + rewrite Hall, <- !dict_get_contents. by rewrite Hc1', Hc2.
    + unfold keys. by rewrite sorted_perm.
    + apply sorted_perm.
  - rewrite dict_get_contents, Hown, <- !dict_get_contents.
    by rewrite Hc1', Hc2.
  - intros Hin. apply dict_get_is_Some in Hin. rewrite <- Hk1 in Hin.
    apply dict_get_is_Some in Hin as [l Hl]. rewrite Hl. by apply Hsame.
Qed.

(** C9.  For two banks (documents with pairwise distinct chapter names)
    the utility writes a mapping whose chapters are those of either bank;
    a chapter of both banks holds the first bank's questions followed by
    the second bank's, a chapter of one bank holds that bank's list; the
    chapter names of the output increase in lexicographic order.  On the
    banks [{Ch1: [q1]}] and [{Ch1: [q2], Ch2: [q3]}] the output is
    [{Ch1: [q1, q2], Ch2: [q3]}]. *)
Theorem merge_utility_output (file1 file2 : dict (list Q)) (q1 q2 q3 : Q) :
  NoDup (keys file1) ->
  NoDup (keys file2) ->
  (forall k, k ∈ keys (output file1 file2)
             <-> k ∈ keys file1 \/ k ∈ keys file2) /\
  (forall k a b, dict_get file1 k = Some a -> dict_get file2 k = Some b ->
                 dict_get (output file1 file2) k = Some (a ++ b)) /\
  (forall k a, dict_get file1 k = Some a -> dict_get file2 k = None ->
               dict_get (output file1 file2) k = Some a) /\
  (forall k b, dict_get file1 k = None -> dict_get file2 k = Some b ->
               dict_get (output file1 file2) k = Some b) /\
  StronglySorted (fun a b => String.ltb a b = true)
    (keys (output file1 file2)) /\
  output [("Ch1", [q1])] [("Ch1", [q2]); ("Ch2", [q3])]
    = [("Ch1", [q1; q2]); ("Ch2", [q3])].
Proof.
  intros Hnd1 Hnd2.
  destruct (run_spec file1 file2 Hnd1 Hnd2) as (Hsorted & Hndc & Hout & _ & _).
  split; [|split; [|split; [|split; [|split]]]].
  - intros k. rewrite <- !dict_get_is_Some, Hout.
    destruct (dict_get file1 k), (dict_get file2 k); simpl;
      split; try (intros [[? ?]|[? ?]]; done); try (intros [? ?]; done);
      eauto.
  - intros k a b Ha Hb. by rewrite Hout, Ha, Hb.
  - intros k a Ha Hb. by rewrite Hout, Ha, Hb.
  - intros k b Ha Hb. by rewrite Hout, Ha, Hb.
  - unfold output. rewrite keys_contents, Hsorted.
    by apply sorted_keys_increasing.
  - vm_compute. reflexivity.
Qed.

(** C10.  The merge changes its first argument: the dictionary loaded
    from the first file denoted the first bank before the merge, and for
    every chapter of both banks its own list holds, after the merge, the
    first bank's questions followed by the second bank's.  The merged
    dictionary refers to that same list object. *)
Theorem merge_json_mutates_first_bank (file1 file2 : dict (list Q)) :
  NoDup (keys file1) ->
  NoDup (keys file2) ->
  let g := run file1 file2 in
  quiz_data_1 g = (load_json file1 ∅).1 /\
  contents (load_json file1 ∅).2 (quiz_data_1 g) = file1 /\
  forall k a b,
    dict_get file1 k = Some a -> dict_get file2 k = Some b ->
    dict_get (contents (memory g) (quiz_data_1 g)) k = Some (a ++ b) /\
    dict_get (combined_data g) k = dict_get (quiz_data_1 g) k.
Proof.
  intros Hnd1 Hnd2 g.
  destruct (run_spec file1 file2 Hnd1 Hnd2) as (_ & _ & _ & Hown & Hshared).
  fold g in Hown, Hshared.
  assert (quiz_data_1 g = (load_json file1 ∅).1) as Hq1.
  { unfold g, run. destruct (load_json file1 ∅) as [d1 h1].
    destruct (load_json file2 h1) as [d2 h2].
    by destruct (merge_json d1 d2 h2). }
  split; [done|]. split.
  - rewrite Hq1. destruct (load_json file1 ∅) as [d1 h1] eqn:Hload1.
    by destruct (load_json_spec _ _ _ _ Hload1) as (_ & Hc1 & _).
  - intros k a b Ha Hb. split; [by rewrite Hown, Ha, Hb|].
    apply Hshared. by rewrite Ha.
Qed.

End Merge.

Section MergeExamples.

Import Combi.

Lemma example_files_distinct :
  NoDup (keys example_file1) /\ NoDup (keys example_file2).
Proof.
  split; repeat (apply NoDup_cons; split; [|]); try apply NoDup_nil_2;
    intros Hin; repeat (apply elem_of_cons in Hin as [Hin|Hin]; [discriminate Hin|]);
    by apply elem_of_nil in Hin.
Qed.

Lemma merge_utility_output_witness :
  dict_get (output example_file1 example_file2) "Ch1" = Some ["q1"; "q2"] /\
  dict_get (output example_file1 example_file2) "Ch2" = Some ["q3"] /\
  StronglySorted (fun a b => String.ltb a b = true)
    (keys (output example_file1 example_file2)).
Proof.
  destruct (merge_utility_output example_file1 example_file2 "q1" "q2" "q3"
              (proj1 example_files_distinct) (proj2 example_files_distinct))
    as (_ & Hboth & _ & Hsecond & Hsorted & _).
  split; [|split].
  - apply (Hboth "Ch1" ["q1"] ["q2"]); reflexivity.
  - apply (Hsecond "Ch2" ["q3"]); reflexivity.
  - exact Hsorted.
Defined.

Lemma merge_json_mutates_first_bank_witness :
  contents (load_json example_file1 ∅).2 (quiz_data_1 (run example_file1 example_file2))
    = [("Ch1", ["q1"])] /\
  dict_get (contents (memory (run example_file1 example_file2))
              (quiz_data_1 (run example_file1 example_file2))) "Ch1"
    = Some ["q1"; "q2"].
Proof.
  destruct (merge_json_mutates_first_bank example_file1 example_file2
              (proj1 example_files_distinct) (proj2 example_files_distinct))
    as (_ & Hbefore & Hafter).
  split; [exact Hbefore|].
  apply (Hafter "Ch1" ["q1"] ["q2"]); reflexivity.
Defined.

End MergeExamples.

(** ** The bank in memory *)

Section Program.

Import BiologyQuiz.

Lemma weighted_sum (questions : list Question) :
  weighted questions ->
  forall acc, exists total, sum_weights acc questions = Return total.
Proof.
  induction 1 as [|q rest [w Hw] _ IH]; intros acc; simpl.
  - by exists acc.
  - unfold get_weight. rewrite Hw. simpl. apply IH.
Qed.

(** An evaluation keeps the weight of the question present. *)
Lemma evaluate_weighted_result (stats : gmap string Stats) (q q' : Question)
    (selected : string) (verdict : bool) (stats' : gmap string Stats) :
  evaluate stats q selected = Return (verdict, q', stats') ->
  is_Some (weight q').
Proof.
  unfold evaluate, get_weight. destruct (weight q) as [w|].
  - destruct (bool_decide (selected = correct_option q));
      intros [= _ <- _]; by eexists.
  - by destruct (bool_decide (selected = correct_option q)).
Qed.

(** X7.  After loading, whatever the store held, selection in an enabled
    chapter of the bank with questions returns one of them: the weights
    that the selection reads are all there. *)
Lemma select_question_after_load (rng : Random) (self0 self : State)
    (store store' : Store) (chapter : string) (questions : list Question) :
  choice_in_range rng ->
  load_quiz_data self0 store = Return (self, store') ->
  chapter ∉ disabled_chapters self ->
  dict_get (quiz_data self) chapter = Some questions ->
  questions <> [] ->
  exists q, select_question rng self chapter = Return (Some q) /\ q ∈ questions.
Proof.
  intros Hrng Hload Hen Hget Hne.
  assert (weighted questions) as Hweighted.
  { pose proof (load_quiz_data_weighted _ _ _ _ Hload) as Hbank.
    unfold bank_weighted in Hbank. rewrite Forall_forall in Hbank.
    apply (Hbank (chapter, questions)). by apply dict_get_Some_elem. }
  destruct (weighted_sum questions Hweighted zero) as [total Hsum].
  destruct questions as [|q0 rest]; [done|].
  rewrite (select_question_enabled rng self chapter q0 rest total Hen Hget Hsum).
  destruct (eqb total zero).
  - unfold choice.
    destruct (lookup_lt_is_Some_2 (q0 :: rest)
                (randbelow rng (length (q0 :: rest)))) as [q Hq].
    { apply Hrng. simpl. lia. }
    rewrite Hq. exists q. split; [done|]. apply list_elem_of_lookup. eauto.
  - destruct (select_loop_spec (uniform rng zero total) (q0 :: rest) zero total Hsum)
      as [(i & q & -> & Hi & _)|[-> _]].
    + exists q. split; [done|]. apply list_elem_of_lookup. eauto.
    + destruct (last_is_Some (q0 :: rest) Hne) as (q & Hlast & Hin).
      exists q. simpl. split; [by rewrite <- Hlast|done].
Qed.

End Program.

(** ** Chapter bookkeeping *)

Section Bookkeeping.

Import BiologyQuiz.

Lemma state_eq (s1 s2 : State) :
  quiz_data s1 = quiz_data s2 ->
  disabled_chapters s1 = disabled_chapters s2 ->
  user_stats s1 = user_stats s2 ->
  s1 = s2.
Proof. destruct s1, s2. simpl. by intros -> -> ->. Qed.

(** What [toggle_chapter] does with an index that names a chapter. *)
Lemma toggle_chapter_valid (self : State) (chapter_idx : Z) (chapter : string) :
  1 <= chapter_idx ->
  keys (quiz_data self) !! Z.to_nat (chapter_idx - 1) = Some chapter ->
  toggle_chapter self chapter_idx =
    if decide (chapter ∈ disabled_chapters self) then
      Return (set_disabled_chapters self (disabled_chapters self ∖ {[chapter]}),
              "Enabled: " +:+ chapter)
    else
      Return (set_disabled_chapters self (disabled_chapters self ∪ {[chapter]}),
              "Disabled: " +:+ chapter).
Proof.
  intros Hlo Hget. unfold toggle_chapter.
  assert (chapter_idx <= Z.of_nat (length (keys (quiz_data self)))) as Hhi.
  { apply lookup_lt_Some in Hget. lia. }
  apply Z.leb_le in Hlo, Hhi. by rewrite Hlo, Hhi, Hget.
Qed.

(** What [toggle_chapter] does with any other index. *)
Lemma toggle_chapter_invalid (self : State) (chapter_idx : Z) :
  ~ (1 <= chapter_idx <= Z.of_nat (length (keys (quiz_data self)))) ->
  toggle_chapter self chapter_idx = Return (self, "Invalid chapter number!").
Proof.
  intros Hout. unfold toggle_chapter.
  destruct ((1 <=? chapter_idx)
            && (chapter_idx <=? Z.of_nat (length (keys (quiz_data self)))))
    eqn:Hrange; [|done].
  apply andb_true_iff in Hrange as [?%Z.leb_le ?%Z.leb_le]. lia.
Qed.

Lemma toggle_chapter_total (self : State) (chapter_idx : Z) :
  (exists chapter,
      1 <= chapter_idx /\
      keys (quiz_data self) !! Z.to_nat (chapter_idx - 1) = Some chapter) \/
  ~ (1 <= chapter_idx <= Z.of_nat (length (keys (quiz_data self)))).
Proof.
  destruct (decide (1 <= chapter_idx
                    <= Z.of_nat (length (keys (quiz_data self)))))
    as [[Hlo Hhi]|Hout]; [left|by right].
  destruct (lookup_lt_is_Some_2 (keys (quiz_data self))
              (Z.to_nat (chapter_idx - 1))) as [chapter Hget]; [lia|].
  by exists chapter.
Qed.

(** X1.  [toggle_chapter] never fails.  With an index from 1 to the
    number of chapters it flips the membership in the disabled set of the
    chapter at that place of the bank and of no other chapter; with any
    other index (zero, negative, too large) it changes nothing.  The bank
    and the statistics are never touched. *)
Theorem toggle_chapter_flips_one (self : State) (chapter_idx : Z) :
  exists self' message,
    toggle_chapter self chapter_idx = Return (self', message) /\
    quiz_data self' = quiz_data self /\
    user_stats self' = user_stats self /\
    (forall chapter,
       1 <= chapter_idx ->
       keys (quiz_data self) !! Z.to_nat (chapter_idx - 1) = Some chapter ->
       (chapter ∈ disabled_chapters self' <-> chapter ∉ disabled_chapters self) /\
       forall other, other <> chapter ->
         (other ∈ disabled_chapters self' <-> other ∈ disabled_chapters self)) /\
    (~ (1 <= chapter_idx <= Z.of_nat (length (keys (quiz_data self)))) ->
     self' = self).
Proof.
  destruct (toggle_chapter_total self chapter_idx) as [(chapter & Hlo & Hget)|Hout].
  - rewrite (toggle_chapter_valid self chapter_idx chapter Hlo Hget).
    assert (1 <= chapter_idx <= Z.of_nat (length (keys (quiz_data self)))) as Hin.
    { apply lookup_lt_Some in Hget. lia. }
    destruct (decide (chapter ∈ disabled_chapters self)) as [Hdis|Hen];
      eexists _, _; (split; [reflexivity|]); simpl;
      (split; [done|]); (split; [done|]); (split; [|done]);
      intros chapter' _ Hget'; assert (chapter' = chapter) as -> by congruence.
    + split.
      * rewrite elem_of_difference, elem_of_singleton. split; [by intros [_ ?]|done].
      * intros other Hne. rewrite elem_of_difference, elem_of_singleton.
        split; [by intros [? _]|done].
    + split.
      * rewrite elem_of_union, elem_of_singleton.
        split; [done|]. intros _. by right.
      * intros other Hne. rewrite elem_of_union, elem_of_singleton.
        split; [by intros [?|?]|by left].
  - rewrite (toggle_chapter_invalid self chapter_idx Hout).
    eexists _, _. split; [reflexivity|]. split; [done|]. split; [done|].
    split; [|done]. intros chapter Hlo Hget. exfalso. apply Hout.
    apply lookup_lt_Some in Hget. lia.
Qed.

(** X2.  Toggling the same index twice gives back the state it started
    from, whatever the index. *)
Theorem toggle_chapter_twice (self : State) (chapter_idx : Z) :
  exists self' message message',
    toggle_chapter self chapter_idx = Return (self', message) /\
    toggle_chapter self' chapter_idx = Return (self, message').
Proof.
  destruct (toggle_chapter_total self chapter_idx) as [(chapter & Hlo & Hget)|Hout].
  - rewrite (toggle_chapter_valid self chapter_idx chapter Hlo Hget).
    destruct (decide (chapter ∈ disabled_chapters self)) as [Hdis|Hen].
    + eexists _, _, _. split; [reflexivity|].
      rewrite (toggle_chapter_valid
                 (set_disabled_chapters self (disabled_chapters self ∖ {[chapter]}))
                 chapter_idx chapter Hlo Hget). simpl.
      destruct (decide (chapter ∈ disabled_chapters self ∖ {[chapter]}))
        as [Hin|_].
      { apply elem_of_difference in Hin as [_ Hin]. exfalso.
        by apply Hin, elem_of_singleton. }
      f_equal. f_equal. apply state_eq; simpl; [done| |done].
      apply set_eq. intros x. rewrite elem_of_union, elem_of_difference,
        elem_of_singleton.
      split; [intros [[Hx _]|Hx]; [done|by subst x]|].
      intros Hx. destruct (decide (x = chapter)); [by right|by left].
    + eexists _, _, _. split; [reflexivity|].
      rewrite (toggle_chapter_valid
                 (set_disabled_chapters self (disabled_chapters self ∪ {[chapter]}))
                 chapter_idx chapter Hlo Hget). simpl.
      destruct (decide (chapter ∈ disabled_chapters self ∪ {[chapter]}))
        as [_|Hout].
      2: { exfalso. apply Hout, elem_of_union. right. by apply elem_of_singleton. }
      f_equal. f_equal. apply state_eq; simpl; [done| |done].
      apply set_eq. intros x. rewrite elem_of_difference, elem_of_union,
        elem_of_singleton.
      split; [by intros [[Hx|Hx] Hne]|].
      intros Hx. split; [by left|]. by intros ->.
  - rewrite (toggle_chapter_invalid self chapter_idx Hout).
    eexists _, _, _. split; [reflexivity|].
    by rewrite (toggle_chapter_invalid self chapter_idx Hout).
Qed.

(** The valid case in one statement, for the compositions below. *)
Lemma toggle_chapter_membership (self : State) (chapter_idx : Z)
    (chapter : string) :
  1 <= chapter_idx ->
  keys (quiz_data self) !! Z.to_nat (chapter_idx - 1) = Some chapter ->
  exists self' message,
    toggle_chapter self chapter_idx = Return (self', message) /\
    quiz_data self' = quiz_data self /\
    (chapter ∈ disabled_chapters self' <-> chapter ∉ disabled_chapters self) /\
    forall other, other <> chapter ->
      (other ∈ disabled_chapters self' <-> other ∈ disabled_chapters self).
Proof.
  intros Hlo Hget.
  rewrite (toggle_chapter_valid self chapter_idx chapter Hlo Hget).
  destruct (decide (chapter ∈ disabled_chapters self)) as [Hdis|Hen];
    eexists _, _; (split; [reflexivity|]); simpl; (split; [done|]); split.
  - rewrite elem_of_difference, elem_of_singleton. split; [by intros [_ ?]|done].
  - intros other Hne. rewrite elem_of_difference, elem_of_singleton.
    split; [by intros [? _]|done].
  - rewrite elem_of_union, elem_of_singleton. split; [done|]. intros _. by right.
  - intros other Hne. rewrite elem_of_union, elem_of_singleton.
    split; [by intros [?|?]|by left].
Qed.

(** Selection reads the state through the bank and the membership of the
    chapter in the disabled set only. *)
Lemma select_question_ext (rng : Random) (s1 s2 : State) (chapter : string) :
  quiz_data s1 = quiz_data s2 ->
  (chapter ∈ disabled_chapters s1 <-> chapter ∈ disabled_chapters s2) ->
  select_question rng s1 chapter = select_question rng s2 chapter.
Proof.
  intros Hdata Hmem. unfold select_question. rewrite Hdata.
  destruct (decide (chapter ∈ disabled_chapters s1)) as [H1|H1],
           (decide (chapter ∈ disabled_chapters s2)) as [H2|H2];
    try done; exfalso; tauto.
Qed.

(** X3.  Disabling a chapter through [toggle_chapter] makes selection in
    it return [None], and leaves selection in every other chapter as it
    was. *)
Theorem toggle_chapter_disables_selection (self : State) (chapter_idx : Z)
    (chapter : string) :
  1 <= chapter_idx ->
  keys (quiz_data self) !! Z.to_nat (chapter_idx - 1) = Some chapter ->
  chapter ∉ disabled_chapters self ->
  exists self' message,
    toggle_chapter self chapter_idx = Return (self', message) /\
    (forall rng, select_question rng self' chapter = Return None) /\
    (forall rng other, other <> chapter ->
       select_question rng self' other = select_question rng self other).
Proof.
  intros Hlo Hget Hen.
  destruct (toggle_chapter_membership self chapter_idx chapter Hlo Hget)
    as (self' & message & Htoggle & Hdata & Hflip & Hothers).
  exists self', message. split; [done|]. split.
  - intros rng. unfold select_question.
    destruct (decide (chapter ∈ disabled_chapters self')) as [_|Hout]; [done|].
    exfalso. by apply Hout, Hflip.
  - intros rng other Hne. apply select_question_ext; [done|]. by apply Hothers.
Qed.

Lemma chapter_line_ext (s1 s2 : State) (i : nat) (chapter : string) :
  (chapter ∈ disabled_chapters s1 <-> chapter ∈ disabled_chapters s2) ->
  chapter_line s1 i chapter = chapter_line s2 i chapter.
Proof.
  intros Hmem. unfold chapter_line.
  destruct (decide (chapter ∈ disabled_chapters s1)) as [H1|H1],
           (decide (chapter ∈ disabled_chapters s2)) as [H2|H2];
    try done; exfalso; tauto.
Qed.

(** X4.  The numbers that [list_chapters] shows are the indices that
    [toggle_chapter] takes: toggling index [i] changes the line numbered
    [i] of the listing, which keeps its number and chapter name and shows
    the other status, and changes no other line. *)
Theorem list_chapters_after_toggle (self : State) (chapter_idx : Z)
    (chapter : string) :
  NoDup (keys (quiz_data self)) ->
  1 <= chapter_idx ->
  keys (quiz_data self) !! Z.to_nat (chapter_idx - 1) = Some chapter ->
  exists self' message,
    toggle_chapter self chapter_idx = Return (self', message) /\
    list_chapters self !! Z.to_nat chapter_idx
      = Some (pretty (Z.to_nat chapter_idx) +:+ ". " +:+ chapter +:+ " ["
              +:+ (if decide (chapter ∈ disabled_chapters self)
                   then "Disabled" else "Enabled") +:+ "]") /\
    list_chapters self' !! Z.to_nat chapter_idx
      = Some (pretty (Z.to_nat chapter_idx) +:+ ". " +:+ chapter +:+ " ["
              +:+ (if decide (chapter ∈ disabled_chapters self)
                   then "Enabled" else "Disabled") +:+ "]") /\
    forall j, j <> Z.to_nat chapter_idx ->
      list_chapters self' !! j = list_chapters self !! j.
Proof.
  intros Hnd Hlo Hget.
  destruct (toggle_chapter_membership self chapter_idx chapter Hlo Hget)
    as (self' & message & Htoggle & Hdata & Hflip & Hothers).
  exists self', message. split; [done|].
  assert (Z.to_nat chapter_idx = S (Z.to_nat (chapter_idx - 1))) as Hidx by lia.
  unfold list_chapters. rewrite Hdata, Hidx. simpl.
  rewrite !list_lookup_imap, Hget. simpl. unfold chapter_line.
  split; [done|]. split.
  - destruct (decide (chapter ∈ disabled_chapters self')) as [H1|H1],
             (decide (chapter ∈ disabled_chapters self)) as [H2|H2];
      try done; exfalso; tauto.
  - intros [|j] Hj; [done|]. simpl. rewrite !list_lookup_imap.
    destruct (keys (quiz_data self) !! j) as [other|] eqn:Hother; [|done].
    simpl. f_equal. apply chapter_line_ext, Hothers.
    intros ->. apply Hj. f_equal.
    by apply (NoDup_lookup (keys (quiz_data self)) j _ chapter).
Qed.

End Bookkeeping.

(** ** The prompt loop *)

Section Prompt.

Import BiologyQuiz.

(** The prompt either runs out of input on lines it rejects, or stops at
    the first line it accepts and evaluates the option of that number. *)
Lemma ask_question_cases (stats : gmap string Stats) (q : Question)
    (inputs : list line) :
  (Forall (rejected q) inputs /\
   ask_question stats q inputs = Raise EOFError) \/
  (exists skipped n selected rest,
      inputs = skipped ++ Number n :: rest /\
      Forall (rejected q) skipped /\
      1 <= n <= Z.of_nat (length (options q)) /\
      options q !! Z.to_nat (n - 1) = Some selected /\
      ask_question stats q inputs
        = r ← evaluate stats q selected; Return (r, rest)).
Proof.
  induction inputs as [|l inputs IH].
  - left. split; [constructor|done].
  - destruct l as [|n].
    + destruct IH as [[Hall Hask]|(skipped & n & selected & rest & -> & Hskip & Hn & Hsel & Hask)].
      * left. split; [by constructor|done].
      * right. exists (NotANumber :: skipped), n, selected, rest.
        split; [done|]. split; [by constructor|]. split; [done|]. by split.
    + destruct (decide (1 <= n <= Z.of_nat (length (options q)))) as [Hn|Hn].
      * right.
        destruct (lookup_lt_is_Some_2 (options q) (Z.to_nat (n - 1)))
          as [selected Hsel]; [lia|].
        exists [], n, selected, inputs. split; [done|]. split; [constructor|].
        split; [done|]. split; [done|].
        apply ask_question_accepts; [lia|done].
      * assert (ask_question stats q (Number n :: inputs)
                = ask_question stats q inputs) as Hstep.
        { apply (ask_question_skips stats q [Number n] inputs).
          by repeat constructor. }
        rewrite Hstep.
        destruct IH as [[Hall Hask]|(skipped & n' & selected & rest & -> & Hskip & Hn' & Hsel & Hask)].
        -- left. split; [by constructor|done].
        -- right. exists (Number n :: skipped), n', selected, rest.
           split; [done|]. split; [by constructor|]. split; [done|]. by split.
Qed.

(** X5.  On a question that carries its weight, [ask_question] has two
    outcomes only.  When every line typed is rejected (not a number, or a
    number outside 1..number of options) it prompts until the input ends
    and raises [EOFError].  Otherwise it skips the rejected lines, returns
    at the first accepted one and leaves the lines after it unread.  It
    never raises [IndexError] or [KeyError]. *)
Theorem ask_question_outcomes (stats : gmap string Stats) (q : Question)
    (w : float) (inputs : list line) :
  weight q = Some w ->
  (Forall (rejected q) inputs /\
   ask_question stats q inputs = Raise EOFError) \/
  (exists skipped n rest verdict q' stats',
      inputs = skipped ++ Number n :: rest /\
      Forall (rejected q) skipped /\
      1 <= n <= Z.of_nat (length (options q)) /\
      ask_question stats q inputs = Return (verdict, q', stats', rest)).
Proof.
  intros Hw.
  destruct (ask_question_cases stats q inputs)
    as [?|(skipped & n & selected & rest & Hin & Hskip & Hn & Hsel & Hask)];
    [by left|right].
  rewrite (evaluate_weighted stats q w selected Hw) in Hask.
  exists skipped, n, rest.
  destruct (bool_decide (selected = correct_option q)); by eexists _, _, _.
Qed.

(** X6.  When the [correct_option] of a question is not among its
    options, no answer is ever counted as correct: whenever
    [ask_question] returns, the verdict is false and the weight has grown
    by 0.5. *)
Theorem ask_question_unanswerable (stats : gmap string Stats) (q : Question)
    (w : float) (inputs : list line) (verdict : bool) (q' : Question)
    (stats' : gmap string Stats) (rest : list line) :
  weight q = Some w ->
  correct_option q ∉ options q ->
  ask_question stats q inputs = Return (verdict, q', stats', rest) ->
  verdict = false /\ weight q' = Some (add w f0_5).
Proof.
  intros Hw Hbad Hask.
  destruct (ask_question_cases stats q inputs)
    as [[_ Hraise]|(skipped & n & selected & rest' & _ & _ & _ & Hsel & Heval)];
    [congruence|].
  rewrite Heval, (evaluate_weighted stats q w selected Hw) in Hask.
  destruct (bool_decide (selected = correct_option q)) eqn:Hdec.
  - apply bool_decide_eq_true in Hdec. subst selected. exfalso. apply Hbad.
    apply list_elem_of_lookup. eauto.
  - simpl in Hask. by injection Hask as <- <- _ _.
Qed.

Lemma count_correct_answered (stats : gmap string Stats) (key : string) :
  stats_answered stats -> stats_answered (count_correct stats key).
Proof.
  intros Hinv key' s. unfold count_correct, stats_entry.
  destruct (decide (key = key')) as [->|Hne].
  - rewrite lookup_insert_eq. intros [= <-]. simpl.
    destruct (stats !! key') as [s0|] eqn:Hs0; simpl.
    + destruct (Hinv _ _ Hs0) as (? & ? & ?). lia.
    + lia.
  - rewrite lookup_insert_ne by done. apply Hinv.
Qed.

Lemma count_incorrect_answered (stats : gmap string Stats) (key : string) :
  stats_answered stats -> stats_answered (count_incorrect stats key).
Proof.
  intros Hinv key' s. unfold count_incorrect, stats_entry.
  destruct (decide (key = key')) as [->|Hne].
  - rewrite lookup_insert_eq. intros [= <-]. simpl.
    destruct (stats !! key') as [s0|] eqn:Hs0; simpl.
    + destruct (Hinv _ _ Hs0) as (? & ? & ?). lia.
    + lia.
  - rewrite lookup_insert_ne by done. apply Hinv.
Qed.

Lemma evaluate_answered (stats : gmap string Stats) (q : Question)
    (selected : string) (verdict : bool) (q' : Question)
    (stats' : gmap string Stats) :
  stats_answered stats ->
  evaluate stats q selected = Return (verdict, q', stats') ->
  stats_answered stats'.
Proof.
  intros Hinv. unfold evaluate, get_weight.
  destruct (weight q) as [w|];
    destruct (bool_decide (selected = correct_option q)); simpl; try done;
    intros [= _ _ <-].
  - by apply count_correct_answered.
  - by apply count_incorrect_answered.
Qed.

Lemma ask_question_answered (stats : gmap string Stats) (q : Question)
    (inputs : list line) (verdict : bool) (q' : Question)
    (stats' : gmap string Stats) (rest : list line) :
  stats_answered stats ->
  ask_question stats q inputs = Return (verdict, q', stats', rest) ->
  stats_answered stats'.
Proof.
  intros Hinv Hask.
  destruct (ask_question_cases stats q inputs)
    as [[_ Hraise]|(skipped & n & selected & rest' & _ & _ & _ & _ & Heval)];
    [congruence|].
  rewrite Heval in Hask.
  destruct (evaluate stats q selected) as [[[v q1] stats1]|e] eqn:Hev;
    simpl in Hask; [|done].
  injection Hask as <- <- <- <-. by eapply evaluate_answered.
Qed.

(** What [ask_question] returns is one evaluation of the question, and the
    lines it leaves are what follows the lines it read. *)
Lemma ask_question_returns (stats : gmap string Stats) (q : Question)
    (inputs : list line) (verdict : bool) (q' : Question)
    (stats' : gmap string Stats) (rest : list line) :
  ask_question stats q inputs = Return (verdict, q', stats', rest) ->
  one_answer q q' /\
  exists k, (k < length inputs)%nat /\ rest = drop (S k) inputs.
Proof.
  intros Hask.
  destruct (ask_question_cases stats q inputs)
    as [[_ Hraise]|(skipped & n & selected & rest' & -> & _ & _ & _ & Heval)];
    [congruence|].
  rewrite Heval in Hask. unfold evaluate, get_weight in Hask.
  destruct (weight q) as [w|] eqn:Hw.
  2: { by destruct (bool_decide (selected = correct_option q)). }
  assert (rest = rest' /\ one_answer q q') as [-> Hone].
  { destruct (bool_decide (selected = correct_option q)); simpl in Hask;
      injection Hask as _ <- _ <-; (split; [done|]); exists w;
      (split; [done|]); [by left|by right]. }
  split; [done|]. exists (length skipped). split.
  - rewrite length_app. simpl. lia.
  - rewrite cons_middle, app_assoc.
    rewrite drop_app_length'; [done|]. rewrite length_app. simpl. lia.
Qed.

End Prompt.

(** ** Sessions *)

Section Sessions.

Import BiologyQuiz.

(** *** Updating a question in place *)

Lemma dict_get_set {V} (d : dict V) (k k' : string) (v0 v : V) :
  dict_get d k = Some v0 ->
  dict_get (dict_set d k v) k' = if decide (k = k') then Some v else dict_get d k'.
Proof.
  induction d as [|[k0 v1] d IH]; simpl; [done|].
  destruct (decide (k0 = k)) as [->|Hne]; simpl.
  - intros _. by destruct (decide (k = k')).
  - intros Hget. destruct (decide (k0 = k')) as [->|Hne'].
    + by destruct (decide (k = k')); [congruence|].
    + by apply IH.
Qed.

Lemma dict_set_fmap {V W} (f : V -> W) (d : dict V) (k : string) (v : V) :
  prod_map id f <$> dict_set d k v = dict_set (prod_map id f <$> d) k (f v).
Proof.
  induction d as [|[k0 v0] d IH]; [done|].
  simpl. destruct (decide (k0 = k)); [done|].
  rewrite fmap_cons. by f_equal.
Qed.

Lemma dict_set_same {V} (d : dict V) (k : string) (v : V) :
  dict_get d k = Some v -> dict_set d k v = d.
Proof.
  induction d as [|[k0 v0] d IH]; simpl; [done|].
  destruct (decide (k0 = k)) as [->|Hne].
  - by intros [= ->].
  - intros Hget. by rewrite IH.
Qed.

Lemma dict_set_Forall {V} (R : string * V -> Prop) (d : dict V) (k : string) (v : V) :
  Forall R d -> R (k, v) -> Forall R (dict_set d k v).
Proof.
  intros Hd Hv. induction Hd as [|[k0 v0] d H0 Hd IH]; simpl.
  - by constructor.
  - destruct (decide (k0 = k)) as [->|Hne]; by constructor.
Qed.

Lemma dict_get_Forall {V} (R : string * V -> Prop) (d : dict V) (k : string) (v : V) :
  Forall R d -> dict_get d k = Some v -> R (k, v).
Proof.
  intros Hd Hget. rewrite Forall_forall in Hd. apply Hd.
  by apply dict_get_Some_elem.
Qed.

Lemma question_at_put_same (data : dict (list Question)) (chapter : string)
    (i : nat) (q0 q : Question) :
  question_at data chapter i = Some q0 ->
  question_at (put_question data chapter i q) chapter i = Some q.
Proof.
  unfold question_at, put_question.
  destruct (dict_get data chapter) as [questions|] eqn:Hget; simpl; [|done].
  intros Hi. rewrite (dict_get_set data chapter chapter questions _ Hget).
  destruct (decide (chapter = chapter)); [|done]. simpl.
  apply list_lookup_insert_eq. by eapply lookup_lt_Some.
Qed.

Lemma question_at_put_other (data : dict (list Question)) (chapter chapter' : string)
    (i i' : nat) (q : Question) :
  (chapter', i') <> (chapter, i) ->
  question_at (put_question data chapter i q) chapter' i'
    = question_at data chapter' i'.
Proof.
  intros Hne. unfold question_at, put_question.
  destruct (dict_get data chapter) as [questions|] eqn:Hget; [|done].
  rewrite (dict_get_set data chapter chapter' questions _ Hget).
  destruct (decide (chapter = chapter')) as [<-|]; [|done].
  rewrite Hget. simpl. apply list_lookup_insert_ne. congruence.
Qed.

Lemma dict_get_put_other (data : dict (list Question)) (chapter chapter' : string)
    (i : nat) (q : Question) :
  chapter' <> chapter ->
  dict_get (put_question data chapter i q) chapter' = dict_get data chapter'.
Proof.
  intros Hne. unfold put_question.
  destruct (dict_get data chapter) as [questions|] eqn:Hget; [|done].
  rewrite (dict_get_set data chapter chapter' questions _ Hget).
  by destruct (decide (chapter = chapter')) as [<-|].
Qed.

Lemma skeleton_put (data : dict (list Question)) (chapter : string) (i : nat)
    (q0 q : Question) :
  question_at data chapter i = Some q0 ->
  strip_weight q = strip_weight q0 ->
  skeleton (put_question data chapter i q) = skeleton data.
Proof.
  unfold question_at, put_question, skeleton.
  destruct (dict_get data chapter) as [questions|] eqn:Hget; simpl; [|done].
  intros Hi Hstrip. rewrite dict_set_fmap. apply dict_set_same.
  rewrite dict_get_fmap, Hget. simpl. f_equal.
  rewrite list_fmap_insert, Hstrip. symmetry. apply list_insert_id.
  by rewrite list_lookup_fmap, Hi.
Qed.

Lemma put_question_Forall (P : Question -> Prop) (data : dict (list Question))
    (chapter : string) (i : nat) (q : Question) :
  Forall (fun item => Forall P item.2) data ->
  P q ->
  Forall (fun item => Forall P item.2) (put_question data chapter i q).
Proof.
  intros Hdata Hq. unfold put_question.
  destruct (dict_get data chapter) as [questions|] eqn:Hget; [|done].
  apply dict_set_Forall; [done|]. simpl.
  apply Forall_insert; [|done].
  apply (dict_get_Forall _ data chapter questions Hdata Hget).
Qed.

Lemma question_at_Forall (P : Question -> Prop) (data : dict (list Question))
    (chapter : string) (i : nat) (q : Question) :
  Forall (fun item => Forall P item.2) data ->
  question_at data chapter i = Some q ->
  P q.
Proof.
  intros Hdata. unfold question_at.
  destruct (dict_get data chapter) as [questions|] eqn:Hget; simpl; [|done].
  intros Hi. pose proof (dict_get_Forall _ data chapter questions Hdata Hget) as Hq.
  simpl in Hq. rewrite Forall_forall in Hq. apply Hq.
  apply list_elem_of_lookup. eauto.
Qed.

(** *** One answer *)

Lemma one_answer_strip (q q' : Question) :
  one_answer q q' -> strip_weight q' = strip_weight q.
Proof. by intros (w & _ & [->| ->]). Qed.

Lemma one_answer_weighted (q q' : Question) :
  one_answer q q' -> is_Some (weight q').
Proof. intros (w & _ & [->| ->]); by eexists. Qed.

Lemma one_answer_floor (q q' : Question) :
  one_answer q q' -> at_floor q -> at_floor q'.
Proof.
  intros (w & Hw & Hq') (w0 & Hw0 & Hfloor).
  assert (w0 = w) as -> by congruence.
  destruct Hq' as [->| ->]; eexists; (split; [reflexivity|]).
  - apply py_max_floor.
  - apply add_half_floor. by apply floor_nonneg.
Qed.

(** *** Asking the question at a position *)

Lemma ask_at_returns (self self' : State) (chapter : string) (i : nat)
    (stdin stdin' : list typed) (verdict : bool) :
  ask_at self chapter i stdin = Return (verdict, self', stdin') ->
  exists q q',
    question_at (quiz_data self) chapter i = Some q /\
    one_answer q q' /\
    quiz_data self' = put_question (quiz_data self) chapter i q' /\
    disabled_chapters self' = disabled_chapters self /\
    (stats_answered (user_stats self) -> stats_answered (user_stats self')) /\
    exists k, (k < length stdin)%nat /\ stdin' = drop (S k) stdin.
Proof.
  unfold ask_at.
  destruct (question_at (quiz_data self) chapter i) as [q|] eqn:Hq; [|done].
  destruct (ask_question (user_stats self) q (as_line <$> stdin))
    as [[[[v q'] stats'] rest]|e] eqn:Hask; simpl; [|done].
  intros [= <- <- <-].
  destruct (ask_question_returns _ _ _ _ _ _ _ Hask) as (Hone & k & Hk & Hrest).
  rewrite length_fmap in Hk.
  exists q, q'. split; [done|]. split; [done|]. split; [done|]. split; [done|].
  split; [intros Hinv; by eapply ask_question_answered|].
  exists k. split; [done|]. simpl. f_equal.
  rewrite Hrest, length_drop, length_fmap. lia.
Qed.

Lemma after_answers_refl (touched : string -> Prop) (self : State) :
  after_answers touched self self.
Proof. unfold after_answers. repeat (split; [done|]). done. Qed.

Lemma after_answers_trans (touched : string -> Prop) (s1 s2 s3 : State) :
  after_answers touched s1 s2 -> after_answers touched s2 s3 ->
  after_answers touched s1 s3.
Proof.
  intros (Hs1 & Hd1 & Ho1 & Hw1 & Hf1 & Ha1) (Hs2 & Hd2 & Ho2 & Hw2 & Hf2 & Ha2).
  split; [congruence|]. split; [congruence|]. split.
  { intros chapter Hout. rewrite Ho2, Ho1; done. }
  split; [auto|]. split; auto.
Qed.

Lemma after_answers_mono (touched touched' : string -> Prop) (s1 s2 : State) :
  (forall chapter, touched chapter -> touched' chapter) ->
  after_answers touched s1 s2 -> after_answers touched' s1 s2.
Proof.
  intros Hsub (Hs & Hd & Ho & Hrest).
  split; [done|]. split; [done|]. split; [|done].
  intros chapter Hout. apply Ho. intros Hin. by apply Hout, Hsub.
Qed.

Lemma ask_at_after_answers (self self' : State) (chapter : string) (i : nat)
    (stdin stdin' : list typed) (verdict : bool) :
  ask_at self chapter i stdin = Return (verdict, self', stdin') ->
  after_answers (fun ch => ch = chapter) self self'.
Proof.
  intros Hask.
  destruct (ask_at_returns _ _ _ _ _ _ _ Hask)
    as (q & q' & Hq & Hone & Hdata & Hdis & Hstats & _).
  split; [|split; [done|split; [|split; [|split; [|done]]]]]; rewrite Hdata.
  - apply (skeleton_put _ _ _ q); [done|]. by apply one_answer_strip.
  - intros chapter' Hne. by apply dict_get_put_other.
  - intros Hw. apply put_question_Forall; [done|].
    by eapply one_answer_weighted.
  - intros Hf. apply put_question_Forall; [done|].
    eapply one_answer_floor; [done|].
    by apply (question_at_Forall at_floor (quiz_data self) chapter i q).
Qed.

Lemma score_grows_refl (score : Score) : score_grows score score.
Proof. unfold score_grows. lia. Qed.

Lemma score_grows_answer (score score' : Score) (verdict : bool) :
  score_grows (count_answer score verdict) score' -> score_grows score score'.
Proof. unfold score_grows, count_answer. destruct verdict; simpl; lia. Qed.

(** *** The selection by position *)

Lemma bind_return {A B} (a : A) (f : A -> result B) : Return a ≫= f = f a.
Proof. done. Qed.

Lemma select_loop_index_agrees (r : float) (questions : list Question) :
  forall acc i0,
    select_loop r acc questions =
      match select_loop_index r acc questions i0 with
      | Return (Some i) => Return (questions !! (i - i0)%nat)
      | Return None => Return None
      | Raise e => Raise e
      end /\
    forall i, select_loop_index r acc questions i0 = Return (Some i) ->
      (i0 <= i < i0 + length questions)%nat.
Proof.
  induction questions as [|q rest IH]; intros acc i0; simpl; [done|].
  unfold get_weight. destruct (weight q) as [w|]; simpl; [|done].
  destruct (leb r (add acc w)).
  - split.
    + by rewrite Nat.sub_diag.
    + intros i [= <-]. lia.
  - destruct (IH (add acc w) (S i0)) as [Hagree Hrange]. split.
    + rewrite Hagree.
      destruct (select_loop_index r (add acc w) rest (S i0)) as [[i|]|e];
        try done.
      pose proof (Hrange i eq_refl) as Hi. f_equal.
      replace (i - i0)%nat with (S (i - S i0)) by lia. done.
    + intros i Hi. apply Hrange in Hi. lia.
Qed.

(** [select_index] finds the position of the object that
    [select_question] returns. *)
Lemma select_index_agrees (rng : Random) (self : State) (chapter : string) :
  select_question rng self chapter =
    match select_index rng self chapter with
    | Return (Some i) => Return (question_at (quiz_data self) chapter i)
    | Return None => Return None
    | Raise e => Raise e
    end.
Proof.
  unfold select_question, select_index, question_at.
  destruct (decide (chapter ∈ disabled_chapters self)); [done|].
  destruct (dict_get (quiz_data self) chapter) as [questions|]; [|done].
  destruct questions as [|q0 rest]; [done|].
  destruct (sum_weights zero (q0 :: rest)) as [total|e]; [|done].
  rewrite !bind_return.
  destruct (eqb total zero).
  - unfold choice. change (length (q0 :: rest)) with (S (length rest)).
    destruct ((q0 :: rest) !! randbelow rng (S (length rest))) eqn:Hk; [|done].
    simpl. by rewrite Hk.
  - destruct (select_loop_index_agrees (uniform rng zero total) (q0 :: rest) zero 0)
      as [-> Hrange].
    destruct (select_loop_index (uniform rng zero total) zero (q0 :: rest) 0)
      as [[i|]|e]; simpl; try done.
    + pose proof (Hrange i eq_refl) as Hi. rewrite Nat.sub_0_r.
      destruct (lookup_lt_is_Some_2 (q0 :: rest) i) as [q Hq]; [simpl in *; lia|].
      by rewrite Hq.
    + f_equal. rewrite Nat.sub_0_r. exact (last_lookup (q0 :: rest)).
Qed.

(** The position that [select_index] returns is a position of the
    chapter, which is enabled. *)
Lemma select_index_position (rng : Random) (self : State) (chapter : string)
    (i : nat) :
  select_index rng self chapter = Return (Some i) ->
  (chapter ∉ disabled_chapters self) /\
  exists q, question_at (quiz_data self) chapter i = Some q.
Proof.
  unfold select_index, question_at.
  destruct (decide (chapter ∈ disabled_chapters self)); [done|].
  destruct (dict_get (quiz_data self) chapter) as [questions|]; [|done].
  destruct questions as [|q0 rest]; [done|].
  destruct (sum_weights zero (q0 :: rest)) as [total|e]; [|done].
  rewrite !bind_return.
  intros Hsel. split; [done|]. simpl.
  apply lookup_lt_is_Some_2. revert Hsel.
  destruct (eqb total zero).
  - destruct ((q0 :: rest) !! randbelow rng (length (q0 :: rest))) eqn:Hk;
      [|done].
    intros [= <-]. by eapply lookup_lt_Some.
  - destruct (select_loop_index_agrees (uniform rng zero total) (q0 :: rest) zero 0)
      as [_ Hrange].
    destruct (select_loop_index (uniform rng zero total) zero (q0 :: rest) 0)
      as [[j|]|e]; simpl; try done.
    + intros [= <-]. pose proof (Hrange j eq_refl) as Hj. simpl in Hj. lia.
    + intros [= <-]. simpl. lia.
Qed.

(** *** The loop of [study_chapter] *)

Lemma study_loop_returns (chapter : string) (fuel : nat) :
  forall rng self stdin score self' score' stdin',
    study_loop fuel rng self chapter stdin score = Return (self', score', stdin') ->
    after_answers (fun ch => ch = chapter) self self' /\
    score_grows score score' /\
    exists k, stdin' = drop k stdin.
Proof.
  induction fuel as [|fuel IH]; intros rng self stdin score self' score' stdin';
    simpl; [done|].
  destruct (select_index (rng 0%nat) self chapter) as [[i|]|e]; simpl; try done.
  2: { intros [= <- <- <-]. split; [apply after_answers_refl|].
       split; [apply score_grows_refl|]. by exists 0%nat. }
  destruct (ask_at self chapter i stdin) as [[[verdict self1] stdin1]|e] eqn:Hask;
    simpl; [|done].
  pose proof (ask_at_after_answers _ _ _ _ _ _ _ Hask) as Hstep.
  destruct (ask_at_returns _ _ _ _ _ _ _ Hask)
    as (q & q' & Hq & Hone & Hdata & Hdis & Hstats & k & Hk & Hstdin1).
  subst stdin1.
  destruct (drop (S k) stdin) as [|choice stdin2] eqn:Hdrop; [done|].
  assert (stdin2 = drop (S (S k)) stdin) as Hstdin2.
  { change stdin2 with (drop 1 (choice :: stdin2)).
    rewrite <- Hdrop, drop_drop. f_equal. lia. }
  destruct (says_yes choice).
  - intros Hloop. apply IH in Hloop as (Hrest & Hscore & k' & ->).
    split; [by eapply after_answers_trans|].
    split; [by eapply score_grows_answer|].
    exists (S (S k) + k')%nat. by rewrite Hstdin2, drop_drop.
  - intros [= <- <- <-]. split; [done|].
    split; [eapply score_grows_answer, score_grows_refl|].
    by exists (S (S k)).
Qed.

(** Every round of the loop reads at least two lines, so any fuel above
    the number of lines typed gives the same run. *)
Lemma study_loop_fuel (chapter : string) (fuel1 : nat) :
  forall fuel2 rng self stdin score,
    (length stdin < fuel1)%nat -> (length stdin < fuel2)%nat ->
    study_loop fuel1 rng self chapter stdin score
      = study_loop fuel2 rng self chapter stdin score.
Proof.
  induction fuel1 as [|fuel1 IH]; intros fuel2 rng self stdin score H1 H2;
    [lia|].
  destruct fuel2 as [|fuel2]; [lia|]. simpl.
  destruct (select_index (rng 0%nat) self chapter) as [[i|]|e]; simpl; try done.
  destruct (ask_at self chapter i stdin) as [[[verdict self1] stdin1]|e] eqn:Hask;
    simpl; [|done].
  destruct (ask_at_returns _ _ _ _ _ _ _ Hask)
    as (q & q' & Hq & Hone & Hdata & Hdis & Hstats & k & Hk & Hstdin1).
  destruct stdin1 as [|choice stdin2]; [done|].
  destruct (says_yes choice); [|done].
  assert (S (length stdin2) = length stdin - S k)%nat as Hlen.
  { change (S (length stdin2)) with (length (choice :: stdin2)).
    by rewrite Hstdin1, length_drop. }
  apply IH; lia.
Qed.

(** The chapters in which [select_index] finds nothing to ask. *)
Lemma select_index_nothing (rng : Random) (self : State) (chapter : string) :
  chapter ∈ disabled_chapters self \/
  dict_get (quiz_data self) chapter = Some [] ->
  select_index rng self chapter = Return None.
Proof.
  unfold select_index.
  destruct (decide (chapter ∈ disabled_chapters self)); [done|].
  intros [?|Hget]; [done|]. by rewrite Hget.
Qed.

(** X8.  Studying a chapter that is disabled, or one that has no
    questions, asks nothing and reads nothing from the keyboard, yet it
    still saves: the store is overwritten with the bank in memory. *)
Theorem study_chapter_nothing_to_ask (rng : nat -> Random) (self : State)
    (store : Store) (chapter : string) (stdin : list typed) :
  chapter ∈ disabled_chapters self \/
  dict_get (quiz_data self) chapter = Some [] ->
  store <> NoDirectory ->
  study_chapter rng self store chapter stdin
    = Return (self, Document (quiz_data self),
              {| question_count := 0; correct_count := 0 |}, stdin).
Proof.
  intros Hnothing Hstore. unfold study_chapter. simpl study_loop.
  rewrite (select_index_nothing (rng 0%nat) self chapter Hnothing).
  rewrite !bind_return. unfold save_quiz_data. by destruct store.
Qed.

Lemma study_chapter_returns (rng : nat -> Random) (self self' : State)
    (store store' : Store) (chapter : string) (stdin stdin' : list typed)
    (score : Score) :
  study_chapter rng self store chapter stdin
    = Return (self', store', score, stdin') ->
  store' = Document (quiz_data self') /\
  study_loop (S (length stdin)) rng self chapter stdin
    {| question_count := 0; correct_count := 0 |}
    = Return (self', score, stdin').
Proof.
  unfold study_chapter.
  destruct (study_loop (S (length stdin)) rng self chapter stdin _)
    as [[[self1 score1] stdin1]|e]; [|done].
  rewrite bind_return. unfold save_quiz_data.
  destruct store; simpl; try done; by intros [= <- <- <- <-].
Qed.

(** X9.  A study session that completes changes weights of the studied
    chapter only: the bank keeps its chapters, their order and the text,
    options and answer of every question; the other chapters and the
    disabled set are untouched; when every weight was at least 0.1 before,
    every weight is at least 0.1 after; the store holds the bank as it is
    in memory at the end; and no more answers are counted correct than
    questions were asked. *)
Theorem study_chapter_changes_weights_only (rng : nat -> Random)
    (self self' : State) (store store' : Store) (chapter : string)
    (stdin stdin' : list typed) (score : Score) :
  study_chapter rng self store chapter stdin
    = Return (self', store', score, stdin') ->
  store' = Document (quiz_data self') /\
  skeleton (quiz_data self') = skeleton (quiz_data self) /\
  disabled_chapters self' = disabled_chapters self /\
  (forall other, other <> chapter ->
     dict_get (quiz_data self') other = dict_get (quiz_data self) other) /\
  (bank_at_floor (quiz_data self) -> bank_at_floor (quiz_data self')) /\
  (stats_answered (user_stats self) -> stats_answered (user_stats self')) /\
  0 <= correct_count score <= question_count score /\
  exists k, stdin' = drop k stdin.
Proof.
  intros Hstudy.
  destruct (study_chapter_returns _ _ _ _ _ _ _ _ _ Hstudy) as [Hstore Hloop].
  destruct (study_loop_returns _ _ _ _ _ _ _ _ _ Hloop)
    as ((Hskel & Hdis & Hother & _ & Hfloor & Hstats) & Hscore & Hsuffix).
  unfold score_grows in Hscore. simpl in Hscore.
  split; [done|]. split; [done|]. split; [done|]. split; [done|].
  split; [done|]. split; [done|]. split; [lia|done].
Qed.

(** X10.  What a study session saves is what the next start of the
    program loads: after a session on a bank loaded from the store, loading
    the store again gives the bank that the session left in memory, with
    every weight as it was updated. *)
Theorem study_chapter_then_restart (rng : nat -> Random) (self self' : State)
    (store store' : Store) (chapter : string) (stdin stdin' : list typed)
    (score : Score) :
  bank_weighted (quiz_data self) ->
  study_chapter rng self store chapter stdin
    = Return (self', store', score, stdin') ->
  forall other : State,
    load_quiz_data other store'
      = Return (set_quiz_data other (quiz_data self'), store').
Proof.
  intros Hweighted Hstudy other.
  destruct (study_chapter_returns _ _ _ _ _ _ _ _ _ Hstudy) as [-> Hloop].
  destruct (study_loop_returns _ _ _ _ _ _ _ _ _ Hloop)
    as ((_ & _ & _ & Hw & _ & _) & _ & _).
  unfold load_quiz_data. simpl. by rewrite add_weight_weighted by auto.
Qed.

(** X11.  One round of a study session, end to end: when the selection
    picks the question at position [i], the prompt skips the lines it
    rejects, takes the first number in range, the question at position [i]
    of the bank gets its new weight, the statistics of its text get the
    answer, and when the next line is not ["y"] the session ends, saves
    this bank and leaves the remaining lines unread. *)
Theorem study_chapter_one_question (rng : nat -> Random) (self : State)
    (store : Store) (chapter : string) (i : nat) (q : Question) (w : float)
    (skipped : list typed) (n : Z) (selected : string) (choice : typed)
    (rest : list typed) :
  select_index (rng 0%nat) self chapter = Return (Some i) ->
  question_at (quiz_data self) chapter i = Some q ->
  weight q = Some w ->
  Forall (rejected q) (as_line <$> skipped) ->
  1 <= n ->
  options q !! Z.to_nat (n - 1) = Some selected ->
  says_yes choice = false ->
  store <> NoDirectory ->
  let verdict := bool_decide (selected = correct_option q) in
  let q' :=
    set_weight q (if verdict then py_max f0_1 (sub w f0_3) else add w f0_5) in
  let bank := put_question (quiz_data self) chapter i q' in
  study_chapter rng self store chapter
    (skipped ++ TypedNumber n :: choice :: rest)
  = Return ({| quiz_data := bank;
               disabled_chapters := disabled_chapters self;
               user_stats :=
                 (if verdict then count_correct else count_incorrect)
                   (user_stats self) (question q) |},
            Document bank,
            {| question_count := 1;
               correct_count := if verdict then 1 else 0 |},
            rest).
Proof.
  intros Hsel Hq Hw Hskip Hn Hopt Hno Hstore verdict q' bank.
  unfold study_chapter. simpl study_loop. rewrite Hsel, bind_return.
  unfold ask_at. rewrite Hq.
  rewrite fmap_app, fmap_cons. simpl as_line.
  rewrite (ask_question_skips _ q _ _ Hskip).
  rewrite (ask_question_accepts _ q n selected _ Hn Hopt).
  rewrite (evaluate_weighted _ q w selected Hw).
  fold verdict.
  assert (drop (length (skipped ++ TypedNumber n :: choice :: rest)
                - length (as_line <$> choice :: rest))
               (skipped ++ TypedNumber n :: choice :: rest)
          = choice :: rest) as Hdrop.
  { rewrite length_fmap, length_app. simpl.
    replace (length skipped + S (S (length rest)) - S (length rest))%nat
      with (S (length skipped)) by lia.
    rewrite cons_middle, app_assoc.
    rewrite drop_app_length'; [done|]. rewrite length_app. simpl. lia. }
  destruct verdict; rewrite !bind_return; cbv beta iota zeta;
    rewrite Hdrop, Hno, !bind_return; unfold save_quiz_data;
    by destruct store.
Qed.

(** *** The loop of [test_all_chapters] *)

Lemma test_loop_returns (items : list (string * nat)) :
  forall self stdin score self' score' stdin',
    test_loop items self stdin score = Return (self', score', stdin') ->
    after_answers (fun ch => ch ∈ items.*1) self self' /\
    score_grows score score' /\
    exists k, stdin' = drop k stdin.
Proof.
  induction items as [|[chapter i] items IH];
    intros self stdin score self' score' stdin'; simpl.
  { intros [= <- <- <-]. split; [apply after_answers_refl|].
    split; [apply score_grows_refl|]. by exists 0%nat. }
  destruct (ask_at self chapter i stdin) as [[[verdict self1] stdin1]|e] eqn:Hask;
    simpl; [|done].
  assert (after_answers (fun ch => ch ∈ chapter :: items.*1) self self1) as Hstep.
  { eapply after_answers_mono; [|by eapply ask_at_after_answers].
    intros ch ->. apply list_elem_of_here. }
  destruct (ask_at_returns _ _ _ _ _ _ _ Hask)
    as (q & q' & Hq & Hone & Hdata & Hdis & Hstats & k & Hk & Hstdin1).
  assert (forall self2 score2 stdin2 stdin0 k0,
            stdin0 = drop k0 stdin ->
            test_loop items self1 stdin0 (count_answer score verdict)
              = Return (self2, score2, stdin2) ->
            after_answers (fun ch => ch ∈ chapter :: items.*1) self self2 /\
            score_grows score score2 /\
            exists k, stdin2 = drop k stdin) as Hrest.
  { intros self2 score2 stdin2 stdin0 k0 -> Hloop.
    apply IH in Hloop as (Hafter & Hscore & k' & ->).
    split.
    - eapply after_answers_trans; [done|].
      eapply after_answers_mono; [|done].
      intros ch Hin. by apply list_elem_of_further.
    - split; [by eapply score_grows_answer|].
      exists (k0 + k')%nat. by rewrite drop_drop. }
  destruct (_ mod 5 =? 0).
  - destruct stdin1 as [|choice stdin2] eqn:Hstdin; [done|].
    assert (stdin2 = drop (S (S k)) stdin) as Hstdin2.
    { change stdin2 with (drop 1 (choice :: stdin2)).
      rewrite Hstdin1, drop_drop. f_equal. lia. }
    destruct (says_yes choice).
    + by apply Hrest with (k0 := S (S k)).
    + intros [= <- <- <-]. split; [done|].
      split; [eapply score_grows_answer, score_grows_refl|].
      by exists (S (S k)).
  - by apply Hrest with (k0 := S k).
Qed.

(** Each question is the object of at most one answer of the loop when no
    position occurs twice in the list. *)
Lemma test_loop_one_answer (items : list (string * nat)) :
  forall self stdin score self' score' stdin',
    NoDup items ->
    test_loop items self stdin score = Return (self', score', stdin') ->
    forall chapter i q,
      question_at (quiz_data self) chapter i = Some q ->
      exists q',
        question_at (quiz_data self') chapter i = Some q' /\
        (q' = q \/ ((chapter, i) ∈ items /\ one_answer q q')).
Proof.
  induction items as [|[c j] items IH];
    intros self stdin score self' score' stdin' Hnd; simpl.
  { intros [= <- <- <-] chapter i q Hq. exists q. by split; [|left]. }
  apply NoDup_cons in Hnd as [Hfresh Hnd].
  destruct (ask_at self c j stdin) as [[[verdict self1] stdin1]|e] eqn:Hask;
    simpl; [|done].
  destruct (ask_at_returns _ _ _ _ _ _ _ Hask)
    as (q1 & q1' & Hq1 & Hone & Hdata & _).
  assert (forall chapter i q,
            question_at (quiz_data self) chapter i = Some q ->
            exists q',
              question_at (quiz_data self1) chapter i = Some q' /\
              ((chapter, i) <> (c, j) /\ q' = q \/
               (chapter, i) = (c, j) /\ one_answer q q')) as Hfirst.
  { intros chapter i q Hq. rewrite Hdata.
    destruct (decide ((chapter, i) = (c, j))) as [[= -> ->]|Hne].
    - exists q1'. split; [by eapply question_at_put_same|].
      right. split; [done|]. congruence.
    - exists q. split; [by rewrite question_at_put_other|]. by left. }
  assert (forall score2 stdin2 self2 stdin0,
            test_loop items self1 stdin0 (count_answer score verdict)
              = Return (self2, score2, stdin2) ->
            forall chapter i q,
              question_at (quiz_data self) chapter i = Some q ->
              exists q',
                question_at (quiz_data self2) chapter i = Some q' /\
                (q' = q \/ ((chapter, i) ∈ (c, j) :: items /\ one_answer q q')))
    as Hrest.
  { intros score2 stdin2 self2 stdin0 Hloop chapter i q Hq.
    destruct (Hfirst chapter i q Hq) as (qa & Hqa & Hcase).
    destruct (IH _ _ _ _ _ _ Hnd Hloop chapter i qa Hqa) as (qb & Hqb & Hcase').
    exists qb. split; [done|].
    destruct Hcase as [[Hne ->]|[Heq Hone']].
    - destruct Hcase' as [->|[Hin Hone']]; [by left|].
      right. split; [by apply list_elem_of_further|done].
    - destruct Hcase' as [->|[Hin _]].
      + right. split; [rewrite Heq; apply list_elem_of_here|done].
      + exfalso. apply Hfresh. by rewrite <- Heq. }
  destruct (_ mod 5 =? 0).
  - destruct stdin1 as [|choice stdin2]; [done|].
    destruct (says_yes choice); [by apply Hrest|].
    intros [= <- <- <-] chapter i q Hq.
    destruct (Hfirst chapter i q Hq) as (qa & Hqa & [[_ Hsame]|[Heq Hone']]);
      exists qa; (split; [done|]); [by left|].
    right. split; [rewrite Heq; apply list_elem_of_here|done].
  - by apply Hrest.
Qed.

(** The positions collected from a list of chapters belong to those
    chapters, and none occurs twice when no chapter does. *)
Lemma all_questions_positions (self : State) (chapters : list string) :
  forall positions,
    all_questions self chapters = Return positions ->
    (forall chapter i, (chapter, i) ∈ positions -> chapter ∈ chapters) /\
    (NoDup chapters -> NoDup positions).
Proof.
  induction chapters as [|chapter chapters IH]; intros positions; simpl.
  { intros [= <-]. split; [|constructor].
    intros chapter i Hin. by apply elem_of_nil in Hin. }
  unfold chapter_positions.
  destruct (dict_get (quiz_data self) chapter) as [questions|]; [|done].
  rewrite bind_return.
  destruct (all_questions self chapters) as [rest|e]; [|done].
  rewrite bind_return. intros [= <-].
  destruct (IH rest eq_refl) as [Hin Hnd].
  assert (forall c i, (c, i) ∈ (fun i => (chapter, i)) <$> seq 0 (length questions)
                      -> c = chapter) as Hhere.
  { intros c i (i' & [= -> ->] & _)%list_elem_of_fmap. done. }
  split.
  - intros c i [Hc|Hc]%elem_of_app.
    + rewrite (Hhere c i Hc). apply list_elem_of_here.
    + apply list_elem_of_further. by eapply Hin.
  - intros [Hfresh Hnd']%NoDup_cons. apply NoDup_app. split; [|split].
    + apply NoDup_fmap_2; [|apply NoDup_seq]. by intros i i' [= ->].
    + intros [c i] Hc Hc'. apply Hfresh.
      rewrite <- (Hhere c i Hc). by eapply Hin.
    + by apply Hnd.
Qed.

Lemma enabled_chapters_spec (self : State) (chapter : string) :
  chapter ∈ enabled_chapters self <->
  chapter ∈ keys (quiz_data self) /\ chapter ∉ disabled_chapters self.
Proof. unfold enabled_chapters. rewrite list_elem_of_filter. tauto. Qed.

(** X12.  When every chapter is disabled (or the bank has no chapter),
    [test_all_chapters] asks nothing, reads nothing, and does not save:
    state and store are as before. *)
Theorem test_all_chapters_all_disabled
    (shuffle : list (string * nat) -> list (string * nat))
    (self : State) (store : Store) (stdin : list typed) :
  (forall chapter, chapter ∈ keys (quiz_data self) ->
                   chapter ∈ disabled_chapters self) ->
  test_all_chapters shuffle self store stdin
    = Return (self, store, {| question_count := 0; correct_count := 0 |}, stdin).
Proof.
  intros Hall. unfold test_all_chapters.
  destruct (enabled_chapters self) as [|chapter enabled] eqn:Hen; [done|].
  assert (chapter ∈ enabled_chapters self) as Hin.
  { rewrite Hen. apply list_elem_of_here. }
  apply enabled_chapters_spec in Hin as [Hkey Hout]. exfalso. auto.
Qed.

Lemma test_all_chapters_returns
    (shuffle : list (string * nat) -> list (string * nat))
    (self self' : State) (store store' : Store) (stdin stdin' : list typed)
    (score : Score) :
  test_all_chapters shuffle self store stdin
    = Return (self', store', score, stdin') ->
  (enabled_chapters self = [] /\ self' = self /\ store' = store /\
   stdin' = stdin /\ question_count score = 0 /\ correct_count score = 0) \/
  (enabled_chapters self <> [] /\ store' = Document (quiz_data self') /\
   exists positions,
     all_questions self (enabled_chapters self) = Return positions /\
     test_loop (shuffle positions) self stdin
       {| question_count := 0; correct_count := 0 |}
       = Return (self', score, stdin')).
Proof.
  unfold test_all_chapters.
  destruct (enabled_chapters self) as [|chapter enabled] eqn:Hen.
  { intros [= <- <- <- <-]. by left. }
  destruct (all_questions self (chapter :: enabled)) as [positions|e] eqn:Hall;
    [|done].
  rewrite bind_return.
  destruct (test_loop (shuffle positions) self stdin
              {| question_count := 0; correct_count := 0 |})
    as [[[self1 score1] stdin1]|e] eqn:Hloop; [|done].
  rewrite bind_return. unfold save_quiz_data. intros Hsave.
  assert (self' = self1 /\ store' = Document (quiz_data self1) /\
          score = score1 /\ stdin' = stdin1) as (-> & -> & -> & ->).
  { destruct store; simpl in Hsave; try done;
      by injection Hsave as <- <- <- <-. }
  right. split; [done|]. split; [done|]. by exists positions.
Qed.

(** X13.  A test over all chapters that completes never touches a
    disabled chapter: its questions keep their weights.  It changes weights
    only (chapters, order, texts, options and answers stay), keeps the
    disabled set, keeps every weight at or above 0.1 when they all were,
    counts no more correct answers than questions, and, when a chapter is
    enabled, leaves in the store the bank as it is in memory. *)
Theorem test_all_chapters_spares_disabled
    (shuffle : list (string * nat) -> list (string * nat))
    (self self' : State) (store store' : Store) (stdin stdin' : list typed)
    (score : Score) :
  (forall positions, shuffle positions ≡ₚ positions) ->
  test_all_chapters shuffle self store stdin
    = Return (self', store', score, stdin') ->
  (forall chapter, chapter ∈ disabled_chapters self ->
     dict_get (quiz_data self') chapter = dict_get (quiz_data self) chapter) /\
  skeleton (quiz_data self') = skeleton (quiz_data self) /\
  disabled_chapters self' = disabled_chapters self /\
  (bank_at_floor (quiz_data self) -> bank_at_floor (quiz_data self')) /\
  (stats_answered (user_stats self) -> stats_answered (user_stats self')) /\
  0 <= correct_count score <= question_count score /\
  (enabled_chapters self <> [] -> store' = Document (quiz_data self')) /\
  exists k, stdin' = drop k stdin.
Proof.
  intros Hshuffle Htest.
  destruct (test_all_chapters_returns _ _ _ _ _ _ _ _ Htest)
    as [(Hen & -> & -> & -> & Hq & Hc)|(Hen & Hstore & positions & Hall & Hloop)].
  { repeat (split; [done|]). split; [lia|]. split; [done|]. by exists 0%nat. }
  destruct (test_loop_returns _ _ _ _ _ _ _ Hloop)
    as ((Hskel & Hdis & Hother & _ & Hfloor & Hstats) & Hscore & Hsuffix).
  destruct (all_questions_positions _ _ _ Hall) as [Hin _].
  unfold score_grows in Hscore. simpl in Hscore.
  split.
  { intros chapter Hdisabled. apply Hother.
    intros ((c & i) & -> & Hpos)%list_elem_of_fmap.
    rewrite Hshuffle in Hpos. apply Hin in Hpos.
    apply enabled_chapters_spec in Hpos as [_ Hout]. done. }
  repeat (split; [done|]). split; [lia|]. by split.
Qed.

(** X14.  In a test over all chapters no question is asked twice: for a
    bank whose chapter names are distinct, every question ends either as
    it was or after exactly one answer, and the questions that were
    answered belong to enabled chapters. *)
Theorem test_all_chapters_asks_once
    (shuffle : list (string * nat) -> list (string * nat))
    (self self' : State) (store store' : Store) (stdin stdin' : list typed)
    (score : Score) :
  NoDup (keys (quiz_data self)) ->
  (forall positions, shuffle positions ≡ₚ positions) ->
  test_all_chapters shuffle self store stdin
    = Return (self', store', score, stdin') ->
  forall chapter i q,
    question_at (quiz_data self) chapter i = Some q ->
    exists q',
      question_at (quiz_data self') chapter i = Some q' /\
      (q' = q \/ ((chapter ∉ disabled_chapters self) /\ one_answer q q')).
Proof.
  intros Hkeys Hshuffle Htest chapter i q Hq.
  destruct (test_all_chapters_returns _ _ _ _ _ _ _ _ Htest)
    as [(Hen & -> & _)|(Hen & Hstore & positions & Hall & Hloop)].
  { exists q. by split; [|left]. }
  destruct (all_questions_positions _ _ _ Hall) as [Hin Hnd].
  assert (NoDup (shuffle positions)) as Hnd'.
  { rewrite Hshuffle. apply Hnd. unfold enabled_chapters. by apply NoDup_filter. }
  destruct (test_loop_one_answer _ _ _ _ _ _ _ Hnd' Hloop chapter i q Hq)
    as (q' & Hq' & [Hsame|[Hpos Hone]]); exists q'; (split; [done|]);
    [by left|].
  right. split; [|done].
  rewrite Hshuffle in Hpos. apply Hin in Hpos.
  by apply enabled_chapters_spec in Hpos as [_ Hout].
Qed.

End Sessions.

(** ** Rounding to a canonical float *)

Section Canonical.

Import BiologyQuiz.

Lemma shr_digits (m : Z) (r s : bool) (e n : Z) :
  0 < m -> n < Zdigits2 m ->
  Zdigits2 (shr_m (shr (Build_shr_record m r s) e n).1)
    = Zdigits2 m - Z.max 0 n.
Proof.
  intros Hm Hn. unfold shr. destruct n as [|p|p]; simpl fst; simpl shr_m; try lia.
  destruct (iter_shr_1_digits p (Build_shr_record m r s)) as [_ Hd];
    [simpl; lia|].
  simpl shr_m in Hd. lia.
Qed.

(** A right shift to the exponent that the magnitude calls for keeps the
    magnitude and lands on that exponent. *)
Lemma shr_fexp_canonical (m e : Z) (l : location) :
  0 < m ->
  emin prec emax < Zdigits2 m + e ->
  e <= fexp prec emax (Zdigits2 m + e) ->
  (shr_fexp prec emax m e l).2 = fexp prec emax (Zdigits2 m + e) /\
  Zdigits2 (shr_m (shr_fexp prec emax m e l).1) + (shr_fexp prec emax m e l).2
    = Zdigits2 m + e.
Proof.
  intros Hm He Hle. unfold shr_fexp.
  assert (fexp prec emax (Zdigits2 m + e) - e < Zdigits2 m) as Hn.
  { unfold fexp, emin, prec, emax in *. lia. }
  destruct l as [|[]]; simpl shr_record_of_loc;
    match goal with |- context [shr (Build_shr_record m ?r ?s) e ?n] =>
      destruct (shr_positive m r s e n Hm Hn) as [_ H2];
      pose proof (shr_digits m r s e n Hm Hn) as H3;
      rewrite H2, H3
    end; lia.
Qed.

Lemma fexp_mono (x y : Z) : x <= y -> fexp prec emax x <= fexp prec emax y.
Proof. unfold fexp. lia. Qed.

Lemma binary_round_aux_canonical (m : positive) (e : Z) (l : location) :
  emin prec emax < Zdigits2 (Zpos m) + e ->
  e <= fexp prec emax (Zdigits2 (Zpos m) + e) ->
  binary_round_aux prec emax false (Zpos m) e l = S754_infinity false \/
  exists m' e',
    binary_round_aux prec emax false (Zpos m) e l = S754_finite false m' e' /\
    fexp prec emax (Zdigits2 (Zpos m) + e) <= e' /\
    fexp prec emax (Zpos (digits2_pos m') + e') = e'.
Proof.
  intros He Hle. unfold binary_round_aux.
  destruct (shr_fexp_positive (Zpos m) e l) as (H1 & _ & _); [lia|done|].
  destruct (shr_fexp_canonical (Zpos m) e l) as (E1 & D1); [lia|done|done|].
  destruct (shr_fexp prec emax (Zpos m) e l) as [mrs1 e1].
  simpl fst in *. simpl snd in *.
  set (m1 := round_nearest_even (shr_m mrs1) (loc_of_shr_record mrs1)).
  assert (shr_m mrs1 <= m1) as Hge by apply round_nearest_even_ge.
  assert (0 < m1) as Hm1 by lia.
  assert (Zdigits2 (shr_m mrs1) <= Zdigits2 m1) as Hd1
    by (apply Zdigits2_mono; lia).
  assert (e1 <= fexp prec emax (Zdigits2 m1 + e1)) as Hle1.
  { rewrite E1 at 1. rewrite <- D1. apply fexp_mono. lia. }
  assert (emin prec emax < Zdigits2 m1 + e1) as He1 by lia.
  destruct (shr_fexp_positive m1 e1 loc_Exact Hm1 He1) as (H2 & _ & _).
  destruct (shr_fexp_canonical m1 e1 loc_Exact Hm1 He1 Hle1) as (E2 & D2).
  destruct (shr_fexp prec emax m1 e1 loc_Exact) as [mrs2 e2].
  simpl fst in *. simpl snd in *.
  destruct (shr_m mrs2) as [|m2|m2] eqn:Hm2; try lia.
  destruct (e2 <=? emax - prec); [right|left; done].
  exists m2, e2. split; [done|]. simpl Zdigits2 in D2. split; [lia|].
  rewrite D2. done.
Qed.

Lemma binary_round_canonical (m : positive) (e : Z) :
  emin prec emax < Zpos (digits2_pos m) + e ->
  binary_round prec emax false m e = S754_infinity false \/
  exists m' e',
    binary_round prec emax false m e = S754_finite false m' e' /\
    fexp prec emax (Zpos (digits2_pos m) + e) <= e' /\
    fexp prec emax (Zpos (digits2_pos m') + e') = e'.
Proof.
  intros He. unfold binary_round, shl_align.
  destruct (fexp prec emax (Zpos (digits2_pos m) + e) - e) as [|d|d] eqn:Hd.
  - apply (binary_round_aux_canonical m e loc_Exact He). simpl Zdigits2. lia.
  - apply (binary_round_aux_canonical m e loc_Exact He). simpl Zdigits2. lia.
  - assert (Zdigits2 (Zpos (Pos.iter xO m d))
            + fexp prec emax (Zpos (digits2_pos m) + e)
            = Zpos (digits2_pos m) + e) as Hsame.
    { simpl Zdigits2. rewrite digits2_shl. lia. }
    destruct (binary_round_aux_canonical (Pos.iter xO m d)
                (fexp prec emax (Zpos (digits2_pos m) + e)) loc_Exact)
      as [->|(m' & e' & -> & Hle & Hcan)].
    + rewrite Hsame. done.
    + rewrite Hsame. lia.
    + by left.
    + right. exists m', e'. split; [done|]. rewrite Hsame in Hle. done.
Qed.

(** A canonical mantissa at the exponent of 0.5 has 53 digits, so it is at
    least the mantissa of 0.5. *)
Lemma canonical_half (m : positive) :
  fexp prec emax (Zpos (digits2_pos m) + -53) = -53 ->
  (4503599627370496 <= m)%positive.
Proof.
  intros Hcan.
  assert (Zpos (digits2_pos m) = 53) as Hdigits.
  { unfold fexp, emin, prec, emax in Hcan. lia. }
  pose proof (Zdigits2_log2 m) as Hlog. simpl Zdigits2 in Hlog.
  assert (Z.log2 (Zpos m) = 52) as Hlog2 by lia.
  destruct (Z.log2_spec (Zpos m)) as [Hlow _]; [lia|].
  rewrite Hlog2 in Hlow. change (2 ^ 52) with 4503599627370496 in Hlow. lia.
Qed.

(** Adding 0.5 to a non-negative weight gives at least 0.5. *)
Lemma add_half_at_least_half (w : float) :
  leb zero w = true -> leb f0_5 (add w f0_5) = true.
Proof.
  destruct w as [[]|[]| |[] m e]; try done.
  intros _. unfold add, f0_5, SFadd.
  set (ez := Z.min e (-53)).
  set (a := (shl_align m e ez).1).
  set (b := (shl_align 4503599627370496 (-53) ez).1).
  change (cond_Zopp false (Zpos a) + cond_Zopp false (Zpos b)) with (Zpos (a + b)).
  change (binary_normalize prec emax (Zpos (a + b)) ez false)
    with (binary_round prec emax false (a + b) ez).
  assert (Zpos (digits2_pos b) + ez = 0) as Hb.
  { unfold b, shl_align. destruct (ez - -53) as [|d|d] eqn:Hd; try lia.
    - simpl. lia.
    - simpl fst. rewrite digits2_shl. simpl digits2_pos. lia. }
  assert (0 <= Zpos (digits2_pos (a + b)) + ez) as Hab.
  { pose proof (Zdigits2_mono (Zpos b) (Zpos (a + b))) as Hmono.
    simpl Zdigits2 in Hmono. lia. }
  destruct (binary_round_canonical (a + b) ez) as [->|(m' & e' & -> & Hle & Hcan)].
  - unfold emin, prec, emax. lia.
  - done.
  - unfold leb, SFleb, SFcompare.
    assert (-53 <= e') as He'.
    { unfold fexp, emin, prec, emax in Hle. lia. }
    destruct (Z.compare_spec (-53) e') as [Heq|Hlt|Hgt]; [|done|lia].
    subst e'. apply canonical_half in Hcan.
    apply Pos.compare_le_iff in Hcan. unfold Pos.compare in Hcan.
    by destruct (Pos.compare_cont Eq 4503599627370496 m').
Qed.

(** X15.  After an answer that is counted incorrect, a question whose
    weight was non-negative has a weight of at least 0.5: a missed question
    weighs at least five times a question at the 0.1 floor. *)
Theorem incorrect_answer_weight (stats : gmap string Stats) (q : Question)
    (w : float) (inputs : list line) (q' : Question)
    (stats' : gmap string Stats) (rest : list line) :
  weight q = Some w ->
  leb zero w = true ->
  ask_question stats q inputs = Return (false, q', stats', rest) ->
  exists w', weight q' = Some w' /\ leb f0_5 w' = true.
Proof.
  intros Hw Hnonneg Hask.
  destruct (ask_question_cases stats q inputs)
    as [[_ Hraise]|(skipped & n & selected & rest' & _ & _ & _ & _ & Heval)];
    [congruence|].
  rewrite Heval, (evaluate_weighted stats q w selected Hw) in Hask.
  destruct (bool_decide (selected = correct_option q)); simpl in Hask; [done|].
  injection Hask as <- _ _. exists (add w f0_5). split; [done|].
  by apply add_half_at_least_half.
Qed.

End Canonical.

(** ** What the merge leaves alone *)

Section MergeFrame.

Import Combi.
Context {Q : Type}.
Implicit Types (h : heap Q) (d : pydict) (k : string) (l : loc).

(** The loop writes only to list objects that the merged dictionary
    holds under a key of the second one; it keeps the references the merged
    dictionary has, and stores the second dictionary's reference for a new
    key. *)
Lemma merge_loop_frame (items : list (string * loc)) :
  forall (merged : pydict) h merged' h',
    NoDup (keys items) ->
    merge_loop items merged h = (merged', h') ->
    (forall l, (forall k, k ∈ keys items -> dict_get merged k <> Some l) ->
               h' !! l = h !! l) /\
    (forall k l, dict_get merged k = Some l -> dict_get merged' k = Some l) /\
    (forall k l, dict_get merged k = None -> dict_get items k = Some l ->
                 dict_get merged' k = Some l).
Proof.
  induction items as [|[key value] rest IH]; intros merged h merged' h' Hkeys;
    simpl.
  - intros [= <- <-]. by repeat split.
  - unfold keys in Hkeys. rewrite fmap_cons in Hkeys.
    apply NoDup_cons in Hkeys as [Hkey Hkeys].
    destruct (dict_get merged key) as [l0|] eqn:Hget.
    + intros Hloop.
      destruct (IH merged (extend l0 value h) merged' h' Hkeys Hloop)
        as (Hframe & Hkeep & Hnew).
      split; [|split].
      * intros l Hl. rewrite Hframe.
        -- unfold extend. apply lookup_insert_ne. intros ->.
           apply (Hl key); [|done]. unfold keys. simpl. apply list_elem_of_here.
        -- intros k Hk. apply Hl. unfold keys. simpl.
           by apply list_elem_of_further.
      * done.
      * intros k l Hnone. destruct (decide (key = k)) as [<-|Hne]; [congruence|].
        by apply Hnew.
    + rewrite (dict_set_new merged key value Hget). intros Hloop.
      destruct (IH (merged ++ [(key, value)]) h merged' h' Hkeys Hloop)
        as (Hframe & Hkeep & Hnew).
      split; [|split].
      * intros l Hl. apply Hframe. intros k Hk. rewrite dict_get_snoc.
        assert (dict_get merged k <> Some l) as Hk'.
        { apply Hl. unfold keys. simpl. by apply list_elem_of_further. }
        destruct (dict_get merged k); [done|].
        destruct (decide (key = k)) as [<-|]; [|done]. done.
      * intros k l Hk. apply Hkeep. rewrite dict_get_snoc. by rewrite Hk.
      * intros k l Hnone. destruct (decide (key = k)) as [<-|Hne].
        -- intros [= <-]. apply Hkeep. rewrite dict_get_snoc, Hget.
           by destruct (decide (key = key)).
        -- intros Hk. apply Hnew; [|done]. rewrite dict_get_snoc, Hnone.
           by destruct (decide (key = k)).
Qed.

Lemma question_total_extend d :
  forall k l v h,
    NoDup (d.*2) -> dict_get d k = Some l ->
    question_total (contents (extend l v h) d)
      = (question_total (contents h d) + length (deref h v))%nat.
Proof.
  induction d as [|[k0 l0] d IH]; intros k l v h; simpl; [done|].
  intros [Hl0 Hnd]%NoDup_cons.
  destruct (decide (k0 = k)) as [->|Hne].
  - intros [= ->]. rewrite deref_extend_target, length_app.
    rewrite (contents_agree h (extend l v h) d); [lia|].
    intros l' Hl'. unfold extend. apply lookup_insert_ne. by intros ->.
  - intros Hget. rewrite deref_extend_other.
    + rewrite (IH k l v h Hnd Hget). lia.
    + intros ->. apply Hl0. by eapply dict_get_value_elem.
Qed.

Lemma question_total_app (a b : dict (list Q)) :
  question_total (a ++ b) = (question_total a + question_total b)%nat.
Proof. apply sum_list_with_app. Qed.

Lemma contents_app h (a b : pydict) :
  contents h (a ++ b) = contents h a ++ contents h b.
Proof. unfold contents. apply fmap_app. Qed.

(** The loop neither drops nor repeats a question. *)
Lemma merge_loop_total (items : list (string * loc)) :
  forall (merged : pydict) h merged' h',
    NoDup (merged.*2 ++ items.*2) ->
    merge_loop items merged h = (merged', h') ->
    question_total (contents h' merged')
      = (question_total (contents h merged)
         + question_total (contents h items))%nat.
Proof.
  induction items as [|[key value] rest IH]; intros merged h merged' h' Hlocs;
    simpl.
  - intros [= <- <-]. lia.
  - rewrite fmap_cons in Hlocs.
    destruct (dict_get merged key) as [l|] eqn:Hget.
    + intros Hloop.
      assert (NoDup (merged.*2 ++ rest.*2)) as Hlocs'.
      { apply NoDup_app in Hlocs as (Hl1 & Hl2 & [_ Hl3]%NoDup_cons).
        apply NoDup_app. split; [done|]. split; [|done].
        intros x Hx Hx'. apply (Hl2 x Hx). by apply list_elem_of_further. }
      rewrite (IH merged (extend l value h) merged' h' Hlocs' Hloop).
      apply NoDup_app in Hlocs' as (Hnd & Hdisj & _).
      rewrite (question_total_extend merged key l value h Hnd Hget).
      rewrite (contents_agree h (extend l value h) rest).
      * lia.
      * intros l' Hl'. unfold extend. apply lookup_insert_ne. intros Heq.
        subst l'. apply (Hdisj l); [by eapply dict_get_value_elem|done].
    + rewrite (dict_set_new merged key value Hget). intros Hloop.
      assert (NoDup ((merged ++ [(key, value)]).*2 ++ rest.*2)) as Hlocs'.
      { rewrite fmap_app, <- app_assoc. exact Hlocs. }
      rewrite (IH (merged ++ [(key, value)]) h merged' h' Hlocs' Hloop).
      rewrite contents_app, question_total_app. simpl. lia.
Qed.

(** *** Dictionaries in key order *)

Lemma ltb_asym (a b : string) :
  String.ltb a b = true -> String.ltb b a = true -> False.
Proof.
  unfold String.ltb. rewrite (String.compare_antisym a b).
  by destruct (String.compare b a).
Qed.

Lemma ltb_irrefl (a : string) : String.ltb a a = true -> False.
Proof. intros H. exact (ltb_asym a a H H). Qed.

(** Two dictionaries in strictly increasing key order that agree on every
    lookup are the same list of items. *)
Lemma sorted_dict_unique {V} (d : dict V) :
  forall d' : dict V,
    StronglySorted (fun a b => String.ltb a b = true) (keys d) ->
    StronglySorted (fun a b => String.ltb a b = true) (keys d') ->
    (forall k, dict_get d k = dict_get d' k) ->
    d = d'.
Proof.
  unfold keys.
  induction d as [|[k v] r IH]; intros [|[k' v'] r']; rewrite ?fmap_cons.
  - done.
  - intros _ _ Hall. specialize (Hall k'). simpl in Hall.
    by destruct (decide (k' = k')).
  - intros _ _ Hall. specialize (Hall k). simpl in Hall.
    by destruct (decide (k = k)).
  - intros [Hr Hk]%StronglySorted_inv [Hr' Hk']%StronglySorted_inv Hall.
    rewrite Forall_forall in Hk, Hk'. simpl in Hk, Hk'.
    assert (forall x, x ∈ r.*1 -> x <> k) as Hfresh.
    { intros x Hx ->. by apply (ltb_irrefl k), Hk. }
    assert (forall x, x ∈ r'.*1 -> x <> k') as Hfresh'.
    { intros x Hx ->. by apply (ltb_irrefl k'), Hk'. }
    assert (k = k') as <-.
    { pose proof (Hall k) as Hk1. pose proof (Hall k') as Hk2. simpl in Hk1, Hk2.
      destruct (decide (k = k')) as [|Hne]; [done|]. exfalso.
      destruct (decide (k = k)); [|done].
      destruct (decide (k' = k')); [|done].
      destruct (decide (k' = k)); [done|].
      apply (ltb_asym k k').
      - apply Hk. apply (dict_get_is_Some r k'). rewrite Hk2. eauto.
      - apply Hk'. apply (dict_get_is_Some r' k). rewrite <- Hk1. eauto. }
    assert (v = v') as <-.
    { specialize (Hall k). simpl in Hall.
      destruct (decide (k = k)); [|done]. congruence. }
    f_equal. apply IH; [done|done|]. intros x.
    destruct (decide (k = x)) as [<-|Hne].
    + assert (dict_get r k = None) as ->.
      { apply dict_get_None. intros Hin. by apply (Hfresh k). }
      symmetry. apply dict_get_None. intros Hin. by apply (Hfresh' k).
    + specialize (Hall x). simpl in Hall.
      by destruct (decide (k = x)).
Qed.

Lemma increasing_NoDup (l : list string) :
  StronglySorted (fun a b => String.ltb a b = true) l -> NoDup l.
Proof.
  induction 1 as [|a l Hl IH Ha]; [apply NoDup_nil_2|].
  apply NoDup_cons. split; [|done]. intros Hin.
  rewrite Forall_forall in Ha. by apply (ltb_irrefl a), Ha.
Qed.

Lemma output_increasing (file1 file2 : dict (list Q)) :
  NoDup (keys file1) -> NoDup (keys file2) ->
  StronglySorted (fun a b => String.ltb a b = true) (keys (output file1 file2)).
Proof.
  intros Hnd1 Hnd2.
  destruct (run_spec file1 file2 Hnd1 Hnd2) as (Hsorted & Hndc & _).
  unfold output. rewrite keys_contents, Hsorted.
  by apply sorted_keys_increasing.
Qed.

(** X16.  The merge changes no list of the second bank: the dictionary
    loaded from the second file denotes the second file when the script
    ends.  The first dictionary keeps its chapters, and a chapter of the
    second bank alone is held by the merged dictionary as the second
    bank's own list object. *)
Theorem merge_json_spares_second_bank (file1 file2 : dict (list Q)) :
  NoDup (keys file1) ->
  NoDup (keys file2) ->
  let g := run file1 file2 in
  contents (memory g) (quiz_data_2 g) = file2 /\
  keys (quiz_data_1 g) = keys file1 /\
  forall k, dict_get file1 k = None -> is_Some (dict_get file2 k) ->
    dict_get (combined_data g) k = dict_get (quiz_data_2 g) k.
Proof.
  intros Hnd1 Hnd2. unfold run.
  destruct (load_json file1 ∅) as [d1 h1] eqn:Hload1.
  destruct (load_json file2 h1) as [d2 h2] eqn:Hload2.
  destruct (merge_json d1 d2 h2) as [c h3] eqn:Hmerge.
  simpl.
  destruct (load_json_spec _ _ _ _ Hload1) as (Hk1 & Hc1 & Hl1 & Hf1 & _).
  destruct (load_json_spec _ _ _ _ Hload2) as (Hk2 & Hc2 & Hl2 & Hf2 & Hkeep).
  unfold merge_json in Hmerge.
  destruct (merge_loop_frame d2 d1 h2 c h3) as (Hframe & _ & Hnew);
    [by rewrite Hk2|done|].
  split; [|split; [done|]].
  - rewrite <- Hc2. apply contents_agree. intros l Hl. apply Hframe.
    intros k _ Hget. apply Hf2 in Hl as [Hfresh _]. apply Hfresh.
    apply Hf1. by eapply dict_get_value_elem.
  - intros k Hnone Hsome.
    assert (dict_get d1 k = None) as Hnone1.
    { apply dict_get_None. rewrite Hk1. by apply dict_get_None. }
    apply dict_get_is_Some in Hsome. rewrite <- Hk2 in Hsome.
    apply dict_get_is_Some in Hsome as [l Hl]. rewrite Hl. by apply Hnew.
Qed.

(** X17.  The output holds as many questions as the two banks together:
    the merge drops no question and repeats none. *)
Theorem merge_keeps_every_question (file1 file2 : dict (list Q)) :
  NoDup (keys file1) ->
  NoDup (keys file2) ->
  question_total (output file1 file2)
    = (question_total file1 + question_total file2)%nat.
Proof.
  intros Hnd1 Hnd2.
  destruct (run_spec file1 file2 Hnd1 Hnd2) as (Hsorted & Hndc & _).
  revert Hsorted Hndc. unfold output, run.
  destruct (load_json file1 ∅) as [d1 h1] eqn:Hload1.
  destruct (load_json file2 h1) as [d2 h2] eqn:Hload2.
  destruct (merge_json d1 d2 h2) as [c h3] eqn:Hmerge.
  simpl. intros -> Hndc.
  destruct (load_json_spec _ _ _ _ Hload1) as (Hk1 & Hc1 & Hl1 & Hf1 & _).
  destruct (load_json_spec _ _ _ _ Hload2) as (Hk2 & Hc2 & Hl2 & Hf2 & Hkeep).
  assert (contents h2 d1 = file1) as Hc1'.
  { rewrite <- Hc1. apply contents_agree. intros l Hl.
    apply Hkeep. by apply Hf1. }
  assert (NoDup (d1.*2 ++ d2.*2)) as Hlocs.
  { apply NoDup_app. split; [done|]. split; [|done].
    intros l Hin1 Hin2. apply Hf2 in Hin2 as [Hfresh _].
    apply Hfresh. by apply Hf1. }
  unfold merge_json in Hmerge.
  pose proof (merge_loop_total d2 d1 h2 c h3 Hlocs Hmerge) as Htotal.
  rewrite Hc1', Hc2 in Htotal. rewrite <- Htotal.
  unfold question_total, contents. by rewrite sorted_perm.
Qed.

(** X18.  The output does not depend on the order in which the chapters
    stand in the input files. *)
Theorem merge_output_ignores_chapter_order
    (file1 file2 file1' file2' : dict (list Q)) :
  NoDup (keys file1) ->
  NoDup (keys file2) ->
  file1 ≡ₚ file1' ->
  file2 ≡ₚ file2' ->
  output file1 file2 = output file1' file2'.
Proof.
  intros Hnd1 Hnd2 Hp1 Hp2.
  assert (NoDup (keys file1')) as Hnd1' by (unfold keys in *; by rewrite <- Hp1).
  assert (NoDup (keys file2')) as Hnd2' by (unfold keys in *; by rewrite <- Hp2).
  apply sorted_dict_unique; try by apply output_increasing.
  intros k.
  destruct (run_spec file1 file2 Hnd1 Hnd2) as (_ & _ & -> & _).
  destruct (run_spec file1' file2' Hnd1' Hnd2') as (_ & _ & -> & _).
  by rewrite (dict_get_perm file1 file1' k Hnd1 Hp1),
             (dict_get_perm file2 file2' k Hnd2 Hp2).
Qed.

(** X19.  Merging a bank whose chapters are in increasing order with an
    empty bank, on either side, writes the bank back unchanged. *)
Theorem merge_with_empty_bank (file : dict (list Q)) :
  StronglySorted (fun a b => String.ltb a b = true) (keys file) ->
  output file [] = file /\ output [] file = file.
Proof.
  intros Hsorted. pose proof (increasing_NoDup _ Hsorted) as Hnd.
  assert (NoDup (keys ([] : dict (list Q)))) as Hnil by apply NoDup_nil_2.
  split; (apply sorted_dict_unique; [by apply output_increasing|done|]);
    intros k.
  - destruct (run_spec file [] Hnd Hnil) as (_ & _ & -> & _).
    simpl. by destruct (dict_get file k).
  - destruct (run_spec [] file Hnil Hnd) as (_ & _ & -> & _).
    simpl. by destruct (dict_get file k).
Qed.

End MergeFrame.

(** ** How a session can fail *)

Section SessionFailures.

Import BiologyQuiz.

Lemma select_loop_index_weighted (r : float) (questions : list Question) :
  weighted questions ->
  forall c i, exists found, select_loop_index r c questions i = Return found.
Proof.
  induction 1 as [|q rest [w Hw] _ IH]; intros c i; simpl.
  - by eexists.
  - unfold get_weight. rewrite Hw, bind_return.
    destruct (leb r (add c w)); [by eexists|apply IH].
Qed.

(** On a bank that carries its weights, selection in a chapter of the
    bank returns. *)
Lemma select_index_total (rng : Random) (self : State) (chapter : string) :
  bank_weighted (quiz_data self) ->
  choice_in_range rng ->
  chapter ∈ keys (quiz_data self) ->
  exists selected, select_index rng self chapter = Return selected.
Proof.
  intros Hbank Hrng Hin. unfold select_index.
  destruct (decide (chapter ∈ disabled_chapters self)); [by eexists|].
  apply dict_get_is_Some in Hin as [questions Hget]. rewrite Hget.
  assert (weighted questions) as Hw.
  { apply dict_get_Some_elem in Hget. unfold bank_weighted in Hbank.
    rewrite Forall_forall in Hbank. exact (Hbank _ Hget). }
  destruct questions as [|q0 rest]; [by eexists|].
  destruct (weighted_sum _ Hw zero) as [total ->]. rewrite bind_return.
  destruct (eqb total zero).
  - destruct (lookup_lt_is_Some_2 (q0 :: rest)
                (randbelow rng (length (q0 :: rest)))) as [q ->];
      [apply Hrng; simpl; lia|by eexists].
  - destruct (select_loop_index_weighted (uniform rng zero total) _ Hw zero 0%nat)
      as [found ->].
    rewrite bind_return. destruct found; by eexists.
Qed.

(** Asking a question that is there and carries its weight either
    returns or runs out of input. *)
Lemma ask_at_outcome (self : State) (chapter : string) (i : nat)
    (stdin : list typed) (q : Question) :
  question_at (quiz_data self) chapter i = Some q ->
  is_Some (weight q) ->
  (exists r, ask_at self chapter i stdin = Return r) \/
  ask_at self chapter i stdin = Raise EOFError.
Proof.
  intros Hq [w Hw]. unfold ask_at. rewrite Hq.
  destruct (ask_question_cases (user_stats self) q (as_line <$> stdin))
    as [[_ ->]|(skipped & n & selected & rest & _ & _ & _ & _ & ->)];
    [by right|].
  left. rewrite (evaluate_weighted _ q w selected Hw).
  destruct (bool_decide (selected = correct_option q)); by eexists.
Qed.

Lemma bank_weighted_at (data : dict (list Question)) (chapter : string)
    (i : nat) (q : Question) :
  bank_weighted data -> question_at data chapter i = Some q ->
  is_Some (weight q).
Proof.
  intros Hbank Hq.
  exact (question_at_Forall (fun q => is_Some (weight q)) data chapter i q Hbank Hq).
Qed.

Lemma keys_skeleton (data : dict (list Question)) :
  keys (skeleton data) = keys data.
Proof. apply keys_fmap. Qed.

Lemma question_at_skeleton (data : dict (list Question)) (chapter : string)
    (i : nat) :
  question_at (skeleton data) chapter i
    = strip_weight <$> question_at data chapter i.
Proof.
  unfold question_at, skeleton. rewrite dict_get_fmap.
  destruct (dict_get data chapter) as [questions|]; [|done].
  simpl. apply list_lookup_fmap.
Qed.

(** Answers keep every position of the bank in place. *)
Lemma after_answers_position (touched : string -> Prop) (self self' : State)
    (chapter : string) (i : nat) :
  after_answers touched self self' ->
  is_Some (question_at (quiz_data self) chapter i) ->
  is_Some (question_at (quiz_data self') chapter i).
Proof.
  intros (Hskel & _) [q Hq].
  pose proof (question_at_skeleton (quiz_data self') chapter i) as H'.
  rewrite Hskel, question_at_skeleton, Hq in H'.
  destruct (question_at (quiz_data self') chapter i); [by eexists|done].
Qed.

Lemma study_loop_outcome (chapter : string) (fuel : nat) :
  forall rng self stdin score,
    bank_weighted (quiz_data self) ->
    (forall n, choice_in_range (rng n)) ->
    chapter ∈ keys (quiz_data self) ->
    (exists r, study_loop fuel rng self chapter stdin score = Return r) \/
    study_loop fuel rng self chapter stdin score = Raise EOFError.
Proof.
  induction fuel as [|fuel IH]; intros rng self stdin score Hbank Hrng Hin;
    simpl; [by right|].
  destruct (select_index_total (rng 0%nat) self chapter Hbank (Hrng 0%nat) Hin)
    as [selected Hsel].
  rewrite Hsel, bind_return. destruct selected as [i|]; [|left; by eexists].
  destruct (select_index_position _ _ _ _ Hsel) as [_ [q Hq]].
  destruct (ask_at_outcome self chapter i stdin q Hq
              (bank_weighted_at _ _ _ _ Hbank Hq)) as [[r Hask]| ->];
    [|by right].
  rewrite Hask, bind_return. destruct r as [[verdict self1] stdin1].
  cbv beta iota zeta.
  destruct (ask_at_after_answers _ _ _ _ _ _ _ Hask)
    as (Hskel & _ & _ & Hweighted & _).
  destruct stdin1 as [|choice stdin2]; [by right|].
  destruct (says_yes choice); [|left; by eexists].
  apply IH; [by apply Hweighted|by intros n; apply Hrng|].
  by rewrite <- keys_skeleton, Hskel, keys_skeleton.
Qed.

Lemma all_questions_total (self : State) (chapters : list string) :
  (forall chapter, chapter ∈ chapters -> chapter ∈ keys (quiz_data self)) ->
  exists positions,
    all_questions self chapters = Return positions /\
    forall chapter i, (chapter, i) ∈ positions ->
      is_Some (question_at (quiz_data self) chapter i).
Proof.
  induction chapters as [|chapter chapters IH]; intros Hin; simpl.
  - exists []. split; [done|]. intros chapter i Hi. by apply elem_of_nil in Hi.
  - destruct IH as (rest & -> & Hrest).
    { intros ch Hch. apply Hin. by apply list_elem_of_further. }
    unfold chapter_positions.
    destruct (proj2 (dict_get_is_Some (quiz_data self) chapter))
      as [questions Hget]; [apply Hin, list_elem_of_here|].
    rewrite Hget, !bind_return. eexists. split; [done|].
    intros ch i [Hhere|Hi]%elem_of_app; [|by apply Hrest].
    apply list_elem_of_fmap in Hhere as (j & [= -> ->] & Hj).
    apply elem_of_seq in Hj. unfold question_at. rewrite Hget. simpl.
    apply lookup_lt_is_Some_2. lia.
Qed.

Lemma test_loop_outcome (items : list (string * nat)) :
  forall self stdin score,
    bank_weighted (quiz_data self) ->
    (forall chapter i, (chapter, i) ∈ items ->
       is_Some (question_at (quiz_data self) chapter i)) ->
    (exists r, test_loop items self stdin score = Return r) \/
    test_loop items self stdin score = Raise EOFError.
Proof.
  induction items as [|[chapter i] items IH]; intros self stdin score Hbank Hpos;
    simpl; [left; by eexists|].
  destruct (Hpos chapter i) as [q Hq]; [apply list_elem_of_here|].
  destruct (ask_at_outcome self chapter i stdin q Hq
              (bank_weighted_at _ _ _ _ Hbank Hq)) as [[r Hask]| ->];
    [|by right].
  rewrite Hask, bind_return. destruct r as [[verdict self1] stdin1].
  cbv beta iota zeta.
  pose proof (ask_at_after_answers _ _ _ _ _ _ _ Hask) as Hstep.
  assert (bank_weighted (quiz_data self1)) as Hbank1.
  { destruct Hstep as (_ & _ & _ & Hweighted & _). by apply Hweighted. }
  assert (forall chapter i, (chapter, i) ∈ items ->
            is_Some (question_at (quiz_data self1) chapter i)) as Hpos1.
  { intros ch j Hj. eapply after_answers_position; [exact Hstep|].
    apply Hpos. by apply list_elem_of_further. }
  destruct (_ mod 5 =? 0); [|by apply IH].
  destruct stdin1 as [|choice stdin2]; [by right|].
  destruct (says_yes choice); [by apply IH|left; by eexists].
Qed.

(** The questions of the enabled chapters are all there, and asking
    them in a shuffled order returns or runs out of input. *)
Lemma test_session_outcome
    (shuffle : list (string * nat) -> list (string * nat))
    (self : State) (stdin : list typed) (score : Score) :
  bank_weighted (quiz_data self) ->
  (forall positions, shuffle positions ≡ₚ positions) ->
  exists positions,
    all_questions self (enabled_chapters self) = Return positions /\
    ((exists r, test_loop (shuffle positions) self stdin score = Return r) \/
     test_loop (shuffle positions) self stdin score = Raise EOFError).
Proof.
  intros Hbank Hshuffle.
  destruct (all_questions_total self (enabled_chapters self))
    as (positions & Hall & Hpos).
  { intros chapter Hin. by apply enabled_chapters_spec in Hin as [? _]. }
  exists positions. split; [done|].
  apply test_loop_outcome; [done|].
  intros chapter i Hin. apply Hpos. by rewrite <- (Hshuffle positions).
Qed.

(** X20.  A study session on a chapter of a bank that carries its
    weights ends in one of two ways: it completes and the bank in memory is
    saved, or the keyboard input ends and [EOFError] is raised.  It raises
    neither [KeyError] nor [IndexError]. *)
Theorem study_chapter_completes_or_eof (rng : nat -> Random) (self : State)
    (store : Store) (chapter : string) (stdin : list typed) :
  bank_weighted (quiz_data self) ->
  (forall n, choice_in_range (rng n)) ->
  chapter ∈ keys (quiz_data self) ->
  store <> NoDirectory ->
  (exists self' score stdin',
     study_chapter rng self store chapter stdin
       = Return (self', Document (quiz_data self'), score, stdin')) \/
  study_chapter rng self store chapter stdin = Raise EOFError.
Proof.
  intros Hbank Hrng Hin Hstore. unfold study_chapter.
  destruct (study_loop_outcome chapter (S (length stdin)) rng self stdin
              {| question_count := 0; correct_count := 0 |} Hbank Hrng Hin)
    as [[[[self' score] stdin'] ->]| ->]; [|by right].
  left. exists self', score, stdin'. rewrite bind_return.
  unfold save_quiz_data. by destruct store.
Qed.

(** X21.  A test over all chapters of a bank that carries its weights
    ends in one of two ways: it completes, or the keyboard input ends and
    [EOFError] is raised.  It raises neither [KeyError] nor [IndexError],
    in whatever order the questions are shuffled. *)
Theorem test_all_chapters_completes_or_eof
    (shuffle : list (string * nat) -> list (string * nat))
    (self : State) (store : Store) (stdin : list typed) :
  bank_weighted (quiz_data self) ->
  (forall positions, shuffle positions ≡ₚ positions) ->
  store <> NoDirectory ->
  (exists self' store' score stdin',
     test_all_chapters shuffle self store stdin
       = Return (self', store', score, stdin')) \/
  test_all_chapters shuffle self store stdin = Raise EOFError.
Proof.
  intros Hbank Hshuffle Hstore. unfold test_all_chapters.
  destruct (test_session_outcome shuffle self stdin
              {| question_count := 0; correct_count := 0 |} Hbank Hshuffle)
    as (positions & Hall & Hloop).
  destruct (enabled_chapters self) as [|ch chs] eqn:Henabled;
    [left; by repeat eexists|].
  rewrite Hall, bind_return.
  destruct Hloop as [[[[self' score] stdin'] ->]| ->]; [|by right].
  left. rewrite bind_return. unfold save_quiz_data.
  destruct store; [done| | | |]; by repeat eexists.
Qed.

End SessionFailures.

(** ** The menu *)

Section Menu.

Import BiologyQuiz.

(** Splits the conjunctions of the goal, and nothing under them. *)
Ltac conjuncts := repeat match goal with |- _ /\ _ => split end.

Lemma toggle_chapter_keeps (self self' : State) (chapter_idx : Z)
    (message : string) :
  toggle_chapter self chapter_idx = Return (self', message) ->
  quiz_data self' = quiz_data self /\ user_stats self' = user_stats self.
Proof.
  destruct (toggle_chapter_total self chapter_idx)
    as [(chapter & Hlo & Hget)|Hout].
  - rewrite (toggle_chapter_valid self chapter_idx chapter Hlo Hget).
    destruct (decide (chapter ∈ disabled_chapters self));
      by intros [= <- _].
  - rewrite (toggle_chapter_invalid self chapter_idx Hout).
    by intros [= <- _].
Qed.

Lemma toggle_chapter_returns (self : State) (chapter_idx : Z) :
  exists self' message, toggle_chapter self chapter_idx = Return (self', message).
Proof.
  destruct (toggle_chapter_total self chapter_idx)
    as [(chapter & Hlo & Hget)|Hout].
  - rewrite (toggle_chapter_valid self chapter_idx chapter Hlo Hget).
    destruct (decide (chapter ∈ disabled_chapters self)); by eexists _, _.
  - rewrite (toggle_chapter_invalid self chapter_idx Hout). by eexists _, _.
Qed.

(** The lines a session leaves unread, read again, are the lines it
    left. *)
Lemma unread_read (int : string -> option Z) (stdin : list string)
    (rest : list typed) (k : nat) :
  rest = drop k (read int <$> stdin) ->
  read int <$> unread stdin rest = rest.
Proof.
  intros ->. unfold unread. rewrite length_drop, length_fmap, fmap_drop.
  destruct (decide (k <= length stdin)%nat) as [Hk|Hk].
  - f_equal. lia.
  - rewrite !drop_ge; [done| |]; rewrite ?length_fmap; lia.
Qed.

Lemma after_rounds_refl (self : State) : after_rounds self self.
Proof. unfold after_rounds. by conjuncts. Qed.

Lemma after_rounds_trans (s1 s2 s3 : State) :
  after_rounds s1 s2 -> after_rounds s2 s3 -> after_rounds s1 s3.
Proof.
  intros (Hs1 & Hw1 & Hf1 & Ha1) (Hs2 & Hw2 & Hf2 & Ha2).
  split; [congruence|]. split; [auto|]. split; auto.
Qed.

Lemma after_answers_rounds (touched : string -> Prop) (self self' : State) :
  after_answers touched self self' -> after_rounds self self'.
Proof. intros (Hs & _ & _ & Hw & Hf & Ha). unfold after_rounds. by conjuncts. Qed.

Lemma after_rounds_same_bank (self self' : State) :
  quiz_data self' = quiz_data self -> user_stats self' = user_stats self ->
  after_rounds self self'.
Proof.
  intros Hdata Hstats. unfold after_rounds. rewrite Hdata, Hstats.
  by conjuncts.
Qed.

Lemma in_step_refl (self : State) (store : Store) : in_step self store self store.
Proof. by right. Qed.

Lemma in_step_trans (s1 s2 s3 : State) (st1 st2 st3 : Store) :
  in_step s1 st1 s2 st2 -> in_step s2 st2 s3 st3 -> in_step s1 st1 s3 st3.
Proof.
  intros H12 [H23|[-> Hd23]]; [by left|].
  destruct H12 as [->|[-> Hd12]].
  - left. by rewrite Hd23.
  - right. split; [done|congruence].
Qed.

(** One round that returns: what it leaves, and the lines it has read. *)
Lemma menu_returns (int : string -> option Z) (rng : nat -> Random)
    (shuffle : list (string * nat) -> list (string * nat))
    (self self' : State) (store store' : Store) (stdin stdin' : list string)
    (exit : bool) :
  menu int rng shuffle self store stdin = Return (exit, self', store', stdin') ->
  after_rounds self self' /\
  in_step self store self' store' /\
  (exists k, stdin' = drop (S k) stdin /\ (k < length stdin)%nat) /\
  (exit = true -> stdin = "6" :: stdin') /\
  (store <> NoDirectory -> store' <> NoDirectory).
Proof.
  assert (forall st, st = store -> after_rounds self self /\
            in_step self store self st /\ (store <> NoDirectory -> st <> NoDirectory))
    as Hidle.
  { intros st ->. split; [apply after_rounds_refl|]. split; [apply in_step_refl|done]. }
  unfold menu. destruct stdin as [|choice stdin]; [done|].
  destruct (decide (choice = "1")) as [->|_].
  { intros [= <- <- <- <-]. destruct (Hidle store eq_refl) as (? & ? & ?).
    conjuncts; try done. exists 0%nat. simpl. split; [done|lia]. }
  destruct (decide (choice = "2")) as [->|_].
  { destruct stdin as [|text stdin]; [done|].
    assert (Return (false, self, store, stdin)
              = Return (exit, self', store', stdin') ->
            after_rounds self self' /\ in_step self store self' store' /\
            (exists k, stdin' = drop (S k) ("2" :: text :: stdin)
                       /\ (k < length ("2" :: text :: stdin))%nat) /\
            (exit = true -> "2" :: text :: stdin = "6" :: stdin') /\
            (store <> NoDirectory -> store' <> NoDirectory)) as Hskip.
    { intros [= <- <- <- <-]. destruct (Hidle store eq_refl) as (? & ? & ?).
      conjuncts; try done. exists 1%nat. simpl. split; [done|lia]. }
    destruct (int text) as [chapter_idx|]; [|exact Hskip].
    destruct ((1 <=? chapter_idx)
              && (chapter_idx <=? Z.of_nat (length (keys (quiz_data self)))));
      [|exact Hskip].
    destruct (keys (quiz_data self) !! Z.to_nat (chapter_idx - 1))
      as [chapter|]; [|done].
    destruct (decide (chapter ∈ disabled_chapters self)); [exact Hskip|].
    destruct (study_chapter rng self store chapter (read int <$> stdin))
      as [[[[self1 store1] score] rest]|e] eqn:Hstudy.
    - intros [= <- <- <- <-].
      destruct (study_chapter_returns _ _ _ _ _ _ _ _ _ Hstudy) as [-> Hloop].
      apply study_loop_returns in Hloop as (Hafter & _ & _).
      split; [by eapply after_answers_rounds|]. split; [by left|].
      split; [|split; [done|done]].
      exists (S (length stdin - length rest)). split; [done|]. simpl. lia.
    - destruct (is_ValueError e); [exact Hskip|done]. }
  destruct (decide (choice = "3")) as [->|_].
  { destruct (test_all_chapters shuffle self store (read int <$> stdin))
      as [[[[self1 store1] score] rest]|e] eqn:Htest; [|done].
    rewrite bind_return. intros [= <- <- <- <-].
    assert (exists k, unread stdin rest = drop (S k) ("3" :: stdin)
                      /\ (k < length ("3" :: stdin))%nat) as Hread.
    { exists (length stdin - length rest)%nat. split; [done|]. simpl. lia. }
    destruct (test_all_chapters_returns _ _ _ _ _ _ _ _ Htest)
      as [(_ & -> & -> & _)|(_ & -> & positions & _ & Hloop)].
    - destruct (Hidle store eq_refl) as (? & ? & ?). by conjuncts.
    - apply test_loop_returns in Hloop as (Hafter & _ & _).
      split; [by eapply after_answers_rounds|]. split; [by left|].
      by conjuncts. }
  destruct (decide (choice = "4")) as [->|_].
  { destruct stdin as [|text stdin]; [done|].
    assert (forall self1,
              quiz_data self1 = quiz_data self ->
              user_stats self1 = user_stats self ->
              Return (false, self1, store, stdin)
                = Return (exit, self', store', stdin') ->
              after_rounds self self' /\ in_step self store self' store' /\
              (exists k, stdin' = drop (S k) ("4" :: text :: stdin)
                         /\ (k < length ("4" :: text :: stdin))%nat) /\
              (exit = true -> "4" :: text :: stdin = "6" :: stdin') /\
              (store <> NoDirectory -> store' <> NoDirectory)) as Hskip.
    { intros self1 Hdata Hstats [= <- <- <- <-].
      split; [by apply after_rounds_same_bank|]. split; [by right|].
      conjuncts; try done. exists 1%nat. simpl. split; [done|lia]. }
    destruct (int text) as [chapter_idx|]; [|by apply Hskip].
    destruct (toggle_chapter self chapter_idx) as [[self1 message]|e] eqn:Htoggle.
    - destruct (toggle_chapter_keeps _ _ _ _ Htoggle). by apply Hskip.
    - destruct (is_ValueError e); [by apply Hskip|done]. }
  assert (Return (false, self, store, stdin)
            = Return (exit, self', store', stdin') ->
          after_rounds self self' /\ in_step self store self' store' /\
          (exists k, stdin' = drop (S k) (choice :: stdin)
                     /\ (k < length (choice :: stdin))%nat) /\
          (exit = true -> choice :: stdin = "6" :: stdin') /\
          (store <> NoDirectory -> store' <> NoDirectory)) as Hskip.
  { intros [= <- <- <- <-]. destruct (Hidle store eq_refl) as (? & ? & ?).
    conjuncts; try done. exists 0%nat. simpl. split; [done|lia]. }
  destruct (decide (choice = "5")) as [->|_]; [exact Hskip|].
  destruct (decide (choice = "6")) as [->|_]; [|exact Hskip].
  intros [= <- <- <- <-]. destruct (Hidle store eq_refl) as (? & ? & ?).
  conjuncts; try done. exists 0%nat. simpl. split; [done|lia].
Qed.

(** The fuel of [run] is never used up. *)
Lemma run_loop_fuel (int : string -> option Z) (fuel1 : nat) :
  forall fuel2 rng shuffle self store stdin,
    (length stdin < fuel1)%nat -> (length stdin < fuel2)%nat ->
    run_loop fuel1 int rng shuffle self store stdin
      = run_loop fuel2 int rng shuffle self store stdin.
Proof.
  induction fuel1 as [|fuel1 IH]; intros fuel2 rng shuffle self store stdin H1 H2;
    [lia|].
  destruct fuel2 as [|fuel2]; [lia|]. simpl.
  destruct (menu int (rng 0%nat) (shuffle 0%nat) self store stdin)
    as [[[[exit self1] store1] stdin1]|e] eqn:Hmenu; [|done].
  rewrite !bind_return. cbv beta iota zeta.
  destruct exit; [done|].
  destruct (menu_returns _ _ _ _ _ _ _ _ _ _ Hmenu)
    as (_ & _ & (k & -> & Hk) & _).
  apply IH; rewrite length_drop; lia.
Qed.

Lemma run_loop_returns (int : string -> option Z) (fuel : nat) :
  forall rng shuffle self store stdin self' store' rest,
    run_loop fuel int rng shuffle self store stdin = Return (self', store', rest) ->
    after_rounds self self' /\
    in_step self store self' store' /\
    exists consumed, stdin = consumed ++ "6" :: rest.
Proof.
  induction fuel as [|fuel IH];
    intros rng shuffle self store stdin self' store' rest; simpl; [done|].
  destruct (menu int (rng 0%nat) (shuffle 0%nat) self store stdin)
    as [[[[exit self1] store1] stdin1]|e] eqn:Hmenu; [|done].
  rewrite bind_return. cbv beta iota zeta.
  destruct (menu_returns _ _ _ _ _ _ _ _ _ _ Hmenu)
    as (Hafter & Hstep & (k & Hread & Hk) & Hexit & _).
  destruct exit.
  - intros [= <- <- <-]. split; [done|]. split; [done|].
    exists []. by apply Hexit.
  - intros Hloop. apply IH in Hloop as (Hafter' & Hstep' & consumed & Hrest).
    split; [by eapply after_rounds_trans|].
    split; [by eapply in_step_trans|].
    exists (take (S k) stdin ++ consumed).
    rewrite <- app_assoc, <- Hrest, Hread. by rewrite take_drop.
Qed.

(** One round on a bank that carries its weights returns or runs out of
    input. *)
Lemma menu_outcome (int : string -> option Z) (rng : nat -> Random)
    (shuffle : list (string * nat) -> list (string * nat))
    (self : State) (store : Store) (stdin : list string) :
  bank_weighted (quiz_data self) ->
  (forall n, choice_in_range (rng n)) ->
  (forall positions, shuffle positions ≡ₚ positions) ->
  store <> NoDirectory ->
  (exists r, menu int rng shuffle self store stdin = Return r) \/
  menu int rng shuffle self store stdin = Raise EOFError.
Proof.
  intros Hbank Hrng Hshuffle Hstore. unfold menu.
  destruct stdin as [|choice stdin]; [by right|].
  destruct (decide (choice = "1")); [left; by eexists|].
  destruct (decide (choice = "2")).
  { destruct stdin as [|text stdin]; [by right|].
    destruct (int text) as [chapter_idx|]; [|left; by eexists].
    destruct ((1 <=? chapter_idx)
              && (chapter_idx <=? Z.of_nat (length (keys (quiz_data self)))))
      eqn:Hrange; [|left; by eexists].
    apply andb_true_iff in Hrange as [Hlo%Z.leb_le Hhi%Z.leb_le].
    destruct (lookup_lt_is_Some_2 (keys (quiz_data self))
                (Z.to_nat (chapter_idx - 1))) as [chapter Hget]; [lia|].
    rewrite Hget.
    destruct (decide (chapter ∈ disabled_chapters self)); [left; by eexists|].
    unfold study_chapter.
    destruct (study_loop_outcome chapter (S (length (read int <$> stdin))) rng
                self (read int <$> stdin)
                {| question_count := 0; correct_count := 0 |} Hbank Hrng)
      as [[[[self' score] rest] ->]| ->];
      [by eapply list_elem_of_lookup_2| |by right].
    rewrite bind_return. unfold save_quiz_data.
    destruct store; [done| | | |]; left; by eexists. }
  destruct (decide (choice = "3")).
  { unfold test_all_chapters.
    destruct (test_session_outcome shuffle self (read int <$> stdin)
                {| question_count := 0; correct_count := 0 |} Hbank Hshuffle)
      as (positions & Hall & Hloop).
    destruct (enabled_chapters self) as [|ch chs]; [left; by eexists|].
    rewrite Hall, bind_return.
    destruct Hloop as [[[[self' score] rest] ->]| ->]; [|by right].
    rewrite bind_return. unfold save_quiz_data.
    destruct store; [done| | | |]; left; by eexists. }
  destruct (decide (choice = "4")).
  { destruct stdin as [|text stdin]; [by right|].
    destruct (int text) as [chapter_idx|]; [|left; by eexists].
    destruct (toggle_chapter_returns self chapter_idx) as (self' & message & ->).
    left. by eexists. }
  destruct (decide (choice = "5")); [left; by eexists|].
  destruct (decide (choice = "6")); left; by eexists.
Qed.

Lemma run_loop_outcome (int : string -> option Z) (fuel : nat) :
  forall rng shuffle self store stdin,
    bank_weighted (quiz_data self) ->
    (forall t n, choice_in_range (rng t n)) ->
    (forall t positions, shuffle t positions ≡ₚ positions) ->
    store <> NoDirectory ->
    (exists r, run_loop fuel int rng shuffle self store stdin = Return r) \/
    run_loop fuel int rng shuffle self store stdin = Raise EOFError.
Proof.
  induction fuel as [|fuel IH];
    intros rng shuffle self store stdin Hbank Hrng Hshuffle Hstore; simpl;
    [by right|].
  destruct (menu_outcome int (rng 0%nat) (shuffle 0%nat) self store stdin
              Hbank (Hrng 0%nat) (Hshuffle 0%nat) Hstore)
    as [[[[[exit self1] store1] stdin1] Hmenu]|Hmenu];
    rewrite Hmenu; [|by right].
  rewrite bind_return. cbv beta iota zeta.
  destruct exit; [left; by eexists|].
  destruct (menu_returns _ _ _ _ _ _ _ _ _ _ Hmenu)
    as ((_ & Hweighted & _) & _ & _ & _ & Hstore1).
  apply IH; auto.
Qed.

(** No call under a [ValueError] handler of the menu raises a
    [ValueError]. *)
Lemma study_loop_no_ValueError (chapter : string) (fuel : nat) :
  forall rng self stdin score e,
    study_loop fuel rng self chapter stdin score = Raise e ->
    is_ValueError e = false.
Proof.
  induction fuel as [|fuel IH]; intros rng self stdin score e; simpl;
    [by intros [= <-]|].
  destruct (select_index (rng 0%nat) self chapter) as [[i|]|e0] eqn:Hsel;
    simpl; [| done |].
  - unfold ask_at.
    destruct (question_at (quiz_data self) chapter i) as [q|];
      [|by intros [= <-]].
    destruct (ask_question_cases (user_stats self) q (as_line <$> stdin))
      as [[_ ->]|(skipped & n & selected & rest & _ & _ & _ & _ & ->)];
      [by intros [= <-]|].
    unfold evaluate, get_weight.
    destruct (weight q) as [w|];
      [|destruct (bool_decide (selected = correct_option q)); by intros [= <-]].
    destruct (bool_decide (selected = correct_option q)); simpl;
      (destruct (drop _ stdin) as [|line rest']; [by intros [= <-]|];
       destruct (says_yes line); [apply IH|done]).
  - intros [= <-]. revert Hsel. unfold select_index.
    destruct (decide (chapter ∈ disabled_chapters self)); [done|].
    destruct (dict_get (quiz_data self) chapter) as [questions|];
      [|by intros [= <-]].
    destruct questions as [|q0 rest]; [done|].
    assert (forall acc l e1, sum_weights acc l = Raise e1 -> is_ValueError e1 = false)
      as Hsum.
    { intros acc l. revert acc. induction l as [|q l IHl]; intros acc e1; simpl;
        [done|].
      unfold get_weight. destruct (weight q); [apply IHl|by intros [= <-]]. }
    assert (forall r c l i e1, select_loop_index r c l i = Raise e1 ->
              is_ValueError e1 = false) as Hloop.
    { intros r c l. revert c. induction l as [|q l IHl]; intros c i e1; simpl;
        [done|].
      unfold get_weight. destruct (weight q); [|by intros [= <-]].
      simpl. destruct (leb r (add c f)); [done|apply IHl]. }
    destruct (sum_weights zero (q0 :: rest)) as [total|e1] eqn:Htotal.
    + rewrite bind_return. destruct (eqb total zero).
      * destruct ((q0 :: rest) !! _); [done|by intros [= <-]].
      * destruct (select_loop_index (uniform (rng 0%nat) zero total) zero
                    (q0 :: rest) 0) as [[j|]|e1] eqn:Hfound; simpl; try done.
        intros [= <-]. by eapply Hloop.
    + intros [= <-]. by eapply Hsum.
Qed.

Lemma study_chapter_no_ValueError (rng : nat -> Random) (self : State)
    (store : Store) (chapter : string) (stdin : list typed) (e : exn) :
  study_chapter rng self store chapter stdin = Raise e ->
  is_ValueError e = false.
Proof.
  unfold study_chapter.
  destruct (study_loop (S (length stdin)) rng self chapter stdin _)
    as [[[self' score] stdin']|e0] eqn:Hloop.
  - rewrite bind_return. unfold save_quiz_data.
    destruct store; [by intros [= <-]|done|done|done|done].
  - intros [= <-]. by eapply study_loop_no_ValueError.
Qed.

(** X22.  [run] ends normally only on the menu choice ["6"], leaving the
    lines after it unread; whatever was typed before, the bank then has the
    chapters, texts, options and answers it started with, every weight is
    at least 0.1 when they all were, and the statistics record answered
    questions only. *)
Theorem run_ends_on_exit_choice (int : string -> option Z)
    (rng : nat -> nat -> Random)
    (shuffle : nat -> list (string * nat) -> list (string * nat))
    (self self' : State) (store store' : Store) (stdin rest : list string) :
  run int rng shuffle self store stdin = Return (self', store', rest) ->
  (exists consumed, stdin = consumed ++ "6" :: rest) /\
  skeleton (quiz_data self') = skeleton (quiz_data self) /\
  (bank_at_floor (quiz_data self) -> bank_at_floor (quiz_data self')) /\
  (stats_answered (user_stats self) -> stats_answered (user_stats self')).
Proof.
  unfold run. intros Hrun.
  apply run_loop_returns in Hrun as ((Hskel & _ & Hfloor & Hstats) & _ & Hexit).
  by conjuncts.
Qed.

(** X23.  When [run] ends normally no progress is lost: the store holds
    the bank as it is in memory, or else the bank in memory is the one
    [run] started with and the store has not been written. *)
Theorem run_leaves_store_in_step (int : string -> option Z)
    (rng : nat -> nat -> Random)
    (shuffle : nat -> list (string * nat) -> list (string * nat))
    (self self' : State) (store store' : Store) (stdin rest : list string) :
  run int rng shuffle self store stdin = Return (self', store', rest) ->
  store' = Document (quiz_data self') \/
  (store' = store /\ quiz_data self' = quiz_data self).
Proof.
  unfold run. intros Hrun.
  by apply run_loop_returns in Hrun as (_ & Hstep & _).
Qed.

(** X24.  On a bank that carries its weights and a store that can be
    written, [run] ends in one of two ways, whatever is typed: it returns,
    or the keyboard input ends and [EOFError] is raised.  No [KeyError],
    [IndexError] or [FileNotFoundError] leaves the program. *)
Theorem run_completes_or_eof (int : string -> option Z)
    (rng : nat -> nat -> Random)
    (shuffle : nat -> list (string * nat) -> list (string * nat))
    (self : State) (store : Store) (stdin : list string) :
  bank_weighted (quiz_data self) ->
  (forall t n, choice_in_range (rng t n)) ->
  (forall t positions, shuffle t positions ≡ₚ positions) ->
  store <> NoDirectory ->
  (exists self' store' rest,
     run int rng shuffle self store stdin = Return (self', store', rest)) \/
  run int rng shuffle self store stdin = Raise EOFError.
Proof.
  intros Hbank Hrng Hshuffle Hstore. unfold run.
  destruct (run_loop_outcome int (S (length stdin)) rng shuffle self store stdin
              Hbank Hrng Hshuffle Hstore)
    as [[[[self' store'] rest] ->]| ->]; [left; by eexists _, _, _|by right].
Qed.

End Menu.

Section SessionExamples.

Import BiologyQuiz.

Lemma example_keys_distinct : NoDup (keys (quiz_data example_state)).
Proof.
  repeat (apply NoDup_cons; split; [|]); try apply NoDup_nil_2;
    intros Hin; repeat (apply elem_of_cons in Hin as [Hin|Hin]; [discriminate Hin|]);
    by apply elem_of_nil in Hin.
Qed.

Lemma example_rngs_in_range : forall n, choice_in_range (example_rngs n).
Proof. intros k n Hn. exact Hn. Qed.

Lemma toggle_chapter_disables_selection_witness :
  exists self' message,
    toggle_chapter example_state 1 = Return (self', message) /\
    (forall rng, select_question rng self' "Cells" = Return None) /\
    (forall rng other, other <> "Cells" ->
       select_question rng self' other = select_question rng example_state other).
Proof.
  apply (toggle_chapter_disables_selection example_state 1 "Cells").
  - lia.
  - reflexivity.
  - exact example_cells_enabled.
Defined.

Lemma list_chapters_after_toggle_witness :
  exists self' message,
    toggle_chapter example_state 2 = Return (self', message) /\
    list_chapters example_state !! 2%nat = Some "2. Empty [Enabled]" /\
    list_chapters self' !! 2%nat = Some "2. Empty [Disabled]" /\
    list_chapters self' !! 1%nat = list_chapters example_state !! 1%nat.
Proof.
  destruct (list_chapters_after_toggle example_state 2 "Empty")
    as (self' & message & Htoggle & Hbefore & Hafter & Hothers).
  - exact example_keys_distinct.
  - lia.
  - reflexivity.
  - exists self', message. split; [exact Htoggle|].
    split; [exact Hbefore|]. split; [exact Hafter|].
    apply Hothers. discriminate.
Defined.

Lemma ask_question_outcomes_witness :
  (Forall (rejected (example_question (Some f1_0))) [NotANumber; Number 9] /\
   ask_question ∅ (example_question (Some f1_0)) [NotANumber; Number 9]
     = Raise EOFError) \/
  (exists skipped n rest verdict q' stats',
      [NotANumber; Number 9] = skipped ++ Number n :: rest /\
      Forall (rejected (example_question (Some f1_0))) skipped /\
      1 <= n <= Z.of_nat (length (options (example_question (Some f1_0)))) /\
      ask_question ∅ (example_question (Some f1_0)) [NotANumber; Number 9]
        = Return (verdict, q', stats', rest)).
Proof.
  apply (ask_question_outcomes ∅ (example_question (Some f1_0)) f1_0
           [NotANumber; Number 9]).
  reflexivity.
Defined.

Lemma example_misprint_unanswerable :
  correct_option example_misprint ∉ options example_misprint.
Proof.
  intros Hin. simpl in Hin.
  repeat (apply elem_of_cons in Hin as [Hin|Hin]; [discriminate Hin|]).
  by apply elem_of_nil in Hin.
Qed.

Lemma ask_question_unanswerable_witness :
  ask_question ∅ example_misprint [Number 2]
    = Return (false, set_weight example_misprint (add f1_0 f0_5),
              count_incorrect ∅ (question example_misprint), []) /\
  weight (set_weight example_misprint (add f1_0 f0_5)) = Some (add f1_0 f0_5).
Proof.
  assert (ask_question ∅ example_misprint [Number 2]
          = Return (false, set_weight example_misprint (add f1_0 f0_5),
                    count_incorrect ∅ (question example_misprint), []))
    as Hask by reflexivity.
  split; [exact Hask|].
  exact (proj2 (ask_question_unanswerable ∅ example_misprint f1_0 [Number 2]
                  false _ _ [] eq_refl example_misprint_unanswerable Hask)).
Defined.

Lemma select_question_after_load_witness :
  exists q,
    select_question example_rng
      (set_quiz_data example_state (add_weight example_stored)) "Cells"
      = Return (Some q) /\
    q ∈ [example_question (Some f1_0); example_question (Some f0_5)].
Proof.
  apply (select_question_after_load example_rng example_state
           (set_quiz_data example_state (add_weight example_stored))
           (Document example_stored) (Document example_stored) "Cells").
  - intros n Hn. exact Hn.
  - reflexivity.
  - exact example_cells_enabled.
  - reflexivity.
  - discriminate.
Defined.

Lemma study_chapter_nothing_to_ask_witness :
  study_chapter example_rngs example_state NotJSON "Empty" example_keyboard
    = Return (example_state, Document (quiz_data example_state),
              {| question_count := 0; correct_count := 0 |}, example_keyboard).
Proof.
  apply (study_chapter_nothing_to_ask example_rngs example_state NotJSON "Empty").
  - right. reflexivity.
  - discriminate.
Defined.

Lemma study_chapter_changes_weights_only_witness :
  exists self' store' score stdin',
    study_chapter example_rngs example_state NotJSON "Cells" example_keyboard
      = Return (self', store', score, stdin') /\
    store' = Document (quiz_data self') /\
    skeleton (quiz_data self') = skeleton (quiz_data example_state) /\
    dict_get (quiz_data self') "Zero" = Some example_zeros /\
    0 <= correct_count score <= question_count score.
Proof.
  destruct (study_chapter example_rngs example_state NotJSON "Cells"
              example_keyboard)
    as [[[[self' store'] score] stdin']|e] eqn:Hrun.
  - exists self', store', score, stdin'. split; [reflexivity|].
    destruct (study_chapter_changes_weights_only _ _ _ _ _ _ _ _ _ Hrun)
      as (Hstore & Hskel & _ & Hother & _ & _ & Hscore & _).
    split; [exact Hstore|]. split; [exact Hskel|]. split; [|exact Hscore].
    rewrite (Hother "Zero"); [reflexivity|discriminate].
  - vm_compute in Hrun. discriminate Hrun.
Defined.

Lemma study_chapter_then_restart_witness :
  exists self' store' score stdin',
    study_chapter example_rngs example_state NotJSON "Cells" example_keyboard
      = Return (self', store', score, stdin') /\
    load_quiz_data example_state store'
      = Return (set_quiz_data example_state (quiz_data self'), store').
Proof.
  destruct (study_chapter example_rngs example_state NotJSON "Cells"
              example_keyboard)
    as [[[[self' store'] score] stdin']|e] eqn:Hrun.
  - exists self', store', score, stdin'. split; [reflexivity|].
    exact (study_chapter_then_restart _ _ _ _ _ _ _ _ _
             example_state_weighted Hrun example_state).
  - vm_compute in Hrun. discriminate Hrun.
Defined.

Lemma study_chapter_one_question_witness :
  study_chapter example_rngs example_state NotJSON "Cells" example_keyboard
    = Return ({| quiz_data :=
                   put_question (quiz_data example_state) "Cells" 1
                     (example_question (Some (py_max f0_1 (sub f0_5 f0_3))));
                 disabled_chapters := disabled_chapters example_state;
                 user_stats :=
                   count_correct ∅ (question (example_question (Some f0_5))) |},
              Document
                (put_question (quiz_data example_state) "Cells" 1
                   (example_question (Some (py_max f0_1 (sub f0_5 f0_3))))),
              {| question_count := 1; correct_count := 1 |},
              [TypedNumber 1]).
Proof.
  assert (Forall (rejected (example_question (Some f0_5)))
            (as_line <$> [TypedOther; TypedNumber 7])) as Hskip.
  { repeat constructor. simpl. lia. }
  assert (NotJSON <> NoDirectory) as Hstore by discriminate.
  assert (1 <= 2) as Hn by lia.
  exact (study_chapter_one_question example_rngs example_state NotJSON
           "Cells" 1 (example_question (Some f0_5)) f0_5
           [TypedOther; TypedNumber 7] 2 "Mitochondria" TypedOther
           [TypedNumber 1] eq_refl eq_refl eq_refl Hskip Hn eq_refl eq_refl
           Hstore).
Defined.

Lemma test_all_chapters_all_disabled_witness :
  test_all_chapters reverse example_resting NotJSON example_answers
    = Return (example_resting, NotJSON,
              {| question_count := 0; correct_count := 0 |}, example_answers).
Proof.
  apply (test_all_chapters_all_disabled reverse example_resting NotJSON).
  intros chapter Hin. simpl in Hin.
  apply list_elem_of_singleton in Hin. subst chapter.
  simpl. apply elem_of_singleton. reflexivity.
Defined.

Lemma reverse_shuffles (positions : list (string * nat)) :
  reverse positions ≡ₚ positions.
Proof. apply reverse_Permutation. Qed.

Lemma test_all_chapters_spares_disabled_witness :
  exists self' store' score stdin',
    test_all_chapters reverse example_state NotJSON example_answers
      = Return (self', store', score, stdin') /\
    dict_get (quiz_data self') "Plants" = None /\
    skeleton (quiz_data self') = skeleton (quiz_data example_state) /\
    0 <= correct_count score <= question_count score.
Proof.
  destruct (test_all_chapters reverse example_state NotJSON example_answers)
    as [[[[self' store'] score] stdin']|e] eqn:Hrun.
  - exists self', store', score, stdin'. split; [reflexivity|].
    destruct (test_all_chapters_spares_disabled _ _ _ _ _ _ _ _
                reverse_shuffles Hrun)
      as (Hdisabled & Hskel & _ & _ & _ & Hscore & _).
    split; [|split; [exact Hskel|exact Hscore]].
    rewrite (Hdisabled "Plants"); [reflexivity|].
    simpl. apply elem_of_singleton. reflexivity.
  - vm_compute in Hrun. discriminate Hrun.
Defined.

Lemma test_all_chapters_asks_once_witness :
  exists self' store' score stdin',
    test_all_chapters reverse example_state NotJSON example_answers
      = Return (self', store', score, stdin') /\
    exists q',
      question_at (quiz_data self') "Cells" 0 = Some q' /\
      (q' = example_question (Some f1_0) \/
       (("Cells" ∉ disabled_chapters example_state) /\
        one_answer (example_question (Some f1_0)) q')).
Proof.
  destruct (test_all_chapters reverse example_state NotJSON example_answers)
    as [[[[self' store'] score] stdin']|e] eqn:Hrun.
  - exists self', store', score, stdin'. split; [reflexivity|].
    apply (test_all_chapters_asks_once _ _ _ _ _ _ _ _
             example_keys_distinct reverse_shuffles Hrun "Cells" 0%nat).
    reflexivity.
  - vm_compute in Hrun. discriminate Hrun.
Defined.

Lemma incorrect_answer_weight_witness :
  exists w',
    weight (set_weight (example_question (Some f1_0)) (add f1_0 f0_5)) = Some w' /\
    leb f0_5 w' = true.
Proof.
  apply (incorrect_answer_weight ∅ (example_question (Some f1_0)) f1_0
           [Number 1] _ (count_incorrect ∅ (question (example_question (Some f1_0))))
           []).
  - reflexivity.
  - reflexivity.
  - reflexivity.
Defined.

Lemma study_chapter_completes_or_eof_witness :
  (exists self' score stdin',
     study_chapter example_rngs example_state NotJSON "Cells" example_keyboard
       = Return (self', Document (quiz_data self'), score, stdin')) \/
  study_chapter example_rngs example_state NotJSON "Cells" example_keyboard
    = Raise EOFError.
Proof.
  apply (study_chapter_completes_or_eof example_rngs example_state NotJSON
           "Cells" example_keyboard).
  - exact example_state_weighted.
  - exact example_rngs_in_range.
  - simpl. apply list_elem_of_here.
  - discriminate.
Defined.

Lemma test_all_chapters_completes_or_eof_witness :
  (exists self' store' score stdin',
     test_all_chapters reverse example_state NotJSON example_answers
       = Return (self', store', score, stdin')) \/
  test_all_chapters reverse example_state NotJSON example_answers
    = Raise EOFError.
Proof.
  apply (test_all_chapters_completes_or_eof reverse example_state NotJSON
           example_answers).
  - exact example_state_weighted.
  - exact reverse_shuffles.
  - discriminate.
Defined.

End SessionExamples.

Section MergeFrameExamples.

Import Combi.

Lemma merge_json_spares_second_bank_witness :
  contents (memory (run example_file1 example_file2))
    (quiz_data_2 (run example_file1 example_file2)) = example_file2 /\
  dict_get (combined_data (run example_file1 example_file2)) "Ch2"
    = dict_get (quiz_data_2 (run example_file1 example_file2)) "Ch2".
Proof.
  destruct (merge_json_spares_second_bank example_file1 example_file2
              (proj1 example_files_distinct) (proj2 example_files_distinct))
    as (Hsecond & _ & Hshared).
  split; [exact Hsecond|].
  apply (Hshared "Ch2"); [reflexivity|]. exists ["q3"]. reflexivity.
Defined.

Lemma merge_keeps_every_question_witness :
  question_total (output example_file1 example_file2) = 3%nat.
Proof.
  rewrite (merge_keeps_every_question example_file1 example_file2
             (proj1 example_files_distinct) (proj2 example_files_distinct)).
  reflexivity.
Defined.

Lemma merge_output_ignores_chapter_order_witness :
  output example_file1 example_file2
    = output example_file1 example_file2_reordered.
Proof.
  apply (merge_output_ignores_chapter_order example_file1 example_file2
           example_file1 example_file2_reordered).
  - exact (proj1 example_files_distinct).
  - exact (proj2 example_files_distinct).
  - reflexivity.
  - apply perm_swap.
Defined.

Lemma merge_with_empty_bank_witness :
  output example_file2 [] = example_file2 /\
  output [] example_file2 = example_file2.
Proof.
  apply (merge_with_empty_bank example_file2).
  repeat constructor.
Defined.

End MergeFrameExamples.

Section MenuExamples.

Import BiologyQuiz.

Lemma run_ends_on_exit_choice_witness :
  exists self' store' rest,
    run example_int (fun _ => example_rngs) (fun _ => reverse) example_state
      NotJSON example_menu = Return (self', store', rest) /\
    (exists consumed, example_menu = consumed ++ "6" :: rest) /\
    skeleton (quiz_data self') = skeleton (quiz_data example_state).
Proof.
  destruct (run example_int (fun _ => example_rngs) (fun _ => reverse)
              example_state NotJSON example_menu)
    as [[[self' store'] rest]|e] eqn:Hrun.
  - exists self', store', rest. split; [reflexivity|].
    destruct (run_ends_on_exit_choice _ _ _ _ _ _ _ _ _ Hrun)
      as (Hexit & Hskel & _).
    split; [exact Hexit|exact Hskel].
  - vm_compute in Hrun. discriminate Hrun.
Defined.

Lemma run_leaves_store_in_step_witness :
  exists self' store' rest,
    run example_int (fun _ => example_rngs) (fun _ => reverse) example_state
      NotJSON example_menu = Return (self', store', rest) /\
    (store' = Document (quiz_data self') \/
     (store' = NotJSON /\ quiz_data self' = quiz_data example_state)).
Proof.
  destruct (run example_int (fun _ => example_rngs) (fun _ => reverse)
              example_state NotJSON example_menu)
    as [[[self' store'] rest]|e] eqn:Hrun.
  - exists self', store', rest. split; [reflexivity|].
    exact (run_leaves_store_in_step _ _ _ _ _ _ _ _ _ Hrun).
  - vm_compute in Hrun. discriminate Hrun.
Defined.

Lemma run_completes_or_eof_witness :
  (exists self' store' rest,
     run example_int (fun _ => example_rngs) (fun _ => reverse) example_state
       NotJSON example_menu = Return (self', store', rest)) \/
  run example_int (fun _ => example_rngs) (fun _ => reverse) example_state
    NotJSON example_menu = Raise EOFError.
Proof.
  apply (run_completes_or_eof example_int (fun _ => example_rngs)
           (fun _ => reverse) example_state NotJSON example_menu).
  - exact example_state_weighted.
  - intros t. exact (example_rngs_in_range).
  - intros t. exact reverse_shuffles.
  - discriminate.
Defined.

End MenuExamples.
